(** * Stealth Guard: policy decision and bypass state

    A shallow embedding of the allowlist matcher and policy engine
    ([lib/domainFilter.js]), of the allowlist merge of [lib/config.js], of the
    Turnstile bypass coordinator of [background.js] and of the profile removal
    of [lib/proxy.js], with the properties their specification states. *)

From Stdlib Require Import ZArith Ascii String List Bool Lia.
From stdpp Require Import base gmap strings list pretty.

Local Open Scope Z_scope.

(** ** JavaScript strings

    A string is a sequence of code units; the embedding covers the code units
    U+0000 to U+00FF, one [ascii] each.  On that range [toLowerCase] and
    [trim] are the functions below (ECMAScript WhiteSpace and LineTerminator
    restricted to Latin-1, simple case mapping restricted to Latin-1). *)
Module JsString.

(** The characters [String.prototype.trim] strips. *)
Definition isWhiteSpace (c : ascii) : bool :=
  match c with
  | "009" | "010" | "011" | "012" | "013" | " " | "160" => true
  | _ => false
  end%char.

Definition lowerChar (c : ascii) : ascii :=
  let n := N_of_ascii c in
  if ((65 <=? n) && (n <=? 90))%N
     || ((192 <=? n) && (n <=? 222) && negb (n =? 215))%N
  then ascii_of_N (n + 32) else c.

(** [s.toLowerCase()] *)
Fixpoint toLowerCase (s : string) : string :=
  match s with
  | EmptyString => EmptyString
  | String c r => String (lowerChar c) (toLowerCase r)
  end.

Fixpoint trimStart (s : string) : string :=
  match s with
  | EmptyString => EmptyString
  | String c r => if isWhiteSpace c then trimStart r else s
  end.

Fixpoint trimEnd (s : string) : string :=
  match s with
  | EmptyString => EmptyString
  | String c r =>
      match trimEnd r with
      | EmptyString => if isWhiteSpace c then EmptyString else String c EmptyString
      | r' => String c r'
      end
  end.

(** [s.trim()] *)
Definition trim (s : string) : string := trimEnd (trimStart s).

(** [s.split(sep)] for a one-character separator: never the empty list. *)
Fixpoint split (sep : ascii) (s : string) : list string :=
  match s with
  | EmptyString => [EmptyString]
  | String c r =>
      if Ascii.eqb c sep then EmptyString :: split sep r
      else match split sep r with
           | h :: t => String c h :: t
           | [] => [String c EmptyString]
           end
  end.

(** [l.join(sep)] *)
Fixpoint join (sep : string) (l : list string) : string :=
  match l with
  | [] => EmptyString
  | [x] => x
  | x :: r => x +:+ sep +:+ join sep r
  end.

(** [s.startsWith(p)] *)
Definition startsWith (s p : string) : bool := String.prefix p s.

(** [s.endsWith(p)] *)
Fixpoint endsWith (s p : string) : bool :=
  String.eqb s p
  || match s with
     | EmptyString => false
     | String _ r => endsWith r p
     end.

(** [s.includes(c)] for a one-character needle. *)
Fixpoint includes (s : string) (c : ascii) : bool :=
  match s with
  | EmptyString => false
  | String d r => Ascii.eqb d c || includes r c
  end.

(** [s.substring(n)] *)
Fixpoint substringFrom (n : nat) (s : string) : string :=
  match n, s with
  | O, _ => s
  | S _, EmptyString => EmptyString
  | S m, String _ r => substringFrom m r
  end.

(** [s.slice(0, -n)] *)
Definition sliceDropEnd (n : nat) (s : string) : string :=
  String.substring 0 (String.length s - n) s.

(** A string in a boolean position: only the empty string is falsy. *)
Definition truthy (s : string) : bool := negb (String.eqb s EmptyString).

(** An optional string ([undefined] or [null] is [None]) in a boolean
    position. *)
Definition truthyOpt (o : option string) : bool :=
  match o with
  | Some s => truthy s
  | None => false
  end.

(** Two auxiliary notions for the proofs: a string all of whose characters
    [trim] strips, and a list of strings with [w] appended to its last
    element. *)
Fixpoint blank (s : string) : bool :=
  match s with
  | EmptyString => true
  | String c r => isWhiteSpace c && blank r
  end.

Fixpoint appLast (l : list string) (w : string) : list string :=
  match l with
  | [] => []
  | [x] => [x +:+ w]
  | x :: r => x :: appLast r w
  end.

End JsString.

(** ** lib/domainFilter.js *)
Module DomainFilter.
Import JsString.

(** [whitelistString.split(",").map(s => s.trim()).filter(Boolean)] *)
Definition parsePatterns (whitelistString : string) : list string :=
  List.filter truthy (List.map trim (split "," whitelistString)).

Definition matchesPattern (hostname pattern : string) : bool :=
  let hostname := toLowerCase hostname in
  let pattern := toLowerCase pattern in
  if String.eqb hostname pattern then true
  else if endsWith pattern ".*"
          && startsWith hostname (sliceDropEnd 2 pattern +:+ ".")
  then true
  else if
    (if startsWith pattern "*." then
       let domain := substringFrom 2 pattern in
       String.eqb hostname domain || endsWith hostname ("." +:+ domain)
     else if startsWith pattern "*" && negb (startsWith pattern "*.") then
       let domain := substringFrom 1 pattern in
       String.eqb hostname domain || endsWith hostname ("." +:+ domain)
     else false)
  then true
  else if negb (includes pattern "*")
          && String.eqb hostname ("www." +:+ pattern)
  then true
  else false.

Definition isWhitelisted (hostname : string) (whitelistString : option string) : bool :=
  match whitelistString with
  | None => false
  | Some w =>
      if negb (truthy w) || String.eqb (trim w) "" then false
      else existsb (matchesPattern hostname) (parsePatterns w)
  end.

(** A feature section of the configuration: [config[featureName]]. *)
Record FeatureConfig := {
  feature_enabled : bool;
  feature_whitelist : option string
}.

Record Config := {
  enabled : bool;
  globalWhitelist : option string;
  features : gmap string FeatureConfig
}.

Section Policy.
(** [new URL(url).hostname]; [None] when the constructor throws. *)
Variable urlHostname : string -> option string.

Definition extractHostname (url : string) : option string := urlHostname url.

Definition shouldActivateFeature (config : Config) (url featureName : string) : bool :=
  if negb (enabled config) then false
  else
    match features config !! featureName with
    | None => false
    | Some feature =>
        if negb (feature_enabled feature) then false
        else
          match extractHostname url with
          | None => false
          | Some hostname =>
              if negb (truthy hostname) then false
              else if isWhitelisted hostname (globalWhitelist config) then false
              else
                let featureWhitelist :=
                  match feature_whitelist feature with
                  | Some w => if truthy w then w else ""
                  | None => ""
                  end in
                if isWhitelisted hostname (Some featureWhitelist) then false
                else true
          end
    end.
End Policy.

Definition isDomainInWhitelist (domain whitelistString : option string) : bool :=
  match whitelistString, domain with
  | Some w, Some d =>
      if negb (truthy w) || negb (truthy d) then false
      else existsb (fun x => String.eqb (toLowerCase x) (toLowerCase d)) (parsePatterns w)
  | _, _ => false
  end.

Definition addDomainToWhitelist (domain whitelistString : option string) : option string :=
  match domain with
  | None => whitelistString
  | Some d =>
      if negb (truthy d) then whitelistString
      else if isDomainInWhitelist domain whitelistString then whitelistString
      else
        let entry := "*." +:+ d in
        match whitelistString with
        | None => Some entry
        | Some w =>
            if negb (truthy w) || String.eqb (trim w) "" then Some entry
            else Some (trim w +:+ ", " +:+ entry)
        end
  end.

Definition removeDomainFromWhitelist (domain whitelistString : option string) : option string :=
  match domain, whitelistString with
  | Some d, Some w =>
      if negb (truthy d) || negb (truthy w) then whitelistString
      else
        let filtered :=
          List.filter
            (fun x =>
               let normalized := toLowerCase x in
               let targetDomain := toLowerCase d in
               negb (String.eqb normalized targetDomain)
               && negb (String.eqb normalized ("*." +:+ targetDomain)))
            (parsePatterns w) in
        Some (join ", " filtered)
  | _, _ => whitelistString
  end.

(** The token sequence of an allowlist that may be absent. *)
Definition tokensOf (whitelistString : option string) : list string :=
  match whitelistString with
  | Some w => parsePatterns w
  | None => []
  end.

(** A single well-formed allowlist token: not empty, without a comma and
    without surrounding white space. *)
Definition isToken (t : string) : bool :=
  truthy t && negb (includes t ",") && String.eqb (trim t) t.

End DomainFilter.

(** ** A URL parser for the examples

    The handlers only ask the platform's [URL] for a hostname, so the embedding
    takes the parser as a parameter.  The examples instantiate it with this
    reader of [https://host/path] addresses. *)
Module ExampleUrl.
Import JsString.

Definition hostname (url : string) : option string :=
  if startsWith url "https://" then
    match split "/" (substringFrom 8 url) with
    | h :: _ => Some h
    | [] => None
    end
  else None.

End ExampleUrl.

(** ** lib/config.js: the allowlist merge *)
Module ConfigJs.
Import JsString DomainFilter.

Definition orEmpty (o : option string) : string :=
  match o with
  | Some w => if truthy w then w else ""
  | None => ""
  end.

Definition mergeWhitelists (defaultWhitelist userWhitelist : option string) : string :=
  let defaultEntries := parsePatterns (orEmpty defaultWhitelist) in
  let userEntries := parsePatterns (orEmpty userWhitelist) in
  let userEntriesLower : gset string := list_to_set (List.map toLowerCase userEntries) in
  let merged :=
    fold_left
      (fun merged entry =>
         if bool_decide (toLowerCase entry ∈ userEntriesLower) then merged
         else merged ++ [entry])
      defaultEntries userEntries in
  join ", " merged.

End ConfigJs.

(** ** Wildcard regular expressions

    [new RegExp("^" + escaped + "$").test(hostname)], where [escaped] is the
    pattern with every regular-expression metacharacter escaped and every [*]
    replaced by [.*]: a [*] stands for any run of characters without a line
    terminator, every other character for itself, and the whole hostname has
    to match. *)
Module JsRegExp.

Definition isLineTerminator (c : ascii) : bool :=
  match c with
  | "010" | "013" => true
  | _ => false
  end%char.

Fixpoint wildcardTest (pattern : string) : string -> bool :=
  match pattern with
  | EmptyString => fun hostname => String.eqb hostname ""
  | String c rest =>
      if Ascii.eqb c "*" then
        fix star (hostname : string) : bool :=
          wildcardTest rest hostname
          || match hostname with
             | EmptyString => false
             | String d tl => negb (isLineTerminator d) && star tl
             end
      else
        fun hostname =>
          match hostname with
          | EmptyString => false
          | String d tl => Ascii.eqb d c && wildcardTest rest tl
          end
  end.

End JsRegExp.

(** ** The generic wildcard of the specification

    Rule 5 of the matcher as the specification words it: the pattern is
    compiled to a regular expression by escaping all metacharacters except
    [*], replacing [*] with [.*], and anchoring; both inputs are case-folded
    before. *)
Module SpecWildcard.
Import JsString JsRegExp.

Definition genericWildcardMatches (hostname pattern : string) : bool :=
  wildcardTest (toLowerCase pattern) (toLowerCase hostname).

End SpecWildcard.

(** ** content-scripts/injector.js: the allowlist test of the injected code *)
Module Injector.
Import JsString JsRegExp.

(** The callback of [patterns.some] in [isDomainWhitelisted]. *)
Definition patternMatches (hostname pattern : string) : bool :=
  let normalizedHostname := toLowerCase hostname in
  let normalizedPattern := toLowerCase pattern in
  let hasOnlyLeadingWildcard :=
    startsWith normalizedPattern "*"
    && negb (startsWith normalizedPattern "*.")
    && negb (includes (substringFrom 1 normalizedPattern) "*") in
  if String.eqb normalizedHostname normalizedPattern then true
  else if endsWith normalizedPattern ".*"
          && startsWith normalizedHostname (sliceDropEnd 2 normalizedPattern +:+ ".")
  then true
  else if
    (if startsWith normalizedPattern "*." then
       let domain := substringFrom 2 normalizedPattern in
       String.eqb normalizedHostname domain || endsWith normalizedHostname ("." +:+ domain)
     else if hasOnlyLeadingWildcard then
       let domain := substringFrom 1 normalizedPattern in
       String.eqb normalizedHostname domain || endsWith normalizedHostname ("." +:+ domain)
     else false)
  then true
  else if includes normalizedPattern "*"
          && negb (endsWith normalizedPattern ".*")
          && negb (startsWith normalizedPattern "*.")
          && negb hasOnlyLeadingWildcard
          && wildcardTest normalizedPattern normalizedHostname
  then true
  else if negb (includes normalizedPattern "*")
          && String.eqb normalizedHostname ("www." +:+ normalizedPattern)
  then true
  else false.

(** [isDomainWhitelisted(whitelist)] on a page whose
    [window.location.hostname] is [hostname]. *)
Definition isDomainWhitelisted (hostname : string) (whitelist : option string) : bool :=
  match whitelist with
  | None => false
  | Some w =>
      if negb (truthy w) || String.eqb (trim w) "" then false
      else if negb (truthy hostname) then false
      else existsb (patternMatches hostname)
             (List.filter truthy (List.map trim (split "," w)))
  end.

(** The patterns the injected code hands to the regular expression. *)
Definition isGenericWildcard (pattern : string) : bool :=
  let normalizedPattern := toLowerCase pattern in
  includes normalizedPattern "*"
  && negb (endsWith normalizedPattern ".*")
  && negb (startsWith normalizedPattern "*.")
  && negb (startsWith normalizedPattern "*"
           && negb (startsWith normalizedPattern "*.")
           && negb (includes (substringFrom 1 normalizedPattern) "*")).

End Injector.

(** ** background.js: the Turnstile bypass coordinator *)
Module Background.
Import JsString.

Definition TURNSTILE_BYPASS_TTL_MS : Z := 3 * 60 * 1000.

(** A JavaScript number as the coordinator meets it: an integer count of
    milliseconds or seconds, or [NaN]. *)
Inductive number :=
| Num (z : Z)
| NaN.

(** [Math.ceil(x / 1000)]: on an integer the quotient by 1000 is exact or at
    least a thousandth away from an integer, so the rounding of the division
    never crosses one. *)
Definition ceilThousandth (x : number) : number :=
  match x with
  | Num z => Num (- ((- z) / 1000))
  | NaN => NaN
  end.

(** [turnstileTimestamps] is the object literal [{}]: its own properties are
    the recorded timestamps, and a read of a name it does not own falls
    through to [Object.prototype]. *)
Definition objectPrototypeKeys : list string :=
  [ "constructor"; "__proto__"; "hasOwnProperty"; "isPrototypeOf";
    "propertyIsEnumerable"; "toLocaleString"; "toString"; "valueOf";
    "__defineGetter__"; "__defineSetter__"; "__lookupGetter__";
    "__lookupSetter__" ].

Inductive property :=
| Undefined
| Own (timestamp : Z)
| Inherited.

Definition getProperty (o : gmap string Z) (key : string) : property :=
  match o !! key with
  | Some t => Own t
  | None => if bool_decide (key ∈ objectPrototypeKeys) then Inherited else Undefined
  end.

(** [o[key] = value]: a number assigned to [__proto__] is dropped by the
    accessor. *)
Definition setProperty (o : gmap string Z) (key : string) (value : Z) : gmap string Z :=
  if String.eqb key "__proto__" then o else <[key := value]> o.

(** What the handlers start besides their answer.  The reload is chained on
    the re-application of the User-Agent listener:
    [applyUserAgentSpoofing().then(() => setTurnstileSessionFlagAndReload(tabId, now))]. *)
Inductive Effect :=
| ApplyUserAgentSpoofingThenReload (tabId : option Z) (now : Z).

Record State := {
  turnstileTimestamps : gmap string Z;
  clockReads : nat;
  effects : list Effect
}.

Record Tab := { tab_id : option Z; tab_url : option string }.
Record Sender := { sender_tab : option Tab }.
Record Request := { request_hostname : option string }.

Record ExactBypass := { active : bool; remainingMs : number }.

Record ParentBypass := {
  parent_active : bool;
  matchedDomain : option string;
  parent_remainingMs : number
}.

Record DetectedResponse := {
  success : bool;
  ignored : option bool;
  error : option string
}.

Record StatusResponse := {
  skipUA : bool;
  remainingSeconds : option number
}.

(** The handlers run in a state monad over [State]. *)
Definition M (A : Type) : Type := State -> A * State.

#[global] Instance M_ret : MRet M := fun A a s => (a, s).
#[global] Instance M_bind : MBind M :=
  fun A B f m s => let '(a, s') := m s in f a s'.

Definition getTimestamps : M (gmap string Z) := fun s => (turnstileTimestamps s, s).

Definition putTimestamps (o : gmap string Z) : M unit :=
  fun s => (tt, {| turnstileTimestamps := o;
                   clockReads := clockReads s;
                   effects := effects s |}).

Definition emit (e : Effect) : M unit :=
  fun s => (tt, {| turnstileTimestamps := turnstileTimestamps s;
                   clockReads := clockReads s;
                   effects := effects s ++ [e] |}).

(** The state after [n] further readings of the clock. *)
Definition tick (n : nat) (s : State) : State :=
  {| turnstileTimestamps := turnstileTimestamps s;
     clockReads := n + clockReads s;
     effects := effects s |}.

(** The domains [labels.slice(i).join(".")], [i = 0, 1, ...], most specific
    first. *)
Fixpoint suffixDomains (labels : list string) : list string :=
  match labels with
  | [] => []
  | _ :: rest => join "." labels :: suffixDomains rest
  end.

Definition labelSuffixes (hostname : string) : list string :=
  suffixDomains (split "." hostname).

(** No detection is on record for [domain] at time [now], neither an own
    unexpired entry nor a member of [Object.prototype]. *)
Definition untrackedAt (now : Z) (o : gmap string Z) (domain : string) : Prop :=
  (domain ∉ objectPrototypeKeys)
  /\ (forall timestamp,
        o !! domain = Some timestamp -> TURNSTILE_BYPASS_TTL_MS <= now - timestamp).

(** No member of [Object.prototype] is shadowed by an own entry. *)
Definition properKeys (o : gmap string Z) : Prop :=
  forall key, key ∈ objectPrototypeKeys -> o !! key = None.

(** The own entries that have not reached the TTL at time [now]. *)
Definition pruned (now : Z) (o : gmap string Z) : gmap string Z :=
  filter (fun kt => now - kt.2 < TURNSTILE_BYPASS_TTL_MS) o.

Section Handlers.
(** [clock n] is what the [n]-th call of [Date.now()] returns. *)
Variable clock : nat -> Z.
(** [new URL(url).hostname]; [None] when the constructor throws. *)
Variable urlHostname : string -> option string.

Definition dateNow : M Z :=
  fun s => (clock (clockReads s),
            {| turnstileTimestamps := turnstileTimestamps s;
               clockReads := S (clockReads s);
               effects := effects s |}).

Definition getHostnameFromUrl (url : string) : option string := urlHostname url.

Definition resolveTabHostname (sender : option Sender) (fallbackHostname : option string)
  : option string :=
  match sender with
  | Some {| sender_tab := Some {| tab_url := Some url |} |} =>
      if truthy url then
        match getHostnameFromUrl url with
        | Some tabHostname => if truthy tabHostname then Some tabHostname else fallbackHostname
        | None => fallbackHostname
        end
      else fallbackHostname
  | _ => fallbackHostname
  end.

(** The [for ... in] loop deletes every own entry that has reached the
    TTL. *)
Definition pruneExpiredTurnstileEntries (now : Z) : M unit :=
  o ← getTimestamps;
  putTimestamps (pruned now o).

Definition inactiveExact : ExactBypass := {| active := false; remainingMs := Num 0 |}.

Definition getExactTurnstileBypass (hostname : option string) : M ExactBypass :=
  match hostname with
  | None => mret inactiveExact
  | Some h =>
      if negb (truthy h) then mret inactiveExact
      else
        now ← dateNow;
        o ← getTimestamps;
        match getProperty o h with
        | Undefined => mret inactiveExact
        | Own timestamp =>
            if timestamp =? 0 then mret inactiveExact
            else
              let age := now - timestamp in
              if age >=? TURNSTILE_BYPASS_TTL_MS then
                _ ← putTimestamps (delete h o);
                mret inactiveExact
              else
                mret {| active := true;
                        remainingMs := Num (TURNSTILE_BYPASS_TTL_MS - age) |}
        | Inherited =>
            (* [now - timestamp] is [NaN], and [NaN >= TTL] is false *)
            mret {| active := true; remainingMs := NaN |}
        end
  end.

Definition inactiveParent : ParentBypass :=
  {| parent_active := false; matchedDomain := None; parent_remainingMs := Num 0 |}.

(** The loop over [labels.slice(i)], [i = 0, 1, ...]: [labels] is the
    slice still to try. *)
Fixpoint walkLabelSuffixes (labels : list string) : M ParentBypass :=
  match labels with
  | [] => mret inactiveParent
  | _ :: rest =>
      let domain := join "." labels in
      bypass ← getExactTurnstileBypass (Some domain);
      if active bypass then
        mret {| parent_active := true;
                matchedDomain := Some domain;
                parent_remainingMs := remainingMs bypass |}
      else walkLabelSuffixes rest
  end.

Definition getTurnstileBypassIncludingParents (hostname : option string) : M ParentBypass :=
  match hostname with
  | None => mret inactiveParent
  | Some h =>
      if negb (truthy h) then mret inactiveParent
      else
        now ← dateNow;
        _ ← pruneExpiredTurnstileEntries now;
        walkLabelSuffixes (split "." h)
  end.

Definition handleTurnstileDetectedMessage (request : Request) (sender : option Sender)
  : M DetectedResponse :=
  let requestedHostname := request_hostname request in
  let hostname := resolveTabHostname sender requestedHostname in
  match hostname with
  | None => mret {| success := false; ignored := None; error := Some "Missing hostname" |}
  | Some h =>
      if negb (truthy h) then
        mret {| success := false; ignored := None; error := Some "Missing hostname" |}
      else
        existingBypass ← getExactTurnstileBypass hostname;
        if active existingBypass then
          mret {| success := true; ignored := Some true; error := None |}
        else
          now ← dateNow;
          o ← getTimestamps;
          _ ← putTimestamps (setProperty o h now);
          _ ← pruneExpiredTurnstileEntries now;
          _ ← emit (ApplyUserAgentSpoofingThenReload
                      (match sender with
                       | Some {| sender_tab := Some tab |} => tab_id tab
                       | _ => None
                       end) now);
          mret {| success := true; ignored := None; error := None |}
  end.

Definition handleCheckTurnstileStatusMessage (request : Request) (sender : option Sender)
  : M StatusResponse :=
  let hostname := resolveTabHostname sender (request_hostname request) in
  bypassInfo ← getTurnstileBypassIncludingParents hostname;
  if parent_active bypassInfo then
    mret {| skipUA := true;
            remainingSeconds := Some (ceilThousandth (parent_remainingMs bypassInfo)) |}
  else mret {| skipUA := false; remainingSeconds := None |}.

End Handlers.

End Background.

(** ** lib/proxy.js: removing a profile *)
Module Proxy.

Record ProxyProfile := {
  name : string;
  host : string;
  port : Z;
  scheme : string;
  remoteDNS : bool
}.

Record Route := { pattern : string; profile : string }.

(** The [proxy] section of the configuration. *)
Record ProxyConfig := {
  enabled : bool;
  activeProfile : option string;
  profiles : list ProxyProfile;
  domainRoutes : list Route;
  bypassList : list string
}.

(** The configuration object [loadConfig] returns: the [proxy] section, and
    the sections [removeProxyProfile] never looks at. *)
Record Config (Sections : Type) := {
  proxy : ProxyConfig;
  otherSections : Sections
}.
Arguments proxy {Sections} _.
Arguments otherSections {Sections} _.

Section Storage.
(** [chrome.storage.local] behind [loadConfig], which merges the stored
    configuration with the defaults, and [saveConfig]. *)
Variables (Sections Store : Type).
Variable loadConfig : Store -> Config Sections.
Variable saveConfig : Config Sections -> Store -> Store.

Definition removeProxyProfile (profileName : string) (store : Store) : Store :=
  let config := loadConfig store in
  let profiles0 := profiles (proxy config) in
  (* config.proxy.profiles = profiles.filter(p => p.name !== profileName) *)
  let proxy1 :=
    {| enabled := enabled (proxy config);
       activeProfile := activeProfile (proxy config);
       profiles := List.filter (fun p => negb (String.eqb (name p) profileName)) profiles0;
       domainRoutes := domainRoutes (proxy config);
       bypassList := bypassList (proxy config) |} in
  (* if (config.proxy.activeProfile === profileName) { ... } *)
  let proxy2 :=
    if match activeProfile proxy1 with
       | Some a => String.eqb a profileName
       | None => false
       end
    then {| enabled := false;
            activeProfile := None;
            profiles := profiles proxy1;
            domainRoutes := domainRoutes proxy1;
            bypassList := bypassList proxy1 |}
    else proxy1 in
  (* config.proxy.domainRoutes = routes.filter(r => r.profile !== profileName) *)
  let routes := domainRoutes proxy2 in
  let proxy3 :=
    {| enabled := enabled proxy2;
       activeProfile := activeProfile proxy2;
       profiles := profiles proxy2;
       domainRoutes := List.filter (fun r => negb (String.eqb (profile r) profileName)) routes;
       bypassList := bypassList proxy2 |} in
  saveConfig {| proxy := proxy3; otherSections := otherSections config |} store.

End Storage.

End Proxy.

(** ** lib/proxy.js: profiles, routes and the applied settings *)
Module ProxySettings.
Import JsString Proxy.

(** [/^(\d{1,3}\.){3}\d{1,3}$/.test(value)] *)
Definition isDigit (c : ascii) : bool :=
  let n := N_of_ascii c in ((48 <=? n) && (n <=? 57))%N.

Fixpoint allDigits (s : string) : bool :=
  match s with
  | EmptyString => true
  | String c r => isDigit c && allDigits r
  end.

Definition isDigitGroup (s : string) : bool :=
  allDigits s && (1 <=? String.length s)%nat && (String.length s <=? 3)%nat.

Definition isIPv4 (value : string) : bool :=
  match split "." value with
  | [a; b; c; d] => isDigitGroup a && isDigitGroup b && isDigitGroup c && isDigitGroup d
  | _ => false
  end.

(** [/[a-z]/i.test(value)]: without the [u] flag a character beyond ASCII
    never matches an ASCII letter. *)
Definition isAsciiLetter (c : ascii) : bool :=
  let n := N_of_ascii c in
  (((65 <=? n) && (n <=? 90)) || ((97 <=? n) && (n <=? 122)))%N.

Fixpoint hasAsciiLetter (s : string) : bool :=
  match s with
  | EmptyString => false
  | String c r => isAsciiLetter c || hasAsciiLetter r
  end.

Definition isLikelyDomain (value : string) : bool :=
  hasAsciiLetter value && includes value "." && negb (includes value ":").

(** The accumulator of [normalizeBypassList]: the array [normalized] and the
    set [seen]. *)
Record Normalized := {
  normalized : list string;
  seen : gset string
}.

Definition addPattern (value : string) (acc : Normalized) : Normalized :=
  if bool_decide (value ∈ seen acc) then acc
  else {| normalized := normalized acc ++ [value]; seen := {[ value ]} ∪ seen acc |}.

(** One turn of the loop over the raw entries. *)
Definition normalizeEntry (acc : Normalized) (entry : string) : Normalized :=
  let pattern := trim entry in
  if negb (truthy pattern) then acc
  else
    let acc1 := addPattern pattern acc in
    let hasWildcard := includes pattern "*" in
    let isDomain := isLikelyDomain pattern in
    let acc2 :=
      if negb hasWildcard && isDomain && negb (isIPv4 pattern) then
        addPattern ("*" +:+ pattern) (addPattern ("*." +:+ pattern) acc1)
      else acc1 in
    if startsWith pattern "*." && isDomain && negb (isIPv4 (substringFrom 2 pattern)) then
      addPattern ("*" +:+ substringFrom 2 pattern) acc2
    else acc2.

(** [normalizeBypassList(bypassList)] on an array of strings. *)
Definition normalizeBypassList (bypassList : list string) : list string :=
  normalized (fold_left normalizeEntry bypassList {| normalized := []; seen := ∅ |}).

(** The [while] loop of [addProxyProfile]: [fuel] bounds the number of
    turns. *)
Fixpoint uniqueName (fuel counter : nat) (taken : list string) (base finalName : string)
  : option string :=
  if existsb (String.eqb finalName) taken then
    match fuel with
    | O => None
    | S fuel' =>
        uniqueName fuel' (S counter) taken base (base +:+ " (" +:+ pretty counter +:+ ")")
    end
  else Some finalName.

(** [routes.find(r => r.pattern === pattern)] followed by
    [existing.profile = profileName] on the route found. *)
Fixpoint setFirstRoute (routePattern profileName : string) (routes : list Route)
  : option (list Route) :=
  match routes with
  | [] => None
  | r :: rest =>
      if String.eqb (pattern r) routePattern
      then Some ({| pattern := pattern r; profile := profileName |} :: rest)
      else option_map (cons r) (setFirstRoute routePattern profileName rest)
  end.

(** What [applyProxySettings] hands to [chrome.proxy.settings.set]. *)
Inductive ProxyMode :=
| SystemMode
| FixedServers (proxyScheme proxyHost : string) (proxyPort : Z) (bypass : option (list string))
| PacScript (data : string).

Definition withProxy {Sections} (config : Config Sections) (proxy' : ProxyConfig)
  : Config Sections :=
  {| proxy := proxy'; otherSections := otherSections config |}.

Section Storage.
Variables (Sections Store : Type).
Variable loadConfig : Store -> Config Sections.
Variable saveConfig : Config Sections -> Store -> Store.
(** [config.enabled === false] and [config.globalWhitelist] when it is a
    string. *)
Variable enabledIsFalse : Sections -> bool.
Variable globalWhitelist : Sections -> option string.
(** The name [fetchProxyLocation] and [generateProfileName] give a host. *)
Variable generatedName : string -> string.
(** The text [generatePACScript] builds. *)
Variable generatePACScript :
  list ProxyProfile -> list Route -> option string -> option string -> list string -> string.

(** [addProxyProfile(profile)]: the new store and the profile returned, or
    [None] when the loop runs out of fuel. *)
Definition addProxyProfile (profile : ProxyProfile) (store : Store)
  : option (Store * ProxyProfile) :=
  let named :=
    if negb (truthy (name profile)) || String.eqb (trim (name profile)) ""
    then generatedName (host profile) else name profile in
  let config := loadConfig store in
  let profiles0 := profiles (proxy config) in
  match uniqueName (S (length profiles0)) 1 (List.map name profiles0) named named with
  | None => None
  | Some finalName =>
      let profile' :=
        {| name := finalName; host := host profile; port := port profile;
           scheme := scheme profile; remoteDNS := remoteDNS profile |} in
      let proxy' :=
        {| enabled := enabled (proxy config);
           activeProfile := activeProfile (proxy config);
           profiles := profiles0 ++ [profile'];
           domainRoutes := domainRoutes (proxy config);
           bypassList := bypassList (proxy config) |} in
      Some (saveConfig (withProxy config proxy') store, profile')
  end.

Definition getProxyProfiles (store : Store) : list ProxyProfile :=
  profiles (proxy (loadConfig store)).

Definition addDomainRoute (routePattern profileName : string) (store : Store) : Store :=
  let config := loadConfig store in
  let routes := domainRoutes (proxy config) in
  let routes' :=
    match setFirstRoute routePattern profileName routes with
    | Some updated => updated
    | None => routes ++ [{| pattern := routePattern; profile := profileName |}]
    end in
  saveConfig
    (withProxy config
       {| enabled := enabled (proxy config);
          activeProfile := activeProfile (proxy config);
          profiles := profiles (proxy config);
          domainRoutes := routes';
          bypassList := bypassList (proxy config) |}) store.

Definition removeDomainRoute (routePattern : string) (store : Store) : Store :=
  let config := loadConfig store in
  let routes := domainRoutes (proxy config) in
  saveConfig
    (withProxy config
       {| enabled := enabled (proxy config);
          activeProfile := activeProfile (proxy config);
          profiles := profiles (proxy config);
          domainRoutes :=
            List.filter (fun r => negb (String.eqb (pattern r) routePattern)) routes;
          bypassList := bypassList (proxy config) |}) store.

Definition getDomainRoutes (store : Store) : list Route :=
  domainRoutes (proxy (loadConfig store)).

Definition applyProxySettings (store : Store) : option ProxyMode :=
  let config := loadConfig store in
  if enabledIsFalse (otherSections config) then Some SystemMode
  else if negb (enabled (proxy config)) then Some SystemMode
  else
    let profiles0 := profiles (proxy config) in
    let routes := domainRoutes (proxy config) in
    let activeProfile0 := activeProfile (proxy config) in
    let normalizedBypassList := normalizeBypassList (bypassList (proxy config)) in
    let noRoutes := (length routes =? 0)%nat in
    if noRoutes && negb (truthyOpt activeProfile0) then Some SystemMode
    else
      let hasGlobalWhitelist :=
        match globalWhitelist (otherSections config) with
        | Some w => negb (String.eqb (trim w) "")
        | None => false
        end in
      if noRoutes && truthyOpt activeProfile0 && negb hasGlobalWhitelist then
        match List.find (fun p => String.eqb (name p) (default "" activeProfile0)) profiles0 with
        | None => None
        | Some p =>
            Some (FixedServers (scheme p) (host p) (port p)
                    (if (0 <? length normalizedBypassList)%nat
                     then Some normalizedBypassList else None))
        end
      else
        Some (PacScript
                (generatePACScript profiles0 routes activeProfile0
                   (globalWhitelist (otherSections config)) normalizedBypassList)).

(** [enableProxy] and [disableProxy]: the store after [saveConfig], and what
    [applyProxySettings] then applies. *)
Definition enableProxy (profileName : string) (store : Store) : Store * option ProxyMode :=
  let config := loadConfig store in
  let store' :=
    saveConfig
      (withProxy config
         {| enabled := true;
            activeProfile := Some profileName;
            profiles := profiles (proxy config);
            domainRoutes := domainRoutes (proxy config);
            bypassList := bypassList (proxy config) |}) store in
  (store', applyProxySettings store').

Definition disableProxy (store : Store) : Store * option ProxyMode :=
  let config := loadConfig store in
  let store' :=
    saveConfig
      (withProxy config
         {| enabled := false;
            activeProfile := None;
            profiles := profiles (proxy config);
            domainRoutes := domainRoutes (proxy config);
            bypassList := bypassList (proxy config) |}) store in
  (store', applyProxySettings store').

End Storage.

End ProxySettings.

(** ** background.js: the ledger of triggered features, the notification
    throttle and the injection configuration *)
Module BackgroundTabs.
Import JsString DomainFilter Background.

Definition NOTIFICATION_THROTTLE_MS : Z := 3770.

(** An entry of [triggeredFeaturesPerTab]; [features] lists the members of
    the [Set] in insertion order, as [Array.from] does. *)
Record TabData := {
  tab_hostname : option string;
  tab_features : list string
}.

(** [set.add(feature)] *)
Definition setAdd (feature : string) (members : list string) : list string :=
  if existsb (String.eqb feature) members then members else members ++ [feature].

Definition markTriggeredFeatureForTab
    (tabId : option Z) (hostname : option string) (feature : string)
    (triggeredFeaturesPerTab : gmap Z TabData) : gmap Z TabData :=
  match tabId with
  | None => triggeredFeaturesPerTab
  | Some id =>
      if id =? 0 then triggeredFeaturesPerTab
      else
        let current :=
          match triggeredFeaturesPerTab !! id with
          | Some data =>
              if bool_decide (tab_hostname data = hostname) then data
              else {| tab_hostname := hostname; tab_features := [] |}
          | None => {| tab_hostname := hostname; tab_features := [] |}
          end in
        <[id := {| tab_hostname := tab_hostname current;
                   tab_features := setAdd feature (tab_features current) |}]>
          triggeredFeaturesPerTab
  end.

Definition handleGetTriggeredFeaturesMessage
    (tabId : option Z) (triggeredFeaturesPerTab : gmap Z TabData) : list string :=
  match tabId with
  | None => []
  | Some id =>
      match triggeredFeaturesPerTab !! id with
      | Some data => tab_features data
      | None => []
      end
  end.

Section Listeners.
(** [new URL(url).hostname]; [None] when the constructor throws. *)
Variable urlHostname : string -> option string.

(** The part of the [chrome.tabs.onUpdated] listener that keeps the ledger:
    [url] is [changeInfo.url]. *)
Definition onTabUpdated (tabId : Z) (url : option string)
    (triggeredFeaturesPerTab : gmap Z TabData) : gmap Z TabData :=
  if truthyOpt url then
    match urlHostname (default "" url) with
    | Some newHostname =>
        match triggeredFeaturesPerTab !! tabId with
        | Some tabData =>
            if bool_decide (tab_hostname tabData = Some newHostname)
            then triggeredFeaturesPerTab
            else delete tabId triggeredFeaturesPerTab
        | None => triggeredFeaturesPerTab
        end
    | None => delete tabId triggeredFeaturesPerTab
    end
  else triggeredFeaturesPerTab.

(** The [chrome.tabs.onRemoved] listener. *)
Definition onTabRemoved (tabId : Z) (triggeredFeaturesPerTab : gmap Z TabData)
  : gmap Z TabData :=
  delete tabId triggeredFeaturesPerTab.

End Listeners.

(** [isHostnameOnFeatureAllowlist(hostname, whitelist, config)] with a loaded
    configuration. *)
Definition isHostnameOnFeatureAllowlist (hostname : option string) (whitelist : string) : bool :=
  match hostname with
  | None => false
  | Some h =>
      if negb (truthy h) || negb (truthy whitelist) then false
      else isWhitelisted h (Some whitelist)
  end.

(** [isHostnameOnGlobalAllowlist(hostname, config)] *)
Definition isHostnameOnGlobalAllowlist (hostname : option string) (config : Config) : bool :=
  match hostname with
  | None => false
  | Some h =>
      if negb (truthy h) then false
      else isWhitelisted h
             (Some (match globalWhitelist config with
                    | Some w => if truthy w then w else ""
                    | None => ""
                    end))
  end.

(** The notification throttle: [lastNotificationTime] and the notifications
    created so far, each with its feature and hostname. *)
Record Notifier := {
  lastNotificationTime : gmap string Z;
  created : list (string * string)
}.

(** [handleFingerprintDetection(feature, hostname)] with the configuration
    [getConfig] returns; [now] is what its [Date.now()] reads. *)
Definition handleFingerprintDetection
    (notificationsEnabled : bool) (config : Config) (now : Z)
    (feature hostname : string) (notifier : Notifier) : Notifier :=
  if negb notificationsEnabled then notifier
  else if negb (enabled config) then notifier
  else
    match features config !! (if String.eqb feature "user-agent" then "useragent" else feature) with
    | None => notifier
    | Some featureConfig =>
        if negb (feature_enabled featureConfig) then notifier
        else
          let featureWhitelist :=
            match feature_whitelist featureConfig with
            | Some w => if truthy w then w else ""
            | None => ""
            end in
          if isHostnameOnFeatureAllowlist (Some hostname) featureWhitelist then notifier
          else
            let key := feature +:+ "-" +:+ hostname in
            let tooSoon :=
              match getProperty (lastNotificationTime notifier) key with
              | Undefined => now - 0 <? NOTIFICATION_THROTTLE_MS
              | Own lastTime => now - lastTime <? NOTIFICATION_THROTTLE_MS
              | Inherited => false
              end in
            if tooSoon then notifier
            else
              {| lastNotificationTime := setProperty (lastNotificationTime notifier) key now;
                 created := created notifier ++ [(feature, hostname)] |}
    end.

(** What [buildInjectionConfigForRequest] answers: the injection
    configuration, or [{enabled: false, globalWhitelist}]. *)
Inductive InjectionConfig :=
| Protections (sections : gmap string FeatureConfig)
| ProtectionsOff (allowlist : option string).

Section Injection.
Variable clock : nat -> Z.
Variable urlHostname : string -> option string.

Definition addFeatureIfActive (config : Config) (url featureName : string)
    (injectionConfig : gmap string FeatureConfig) : gmap string FeatureConfig :=
  if shouldActivateFeature urlHostname config url featureName then
    match features config !! featureName with
    | Some section => <[featureName := section]> injectionConfig
    | None => injectionConfig
    end
  else injectionConfig.

Definition buildInjectionConfigForRequest (config : Config) (requestUrl : string)
    (sender : option Sender) : M InjectionConfig :=
  let injectionConfig :=
    fold_left (fun acc featureName => addFeatureIfActive config requestUrl featureName acc)
      ["canvas"; "webgl"; "font"; "clientrects"; "webgpu"; "audiocontext"; "timezone"] ∅ in
  let userAgentActive := shouldActivateFeature urlHostname config requestUrl "useragent" in
  let topHostname :=
    resolveTabHostname urlHostname sender (getHostnameFromUrl urlHostname requestUrl) in
  exactBypass ← getExactTurnstileBypass clock topHostname;
  if active exactBypass then mret (ProtectionsOff (globalWhitelist config))
  else
    let injectionConfig :=
      if userAgentActive then
        match features config !! "useragent" with
        | Some section => <["useragent" := section]> injectionConfig
        | None => injectionConfig
        end
      else injectionConfig in
    mret (Protections (addFeatureIfActive config requestUrl "webrtc" injectionConfig)).

End Injection.

End BackgroundTabs.

(** ** background.js: the proxy override for allowlisted tabs *)
Module ProxyOverride.
Import JsString DomainFilter BackgroundTabs.

(** The two calls the listeners make: [chrome.proxy.settings.set] with the
    mode [system], and [applyProxySettings()]. *)
Inductive ProxyCall :=
| SetSystemMode
| ApplyProxySettings.

(** [proxyDisabledForWhitelist] and [pendingProxyDisableTabId]. *)
Record Override := {
  proxyDisabledForWhitelist : bool;
  pendingProxyDisableTabId : option Z
}.

(** [isHostnameOnGlobalAllowlist(hostname, currentConfig)] where
    [currentConfig] may still be [null]. *)
Definition onGlobalAllowlist (hostname : string) (currentConfig : option Config) : bool :=
  match currentConfig with
  | Some config => isHostnameOnGlobalAllowlist (Some hostname) config
  | None => false
  end.

Inductive Event :=
| ActiveTabChanged (url : string)
| BeforeRequest (mainFrame : bool) (tabId : Z) (url : string)
| BeforeNavigate (mainFrame : bool) (url : string).

Section Listeners.
(** [new URL(url).hostname]; [None] when the constructor throws. *)
Variable urlHostname : string -> option string.
(** [currentConfig], and whether [currentConfig.proxy.enabled] is set. *)
Variable currentConfig : option Config.
Variable proxyEnabled : bool.

Definition proxyIsOn : bool :=
  match currentConfig with
  | Some _ => proxyEnabled
  | None => false
  end.

(** [updateProxyForActiveTab(url)] *)
Definition updateProxyForActiveTab (url : string) (o : Override)
  : Override * option ProxyCall :=
  if negb proxyIsOn then (o, None)
  else
    match urlHostname url with
    | None => (o, None)
    | Some hostname =>
        let isWhitelisted := onGlobalAllowlist hostname currentConfig in
        if isWhitelisted && negb (proxyDisabledForWhitelist o) then
          ({| proxyDisabledForWhitelist := true;
              pendingProxyDisableTabId := pendingProxyDisableTabId o |},
           Some SetSystemMode)
        else if negb isWhitelisted && proxyDisabledForWhitelist o then
          ({| proxyDisabledForWhitelist := false;
              pendingProxyDisableTabId := pendingProxyDisableTabId o |},
           Some ApplyProxySettings)
        else (o, None)
    end.

(** The [chrome.webRequest.onBeforeRequest] listener; the boolean tells
    whether the request is cancelled. *)
Definition onBeforeRequest (mainFrame : bool) (tabId : Z) (url : string) (o : Override)
  : Override * option ProxyCall * bool :=
  if negb mainFrame then (o, None, false)
  else if bool_decide (pendingProxyDisableTabId o = Some tabId) then
    ({| proxyDisabledForWhitelist := proxyDisabledForWhitelist o;
        pendingProxyDisableTabId := None |}, None, false)
  else if negb (startsWith url "http://") && negb (startsWith url "https://") then
    (o, None, false)
  else
    match urlHostname url with
    | None => (o, None, false)
    | Some hostname =>
        if negb proxyIsOn then (o, None, false)
        else if proxyDisabledForWhitelist o then (o, None, false)
        else if onGlobalAllowlist hostname currentConfig then
          ({| proxyDisabledForWhitelist := true;
              pendingProxyDisableTabId := Some tabId |},
           Some SetSystemMode, true)
        else (o, None, false)
    end.

(** The [chrome.webNavigation.onBeforeNavigate] listener that re-enables
    the proxy. *)
Definition onBeforeNavigate (mainFrame : bool) (url : string) (o : Override)
  : Override * option ProxyCall :=
  if negb mainFrame then (o, None)
  else if proxyDisabledForWhitelist o then
    match urlHostname url with
    | None => (o, None)
    | Some hostname =>
        if negb (onGlobalAllowlist hostname currentConfig) then
          ({| proxyDisabledForWhitelist := false;
              pendingProxyDisableTabId := pendingProxyDisableTabId o |},
           Some ApplyProxySettings)
        else (o, None)
    end
  else (o, None).

Definition listen (e : Event) (o : Override) : Override * option ProxyCall :=
  match e with
  | ActiveTabChanged url => updateProxyForActiveTab url o
  | BeforeRequest mainFrame tabId url => (onBeforeRequest mainFrame tabId url o).1
  | BeforeNavigate mainFrame url => onBeforeNavigate mainFrame url o
  end.

End Listeners.

End ProxyOverride.

(** ** popup.js: the allowlist button of the current site *)
Module Popup.
Import JsString DomainFilter.

(** [isDomainInWhitelist(domain, whitelistString)] of the popup: a match by
    [DomainFilter.isWhitelisted]. *)
Definition isDomainInWhitelist (domain : string) (whitelistString : option string) : bool :=
  if negb (truthyOpt whitelistString) || negb (truthy domain) then false
  else isWhitelisted domain whitelistString.

(** The message the click on the button sends. *)
Inductive Message :=
| RemoveFromWhitelist (domain : string)
| AddToWhitelist (domain : string).

Section Click.
(** [new URL(url).hostname]; [None] when the constructor throws. *)
Variable urlHostname : string -> option string.

(** The click listener of [toggle-current-site]; [tabUrl] is
    [currentTab.url]. *)
Definition toggleCurrentSite (tabUrl : option string) (globalWhitelist : option string)
  : option Message :=
  if negb (truthyOpt tabUrl) then None
  else
    match urlHostname (default "" tabUrl) with
    | None => None
    | Some hostname =>
        if isDomainInWhitelist hostname globalWhitelist
        then Some (RemoveFromWhitelist hostname)
        else Some (AddToWhitelist hostname)
    end.

(** background.js, [updateGlobalWhitelist] under
    [handleAddToWhitelistMessage] and [handleRemoveFromWhitelistMessage]:
    the configuration that is saved and made current. *)
Definition updateGlobalWhitelist (message : Message) (config : Config) : Config :=
  {| enabled := enabled config;
     globalWhitelist :=
       match message with
       | AddToWhitelist domain =>
           addDomainToWhitelist (Some domain) (globalWhitelist config)
       | RemoveFromWhitelist domain =>
           removeDomainFromWhitelist (Some domain) (globalWhitelist config)
       end;
     features := features config |}.

(** A click and the handling of its message by the background script, whose
    configuration is the one the popup shows. *)
Definition click (tabUrl : option string) (config : Config) : Config :=
  match toggleCurrentSite tabUrl (globalWhitelist config) with
  | Some message => updateGlobalWhitelist message config
  | None => config
  end.

End Click.

End Popup.

(** ** Notions used to state further properties *)
Module Notions.
Import JsString.

(** The test [removeDomainFromWhitelist] keeps a token by. *)
Definition keptOnRemove (d x : string) : bool :=
  negb (String.eqb (toLowerCase x) (toLowerCase d))
  && negb (String.eqb (toLowerCase x) ("*." +:+ toLowerCase d)).

(** The profile the first route with the pattern [routePattern] refers to:
    the PAC script tries the routes in their order. *)
Definition routeProfile (routePattern : string) (routes : list Proxy.Route) : option string :=
  option_map Proxy.profile
    (List.find (fun r => String.eqb (Proxy.pattern r) routePattern) routes).

(** The names [addProxyProfile] tries after the name itself: [base (k)] for
    [k] from [counter] on. *)
Definition candidateName (base : string) (k : nat) : string :=
  base +:+ " (" +:+ pretty k +:+ ")".

Definition candidateNames (base : string) (counter n : nat) : list string :=
  candidateName base <$> seq counter n.

(** What the loop of [normalizeBypassList] keeps true of its accumulator:
    [normalized] has no entry twice and no empty entry, and [seen] holds
    exactly its entries. *)
Definition consistent (acc : ProxySettings.Normalized) : Prop :=
  NoDup (ProxySettings.normalized acc)
  /\ (forall x, x ∈ ProxySettings.seen acc <-> In x (ProxySettings.normalized acc))
  /\ (forall x, In x (ProxySettings.normalized acc) -> x <> "").

(** The sections [buildInjectionConfigForRequest] may hand to a frame. *)
Definition injectedFeatures : list string :=
  ["canvas"; "webgl"; "font"; "clientrects"; "webgpu"; "audiocontext"; "timezone";
   "useragent"; "webrtc"].

(** A run of the listeners that share [proxyDisabledForWhitelist]: each
    event comes with the configuration current at that moment. *)
Fixpoint listenAll (urlHostname : string -> option string)
    (events : list (option DomainFilter.Config * bool * ProxyOverride.Event))
    (o : ProxyOverride.Override) : ProxyOverride.Override * list ProxyOverride.ProxyCall :=
  match events with
  | [] => (o, [])
  | (currentConfig, proxyEnabled, e) :: rest =>
      let '(o1, call) := ProxyOverride.listen urlHostname currentConfig proxyEnabled e o in
      let '(o2, calls) := listenAll urlHostname rest o1 in
      (o2, match call with Some c => c :: calls | None => calls end)
  end.

(** The calls take turns, starting with the one the flag asks for: the
    system mode while the flag is down, the stored settings while it is
    up. *)
Fixpoint takeTurns (flag : bool) (calls : list ProxyOverride.ProxyCall) : Prop :=
  match calls with
  | [] => True
  | c :: rest =>
      c = (if flag then ProxyOverride.ApplyProxySettings else ProxyOverride.SetSystemMode)
      /\ takeTurns (negb flag) rest
  end.

(** The proxy section that is saved is the proxy section that is loaded
    next. *)
Definition proxySectionIsStored {Sections Store : Type}
    (loadConfig : Store -> Proxy.Config Sections)
    (saveConfig : Proxy.Config Sections -> Store -> Store) : Prop :=
  forall config store,
    Proxy.proxy (loadConfig (saveConfig config store)) = Proxy.proxy config.

End Notions.

(** ** A store for the proxy settings

    The store is the configuration itself: [load] hands it out and [save]
    replaces it. *)
Module ProxyScenario.
Import Proxy.

Record Rest := {
  restEnabledIsFalse : bool;
  restGlobalWhitelist : option string
}.

Definition load (store : Config Rest) : Config Rest := store.
Definition save (config : Config Rest) (_ : Config Rest) : Config Rest := config.

Definition nyc : ProxyProfile :=
  {| name := "NYC"; host := "203.0.113.7"; port := 1080; scheme := "socks5";
     remoteDNS := true |}.

Definition paris : ProxyProfile :=
  {| name := "Paris, FR"; host := "198.51.100.4"; port := 1080; scheme := "socks5";
     remoteDNS := true |}.

Definition routedStore : Config Rest :=
  {| proxy :=
       {| enabled := true;
          activeProfile := Some "NYC";
          profiles := [nyc; paris];
          domainRoutes := [ {| pattern := "example.org"; profile := "Paris, FR" |} ];
          bypassList := ["localhost"] |};
     otherSections := {| restEnabledIsFalse := false; restGlobalWhitelist := None |} |}.

Definition fixedStore : Config Rest :=
  {| proxy :=
       {| enabled := true;
          activeProfile := Some "NYC";
          profiles := [nyc; paris];
          domainRoutes := [];
          bypassList := ["localhost"; " example.com "] |};
     otherSections := {| restEnabledIsFalse := false; restGlobalWhitelist := Some " " |} |}.

Definition danglingStore : Config Rest :=
  {| proxy :=
       {| enabled := true;
          activeProfile := Some "Berlin";
          profiles := [nyc; paris];
          domainRoutes := [];
          bypassList := [] |};
     otherSections := {| restEnabledIsFalse := false; restGlobalWhitelist := None |} |}.

Definition pacText (_ : list ProxyProfile) (_ : list Route) (_ _ : option string)
    (_ : list string) : string := "function FindProxyForURL(url, host) {}".

End ProxyScenario.

(** ** Inputs of the scenarios *)
Module Scenario.
Import DomainFilter Background.

Definition exampleConfig : Config :=
  {| enabled := true;
     globalWhitelist := Some "intranet.local, *.example.com";
     features := {[ "canvas" := {| feature_enabled := true; feature_whitelist := Some "" |} ]} |}.

(** The moment of a first detection, in milliseconds since the epoch. *)
Definition detectionTime : Z := 1700000000000.

Definition payload (hostname : string) : Request := {| request_hostname := Some hostname |}.

(** The coordinator when the background script starts. *)
Definition initialState : State :=
  {| turnstileTimestamps := ∅; clockReads := 0; effects := [] |}.

(** The state after a challenge on [hostname] was detected at
    [detectionTime]. *)
Definition afterDetection (hostname : string) : State :=
  (handleTurnstileDetectedMessage (fun _ => detectionTime) ExampleUrl.hostname
     (payload hostname) None initialState).2.

(** The state after a challenge on [first] was detected at [detectionTime]
    and one on [second] was detected [delay] milliseconds later. *)
Definition afterTwoDetections (first second : string) (delay : Z) : State :=
  (handleTurnstileDetectedMessage (fun _ => detectionTime + delay) ExampleUrl.hostname
     (payload second) None (afterDetection first)).2.

(** A frame without a usable tab URL. *)
Definition opaqueSender : option Sender :=
  Some {| sender_tab := Some {| tab_id := Some 7; tab_url := Some "about:blank" |} |}.

End Scenario.

(** ** Facts about the string functions *)
Module JsStringFacts.
Import JsString.

#[local] Arguments String.append : simpl nomatch.

Lemma eqb_false_iff (s t : string) : String.eqb s t = false <-> s <> t.
Proof.
  split.
  - intros H ->. rewrite String.eqb_refl in H. discriminate.
  - intros H. destruct (String.eqb s t) eqn:E; [|reflexivity].
    apply String.eqb_eq in E. contradiction.
Qed.

Lemma truthy_cons c s : truthy (String c s) = true.
Proof. reflexivity. Qed.

Lemma truthy_true_iff s : truthy s = true <-> s <> "".
Proof.
  destruct s; unfold truthy; simpl; split; intros H; try discriminate; try reflexivity.
  destruct H. reflexivity.
Qed.

Lemma whitespace_not_comma c : isWhiteSpace c = true -> Ascii.eqb c "," = false.
Proof.
  intros H. destruct (Ascii.eqb c ",") eqn:E; [|reflexivity].
  apply Ascii.eqb_eq in E. subst c. discriminate.
Qed.

Lemma blank_no_comma w : blank w = true -> includes w "," = false.
Proof.
  induction w as [|c w IH]; simpl; [reflexivity|].
  intros [Hc Hw]%andb_prop. rewrite (whitespace_not_comma _ Hc). auto.
Qed.

Lemma split_not_nil sep s : split sep s <> [].
Proof.
  destruct s as [|c r]; simpl; [discriminate|].
  destruct (Ascii.eqb c sep); [discriminate|].
  destruct (split sep r); discriminate.
Qed.

Lemma split_no_sep sep s : includes s sep = false -> split sep s = [s].
Proof.
  induction s as [|c r IH]; simpl; [reflexivity|].
  intros [Hc Hr]%orb_false_elim. rewrite Hc, (IH Hr). reflexivity.
Qed.

Lemma split_pieces_no_sep sep s x : In x (split sep s) -> includes x sep = false.
Proof.
  revert x. induction s as [|c r IH]; simpl; intros x Hx.
  - destruct Hx as [<-|[]]. reflexivity.
  - destruct (Ascii.eqb c sep) eqn:Hc.
    + destruct Hx as [<-|Hx]; [reflexivity|auto].
    + destruct (split sep r) as [|h t] eqn:Hs.
      * destruct Hx as [<-|[]]. simpl. rewrite Hc. reflexivity.
      * destruct Hx as [<-|Hx].
        -- simpl. rewrite Hc. apply IH. left. reflexivity.
        -- apply IH. right. exact Hx.
Qed.

Lemma split_app_sep sep a b :
  split sep (a +:+ String sep b) = split sep a ++ split sep b.
Proof.
  induction a as [|c a IH]; simpl.
  - rewrite Ascii.eqb_refl. reflexivity.
  - destruct (Ascii.eqb c sep); [rewrite IH; reflexivity|].
    rewrite IH. destruct (split sep a) as [|h t] eqn:Hs.
    + destruct (split_not_nil _ _ Hs).
    + reflexivity.
Qed.

Lemma split_app_no_sep sep a w :
  includes w sep = false -> split sep (a +:+ w) = appLast (split sep a) w.
Proof.
  intros Hw. induction a as [|c a IH]; simpl.
  - apply split_no_sep, Hw.
  - destruct (Ascii.eqb c sep).
    + rewrite IH. destruct (split sep a) eqn:Hs; [destruct (split_not_nil _ _ Hs)|].
      reflexivity.
    + rewrite IH. destruct (split sep a) as [|h [|h' t]] eqn:Hs.
      * destruct (split_not_nil _ _ Hs).
      * reflexivity.
      * reflexivity.
Qed.

(** *** trim *)

Lemma trimEnd_blank w : blank w = true -> trimEnd w = "".
Proof.
  induction w as [|c w IH]; simpl; [reflexivity|].
  intros [Hc Hw]%andb_prop. rewrite (IH Hw), Hc. reflexivity.
Qed.

Lemma trimStart_blank w : blank w = true -> trimStart w = "".
Proof.
  induction w as [|c w IH]; simpl; [reflexivity|].
  intros [Hc Hw]%andb_prop. rewrite Hc. auto.
Qed.

Lemma trimEnd_empty_blank s : trimEnd s = "" -> blank s = true.
Proof.
  induction s as [|c r IH]; simpl; [reflexivity|].
  destruct (trimEnd r) eqn:E; [|discriminate].
  destruct (isWhiteSpace c); [auto|discriminate].
Qed.

Lemma trimStart_empty_blank s : trimStart s = "" -> blank s = true.
Proof.
  induction s as [|c r IH]; simpl; [reflexivity|].
  destruct (isWhiteSpace c); [auto|discriminate].
Qed.

Lemma trimStart_blank_app w s : blank w = true -> trimStart (w +:+ s) = trimStart s.
Proof.
  induction w as [|c w IH]; simpl; [reflexivity|].
  intros [Hc Hw]%andb_prop. rewrite Hc. auto.
Qed.

Lemma trim_blank w : blank w = true -> trim w = "".
Proof. intros H. unfold trim. rewrite (trimStart_blank _ H). reflexivity. Qed.

Lemma trim_empty_blank s : trim s = "" -> blank s = true.
Proof.
  unfold trim. intros H%trimEnd_empty_blank.
  induction s as [|c r IH]; simpl in *; [reflexivity|].
  destruct (isWhiteSpace c) eqn:Hc; simpl in *; [auto|].
  rewrite Hc in H. discriminate.
Qed.

Lemma trimEnd_idem s : trimEnd (trimEnd s) = trimEnd s.
Proof.
  induction s as [|c r IH]; simpl; [reflexivity|].
  destruct (trimEnd r) as [|d r'] eqn:E.
  - destruct (isWhiteSpace c) eqn:Hc; simpl; [reflexivity|].
    rewrite Hc. reflexivity.
  - change (trimEnd (String c (String d r'))) with
      (match trimEnd (String d r') with
       | EmptyString => if isWhiteSpace c then EmptyString else String c EmptyString
       | x => String c x
       end).
    rewrite IH. reflexivity.
Qed.

Lemma trimEnd_app_blank s w : blank w = true -> trimEnd (s +:+ w) = trimEnd s.
Proof.
  intros Hw. induction s as [|c r IH]; simpl.
  - apply trimEnd_blank, Hw.
  - rewrite IH. reflexivity.
Qed.

Lemma trimStart_trimEnd_cons c r :
  isWhiteSpace c = false -> trimStart (trimEnd (String c r)) = trimEnd (String c r).
Proof.
  intros Hc. simpl. destruct (trimEnd r); rewrite ?Hc; simpl; rewrite Hc; reflexivity.
Qed.

Lemma trimStart_fixed s :
  trimStart s = "" \/ exists c r, trimStart s = String c r /\ isWhiteSpace c = false.
Proof.
  induction s as [|c r IH]; simpl; [left; reflexivity|].
  destruct (isWhiteSpace c) eqn:Hc; [exact IH|].
  right. exists c, r. split; [reflexivity|exact Hc].
Qed.

Lemma trim_idem s : trim (trim s) = trim s.
Proof.
  unfold trim. destruct (trimStart_fixed s) as [->|(c & r & -> & Hc)]; [reflexivity|].
  rewrite (trimStart_trimEnd_cons _ _ Hc). apply trimEnd_idem.
Qed.

Lemma trim_whitespace_cons c s : isWhiteSpace c = true -> trim (String c s) = trim s.
Proof. intros Hc. unfold trim. simpl. rewrite Hc. reflexivity. Qed.

Lemma trim_app_blank s w : blank w = true -> trim (s +:+ w) = trim s.
Proof.
  intros Hw. induction s as [|c r IH].
  - simpl. rewrite !trim_blank; auto.
  - destruct (isWhiteSpace c) eqn:Hc.
    + change (String c r +:+ w) with (String c (r +:+ w)).
      rewrite !(trim_whitespace_cons _ _ Hc). exact IH.
    + unfold trim. change (String c r +:+ w) with (String c (r +:+ w)).
      simpl trimStart. rewrite Hc.
      change (String c (r +:+ w)) with (String c r +:+ w).
      apply trimEnd_app_blank, Hw.
Qed.

Lemma trimEnd_decompose s : exists w, blank w = true /\ s = trimEnd s +:+ w.
Proof.
  induction s as [|c r (w & Hw & IH)]; simpl.
  - exists "". split; reflexivity.
  - destruct (trimEnd r) as [|d r'] eqn:E.
    + simpl in IH. subst w. destruct (isWhiteSpace c) eqn:Hc.
      * exists (String c r). simpl. rewrite Hc, Hw. split; reflexivity.
      * exists r. split; [exact Hw|reflexivity].
    + exists w. split; [exact Hw|].
      change (String c (String d r') +:+ w) with (String c (String d r' +:+ w)).
      rewrite <- IH. reflexivity.
Qed.

Lemma trimStart_decompose s : exists w, blank w = true /\ s = w +:+ trimStart s.
Proof.
  induction s as [|c r (w & Hw & IH)]; simpl.
  - exists "". split; reflexivity.
  - destruct (isWhiteSpace c) eqn:Hc.
    + exists (String c w). simpl. rewrite Hc, Hw, <- IH. split; reflexivity.
    + exists "". split; reflexivity.
Qed.

Lemma includes_app s t c : includes (s +:+ t) c = includes s c || includes t c.
Proof.
  induction s as [|d s IH]; simpl; [reflexivity|]. rewrite IH, orb_assoc. reflexivity.
Qed.

Lemma includes_trim s c : includes s c = false -> includes (trim s) c = false.
Proof.
  intros H. unfold trim.
  destruct (trimStart_decompose s) as (w1 & _ & E1).
  destruct (trimEnd_decompose (trimStart s)) as (w2 & _ & E2).
  rewrite E1, E2, !includes_app in H.
  apply orb_false_elim in H as [_ H]. apply orb_false_elim in H as [H _]. exact H.
Qed.

End JsStringFacts.


(** ** Facts about allowlist strings *)
Module DomainFilterFacts.
Import JsString JsStringFacts DomainFilter.

#[local] Arguments String.append : simpl nomatch.

Lemma parsePatterns_blank w : blank w = true -> parsePatterns w = [].
Proof.
  intros Hw. unfold parsePatterns.
  rewrite (split_no_sep _ _ (blank_no_comma _ Hw)). simpl.
  rewrite (trim_blank _ Hw). reflexivity.
Qed.

Lemma parsePatterns_whitespace_cons c s :
  isWhiteSpace c = true -> parsePatterns (String c s) = parsePatterns s.
Proof.
  intros Hc. unfold parsePatterns. simpl.
  rewrite (whitespace_not_comma _ Hc).
  destruct (split "," s) as [|h t] eqn:Hs; [destruct (split_not_nil _ _ Hs)|].
  simpl. rewrite (trim_whitespace_cons _ _ Hc). reflexivity.
Qed.

Lemma parsePatterns_app_comma a b :
  parsePatterns (a +:+ String "," b) = parsePatterns a ++ parsePatterns b.
Proof.
  unfold parsePatterns. rewrite split_app_sep, List.map_app, List.filter_app. reflexivity.
Qed.

Lemma map_trim_appLast l w : blank w = true -> List.map trim (appLast l w) = List.map trim l.
Proof.
  intros Hw. induction l as [|x [|y r] IH]; simpl in *.
  - reflexivity.
  - rewrite (trim_app_blank _ _ Hw). reflexivity.
  - rewrite IH. reflexivity.
Qed.

Lemma parsePatterns_app_blank a w :
  blank w = true -> parsePatterns (a +:+ w) = parsePatterns a.
Proof.
  intros Hw. unfold parsePatterns.
  rewrite (split_app_no_sep _ _ _ (blank_no_comma _ Hw)), (map_trim_appLast _ _ Hw).
  reflexivity.
Qed.

Lemma parsePatterns_trimStart s : parsePatterns (trimStart s) = parsePatterns s.
Proof.
  induction s as [|c r IH]; simpl; [reflexivity|].
  destruct (isWhiteSpace c) eqn:Hc; [|reflexivity].
  rewrite (parsePatterns_whitespace_cons _ _ Hc). exact IH.
Qed.

Lemma parsePatterns_trim s : parsePatterns (trim s) = parsePatterns s.
Proof.
  unfold trim. destruct (trimEnd_decompose (trimStart s)) as (w & Hw & E).
  rewrite <- (parsePatterns_trimStart s). rewrite E at 2.
  symmetry. apply parsePatterns_app_blank, Hw.
Qed.

Lemma isToken_spec t :
  isToken t = true <-> t <> "" /\ includes t "," = false /\ trim t = t.
Proof.
  unfold isToken. rewrite !andb_true_iff, negb_true_iff, truthy_true_iff, String.eqb_eq.
  tauto.
Qed.

Lemma parsePatterns_token t : isToken t = true -> parsePatterns t = [t].
Proof.
  intros (Hne & Hc & Ht)%isToken_spec. unfold parsePatterns.
  rewrite (split_no_sep _ _ Hc). simpl. rewrite Ht.
  apply truthy_true_iff in Hne. rewrite Hne. reflexivity.
Qed.

Lemma parsePatterns_are_tokens s x : In x (parsePatterns s) -> isToken x = true.
Proof.
  unfold parsePatterns. intros [Hin Ht]%List.filter_In.
  apply List.in_map_iff in Hin as (y & <- & Hy).
  apply isToken_spec. split; [|split].
  - apply truthy_true_iff, Ht.
  - apply includes_trim, (split_pieces_no_sep _ _ _ Hy).
  - apply trim_idem.
Qed.

Lemma parsePatterns_join l :
  List.Forall (fun t => isToken t = true) l -> parsePatterns (join ", " l) = l.
Proof.
  induction l as [|x [|y r] IH]; intros Hl.
  - reflexivity.
  - simpl. apply parsePatterns_token. inversion Hl; assumption.
  - change (join ", " (x :: y :: r)) with (x +:+ String "," (String " " (join ", " (y :: r)))).
    rewrite parsePatterns_app_comma, parsePatterns_whitespace_cons by reflexivity.
    inversion Hl as [|? ? Hx Hr]; subst.
    rewrite (parsePatterns_token _ Hx), (IH Hr). reflexivity.
Qed.

Lemma parsePatterns_tokens_Forall s :
  List.Forall (fun t => isToken t = true) (parsePatterns s).
Proof. apply List.Forall_forall. intros x. apply parsePatterns_are_tokens. Qed.

Lemma Forall_filter_tokens (f : string -> bool) l :
  List.Forall (fun t => isToken t = true) l ->
  List.Forall (fun t => isToken t = true) (List.filter f l).
Proof.
  rewrite !List.Forall_forall. intros H x [Hx _]%List.filter_In. auto.
Qed.

Lemma parsePatterns_join_parsePatterns s :
  parsePatterns (join ", " (parsePatterns s)) = parsePatterns s.
Proof. apply parsePatterns_join, parsePatterns_tokens_Forall. Qed.

Lemma trim_nonempty_truthy w : String.eqb (trim w) "" = false -> truthy w = true.
Proof.
  intros H. destruct w; [discriminate H|reflexivity].
Qed.

Lemma parsePatterns_nil_of_trim_empty w : String.eqb (trim w) "" = true -> parsePatterns w = [].
Proof.
  intros H%String.eqb_eq. apply parsePatterns_blank, trim_empty_blank, H.
Qed.

Lemma isWhitelisted_of_pattern hostname w pattern :
  In pattern (parsePatterns w) ->
  matchesPattern hostname pattern = true ->
  isWhitelisted hostname (Some w) = true.
Proof.
  intros Hin Hm. unfold isWhitelisted.
  destruct (String.eqb (trim w) "") eqn:Et.
  - rewrite (parsePatterns_nil_of_trim_empty _ Et) in Hin. destruct Hin.
  - rewrite (trim_nonempty_truthy _ Et). simpl.
    apply List.existsb_exists. exists pattern. split; assumption.
Qed.

End DomainFilterFacts.

(** ** The policy engine and the allowlist helpers *)
Module DomainFilterSpec.
Import JsString JsStringFacts DomainFilter DomainFilterFacts ConfigJs SpecWildcard Scenario.

#[local] Arguments String.append : simpl nomatch.

(** C1. Whatever the feature sections hold, [shouldActivateFeature] answers
    [false] when the global [enabled] flag is off, and answers [false] when
    the hostname of the URL matches a pattern of the global allowlist: the
    decision is taken by the global tier alone. *)
Theorem shouldActivateFeature_global_tiers
    (urlHostname : string -> option string) (config : Config) (url featureName : string) :
  enabled config = false
  \/ (exists hostname w pattern,
        extractHostname urlHostname url = Some hostname
        /\ globalWhitelist config = Some w
        /\ In pattern (parsePatterns w)
        /\ matchesPattern hostname pattern = true) ->
  shouldActivateFeature urlHostname config url featureName = false.
Proof.
  intros [Hoff | (hostname & w & pattern & Hh & Hw & Hin & Hm)];
    unfold shouldActivateFeature.
  - rewrite Hoff. reflexivity.
  - destruct (enabled config); [|reflexivity]. simpl.
    destruct (features config !! featureName) as [feature|]; [|reflexivity].
    destruct (feature_enabled feature); [|reflexivity]. simpl.
    rewrite Hh, Hw, (isWhitelisted_of_pattern _ _ _ Hin Hm).
    destruct (truthy hostname); reflexivity.
Qed.

Lemma shouldActivateFeature_global_tiers_witness :
  shouldActivateFeature ExampleUrl.hostname exampleConfig "https://sub.example.com/" "canvas"
  = false.
Proof.
  apply shouldActivateFeature_global_tiers. right.
  exists "sub.example.com", "intranet.local, *.example.com", "*.example.com".
  repeat split; try reflexivity. simpl. right. left. reflexivity.
Defined.

(** The regular expression of a pattern matches the pattern itself. *)
Lemma wildcardTest_refl p : JsRegExp.wildcardTest p p = true.
Proof.
  induction p as [|c r IH]; [reflexivity|].
  cbn [JsRegExp.wildcardTest]. destruct (Ascii.eqb c "*") eqn:Hc.
  - apply Ascii.eqb_eq in Hc. subst c. cbn.
    destruct r; rewrite IH; cbn; rewrite ?orb_true_r; reflexivity.
  - rewrite Ascii.eqb_refl, IH. reflexivity.
Qed.

(** The matcher of the injected code does what rule 5 says on the patterns it
    hands to the regular expression. *)
Lemma injector_generic_wildcard hostname pattern :
  Injector.isGenericWildcard pattern = true ->
  Injector.patternMatches hostname pattern = genericWildcardMatches hostname pattern.
Proof.
  unfold Injector.isGenericWildcard, Injector.patternMatches, genericWildcardMatches.
  cbv zeta. set (h := toLowerCase hostname). set (p := toLowerCase pattern).
  intros H. apply andb_prop in H as [H Hlead]. apply andb_prop in H as [H Hdot].
  apply andb_prop in H as [Hstar Hend].
  apply negb_true_iff in Hend, Hdot, Hlead. rewrite Hlead, Hstar, Hend, Hdot.
  cbn [andb negb orb].
  destruct (String.eqb h p) eqn:E.
  - apply String.eqb_eq in E. rewrite E. symmetry. apply wildcardTest_refl.
  - destruct (JsRegExp.wildcardTest p h); reflexivity.
Qed.

(** C5. On the pattern [*localhost*], which has a [*] beyond the leading
    position, and the hostname [foo-localhost-bar], the regular expression of
    rule 5 matches, the matcher of the injected code matches, and
    [matchesPattern] answers [false]; the same on [a*b] and [axb]. *)
Theorem matchesPattern_generic_wildcard_missing :
  genericWildcardMatches "foo-localhost-bar" "*localhost*" = true
  /\ Injector.patternMatches "foo-localhost-bar" "*localhost*" = true
  /\ matchesPattern "foo-localhost-bar" "*localhost*" = false
  /\ genericWildcardMatches "axb" "a*b" = true
  /\ matchesPattern "axb" "a*b" = false.
Proof. repeat split; reflexivity. Qed.

(** C6. [*.example.com] is already a token of the allowlist, and
    [addDomainToWhitelist] appends it a second time. *)
Theorem addDomainToWhitelist_wildcard_duplicate :
  isDomainInWhitelist (Some "*.example.com") (Some "*.example.com") = true
  /\ addDomainToWhitelist (Some "example.com") (Some "*.example.com")
     = Some "*.example.com, *.example.com".
Proof. split; reflexivity. Qed.

(** *** Adding and removing *)

Lemma toLowerCase_wildcard h : toLowerCase ("*." +:+ h) = "*." +:+ toLowerCase h.
Proof. reflexivity. Qed.

Lemma length_app (a b : string) :
  String.length (a +:+ b) = (String.length a + String.length b)%nat.
Proof. induction a as [|c a IH]; simpl; [reflexivity|]. rewrite IH. reflexivity. Qed.

Lemma wildcard_neq h : String.eqb ("*." +:+ h) h = false.
Proof.
  apply eqb_false_iff. intros E. apply (f_equal String.length) in E.
  rewrite length_app in E. simpl in E. lia.
Qed.

Lemma trimEnd_of_trim_fixed h : trim h = h -> trimEnd h = h.
Proof.
  intros H. rewrite <- H at 1. unfold trim. rewrite trimEnd_idem. exact H.
Qed.

Lemma trimEnd_cons_fixed c r : trimEnd r = r -> r <> "" -> trimEnd (String c r) = String c r.
Proof. intros H Hr. simpl. rewrite H. destruct r; [contradiction|reflexivity]. Qed.

Lemma isToken_wildcard h : isToken h = true -> isToken ("*." +:+ h) = true.
Proof.
  intros (Hne & Hc & Ht)%isToken_spec. apply isToken_spec. split; [|split].
  - discriminate.
  - simpl. exact Hc.
  - unfold trim. simpl trimStart.
    apply trimEnd_cons_fixed; [|discriminate].
    apply trimEnd_cons_fixed; [|exact Hne].
    apply trimEnd_of_trim_fixed, Ht.
Qed.

Lemma filter_all {A} (f : A -> bool) l :
  (forall x, In x l -> f x = true) -> List.filter f l = l.
Proof.
  induction l as [|x l IH]; simpl; intros H; [reflexivity|].
  rewrite (H x (or_introl eq_refl)), IH; [reflexivity|]. intros y Hy. apply H. right. exact Hy.
Qed.

Lemma existsb_false {A} (f : A -> bool) l :
  existsb f l = false -> forall x, In x l -> f x = false.
Proof.
  induction l as [|y l IH]; simpl; intros H x Hx; [destruct Hx|].
  apply orb_false_elim in H as [Hy Hl]. destruct Hx as [<-|Hx]; auto.
Qed.

Lemma truthy_app_cons a c b : truthy (a +:+ String c b) = true.
Proof. destruct a; reflexivity. Qed.

(** Removing [h] from the allowlist that holds only [*.h] leaves nothing. *)
Lemma remove_sole_wildcard h :
  isToken h = true ->
  removeDomainFromWhitelist (Some h) (Some ("*." +:+ h)) = Some "".
Proof.
  intros Hh. pose proof (isToken_wildcard _ Hh) as He.
  apply isToken_spec in Hh as (Hne & _ & _). apply truthy_true_iff in Hne.
  unfold removeDomainFromWhitelist. rewrite Hne. simpl negb. simpl orb.
  rewrite (parsePatterns_token _ He). cbn [List.filter].
  rewrite toLowerCase_wildcard, String.eqb_refl, andb_false_r. reflexivity.
Qed.

(** *** When adding is a no-op *)

Lemma blank_head_whitespace c r : blank (String c r) = true -> isWhiteSpace c = true.
Proof. simpl. intros [H _]%andb_prop. exact H. Qed.

Lemma trim_head_not_whitespace w c r : trim w = String c r -> isWhiteSpace c = false.
Proof.
  unfold trim. destruct (trimStart_fixed w) as [->|(d & r' & -> & Hd)]; [discriminate|].
  simpl. destruct (trimEnd r'); [rewrite Hd|]; intros [= <- _]; exact Hd.
Qed.

Lemma trim_decompose w : exists w1 w2,
  blank w1 = true /\ blank w2 = true /\ w = w1 +:+ trim w +:+ w2.
Proof.
  destruct (trimStart_decompose w) as (w1 & H1 & E1).
  destruct (trimEnd_decompose (trimStart w)) as (w2 & H2 & E2).
  exists w1, w2. split; [exact H1|]. split; [exact H2|].
  unfold trim. rewrite <- E2. exact E1.
Qed.

(** Appending an entry changes the allowlist string. *)
Lemma append_entry_changes w d :
  String.eqb (trim w) "" = false -> trim w +:+ ", " +:+ "*." +:+ d <> w.
Proof.
  intros Hne E. destruct (trim_decompose w) as (w1 & w2 & H1 & H2 & Hw).
  destruct (trim w) as [|c r] eqn:Ht; [discriminate Hne|].
  pose proof (trim_head_not_whitespace _ _ _ Ht) as Hc.
  destruct w1 as [|c1 w1].
  - rewrite Hw in E. simpl in E. injection E as E.
    apply String.app_inj in E. subst w2. discriminate H2.
  - rewrite Hw in E. simpl in E. injection E as E1 _. subst c1.
    apply blank_head_whitespace in H1. congruence.
Qed.

(** What the code does: adding is a no-op exactly when the hostname is empty
    or already a token itself; a [*.]hostname token does not count. *)
Lemma addDomainToWhitelist_noop_iff d whitelistString :
  addDomainToWhitelist (Some d) whitelistString = whitelistString
  <-> truthy d = false \/ isDomainInWhitelist (Some d) whitelistString = true.
Proof.
  unfold addDomainToWhitelist. destruct (truthy d) eqn:Hd; cbn [negb].
  2: { split; [left; reflexivity|reflexivity]. }
  destruct (isDomainInWhitelist (Some d) whitelistString) eqn:Hin.
  { split; [right; reflexivity|reflexivity]. }
  split; [|intros [H|H]; discriminate H].
  destruct whitelistString as [w|]; [|discriminate].
  destruct (negb (truthy w) || String.eqb (trim w) "") eqn:Hblank.
  - intros [= E]. exfalso. apply orb_prop in Hblank as [Hw|Hw].
    + subst w. discriminate Hw.
    + apply String.eqb_eq, trim_empty_blank in Hw. subst w. discriminate Hw.
  - intros [= E]. exfalso. apply orb_false_elim in Hblank as [_ Hw].
    exact (append_entry_changes _ _ Hw E).
Qed.

(** C7, amended.  For a hostname that is a well-formed token and an
    allowlist that holds neither the hostname nor [*.]hostname as a token
    (compared case-insensitively), adding the hostname and then removing it
    gives an allowlist with the token sequence of the original, hence the
    same set of tokens. *)
Theorem add_then_remove_restores_tokens (h : string) (whitelistString : option string) :
  isToken h = true ->
  isDomainInWhitelist (Some h) whitelistString = false ->
  isDomainInWhitelist (Some ("*." +:+ h)) whitelistString = false ->
  tokensOf (removeDomainFromWhitelist (Some h)
              (addDomainToWhitelist (Some h) whitelistString))
  = tokensOf whitelistString.
Proof.
  intros Hh Hbare Hwild.
  pose proof (isToken_wildcard _ Hh) as He.
  pose proof Hh as (Hne & _ & _)%isToken_spec. apply truthy_true_iff in Hne.
  unfold addDomainToWhitelist. rewrite Hne, Hbare. simpl negb. cbv iota.
  destruct whitelistString as [w|].
  - destruct (negb (truthy w) || String.eqb (trim w) "") eqn:Hblank.
    + rewrite (remove_sole_wildcard _ Hh). simpl.
      apply orb_prop in Hblank as [Hw | Hw].
      * destruct w; [reflexivity|discriminate].
      * symmetry. apply parsePatterns_nil_of_trim_empty, Hw.
    + apply orb_false_elim in Hblank as [Hw _]. apply negb_false_iff in Hw.
      unfold isDomainInWhitelist in Hbare, Hwild. rewrite Hw, Hne in Hbare.
      rewrite Hw in Hwild. change (truthy ("*." +:+ h)) with true in Hwild.
      cbn [negb orb] in Hbare, Hwild.
      unfold removeDomainFromWhitelist. rewrite Hne.
      change (trim w +:+ ", " +:+ "*." +:+ h)
        with (trim w +:+ String "," (String " " ("*." +:+ h))).
      rewrite truthy_app_cons. simpl negb. simpl orb. cbv iota.
      rewrite parsePatterns_app_comma, parsePatterns_trim,
        parsePatterns_whitespace_cons, (parsePatterns_token _ He) by reflexivity.
      rewrite List.filter_app. cbn [List.filter].
      rewrite toLowerCase_wildcard, String.eqb_refl, andb_false_r, app_nil_r.
      rewrite filter_all.
      * cbn [tokensOf]. apply parsePatterns_join_parsePatterns.
      * intros x Hx. rewrite (existsb_false _ _ Hbare x Hx).
        pose proof (existsb_false _ _ Hwild x Hx) as Hx'. cbv beta in Hx'.
        rewrite toLowerCase_wildcard in Hx'.
        change ("*." +:+ toLowerCase h) with (String "*" (String "." (toLowerCase h))) in Hx'.
        rewrite Hx'. reflexivity.
  - rewrite (remove_sole_wildcard _ Hh). reflexivity.
Qed.

Lemma add_then_remove_restores_tokens_witness :
  tokensOf (removeDomainFromWhitelist (Some "shop.example.org")
              (addDomainToWhitelist (Some "shop.example.org")
                 (Some " Intranet.local ,*.figma.com")))
  = ["Intranet.local"; "*.figma.com"].
Proof.
  apply (add_then_remove_restores_tokens "shop.example.org"
           (Some " Intranet.local ,*.figma.com")); reflexivity.
Defined.

(** C7 as stated fails when the hostname is already a token: adding is then a
    no-op and removing takes the token out. *)
Lemma add_then_remove_counterexample :
  ~ (forall x,
       In x (tokensOf (removeDomainFromWhitelist (Some "a.com")
                         (addDomainToWhitelist (Some "a.com") (Some "a.com"))))
       <-> In x (tokensOf (Some "a.com"))).
Proof.
  intros H. destruct (H "a.com") as [_ H']. simpl in H'.
  apply H'. left. reflexivity.
Qed.

(** *** Merging the default allowlist into the user's *)

Lemma fold_left_append_unless (skip : string -> bool) (l acc : list string) :
  fold_left (fun merged entry => if skip entry then merged else merged ++ [entry]) l acc
  = acc ++ List.filter (fun entry => negb (skip entry)) l.
Proof.
  revert acc. induction l as [|e l IH]; intros acc; simpl.
  - rewrite app_nil_r. reflexivity.
  - rewrite IH. destruct (skip e); simpl; [reflexivity|].
    rewrite <- app_assoc. reflexivity.
Qed.

Lemma has_lower_existsb (entries : list string) (x : string) :
  bool_decide (x ∈ (list_to_set entries : gset string)) = existsb (String.eqb x) entries.
Proof.
  destruct (existsb (String.eqb x) entries) eqn:E.
  - apply bool_decide_eq_true. apply elem_of_list_to_set, list_elem_of_In.
    apply List.existsb_exists in E as (y & Hy & ->%String.eqb_eq). exact Hy.
  - apply bool_decide_eq_false. intros H%elem_of_list_to_set%list_elem_of_In.
    pose proof (existsb_false _ _ E x H) as Hx. rewrite String.eqb_refl in Hx. discriminate.
Qed.

(** C9. The merged allowlist is the user's entries in their order followed by
    the default entries that no user entry equals case-insensitively; read
    back, it has exactly those tokens; up to case its tokens are the union of
    the user's and the default ones; and merging the user allowlist [foo.com]
    with the default allowlist [foo.com, bar.com] gives [foo.com, bar.com]. *)
Theorem mergeWhitelists_union (defaultWhitelist userWhitelist : option string) :
  let userEntries := parsePatterns (orEmpty userWhitelist) in
  let defaultEntries := parsePatterns (orEmpty defaultWhitelist) in
  let added :=
    List.filter
      (fun entry =>
         negb (existsb (String.eqb (toLowerCase entry)) (List.map toLowerCase userEntries)))
      defaultEntries in
  let merged := mergeWhitelists defaultWhitelist userWhitelist in
  merged = join ", " (userEntries ++ added)
  /\ parsePatterns merged = userEntries ++ added
  /\ (forall x,
        In x (List.map toLowerCase (parsePatterns merged))
        <-> In x (List.map toLowerCase userEntries)
            \/ In x (List.map toLowerCase defaultEntries))
  /\ mergeWhitelists (Some "foo.com, bar.com") (Some "foo.com") = "foo.com, bar.com".
Proof.
  intros userEntries defaultEntries added merged.
  assert (Hmerged : merged = join ", " (userEntries ++ added)).
  { unfold merged, mergeWhitelists. rewrite fold_left_append_unless.
    fold userEntries defaultEntries. f_equal. f_equal. unfold added.
    apply List.filter_ext. intros e. rewrite has_lower_existsb. reflexivity. }
  assert (Hparse : parsePatterns merged = userEntries ++ added).
  { rewrite Hmerged. apply parsePatterns_join, List.Forall_app. split.
    - apply parsePatterns_tokens_Forall.
    - apply Forall_filter_tokens, parsePatterns_tokens_Forall. }
  split; [exact Hmerged|]. split; [exact Hparse|]. split; [|reflexivity].
  intros x. rewrite Hparse, List.map_app, List.in_app_iff. split.
  - intros [Hu | Ha]; [left; exact Hu|right].
    apply List.in_map_iff in Ha as (e & <- & [He _]%List.filter_In).
    apply List.in_map, He.
  - intros [Hu | Hd]; [left; exact Hu|].
    apply List.in_map_iff in Hd as (e & <- & He).
    destruct (existsb (String.eqb (toLowerCase e)) (List.map toLowerCase userEntries)) eqn:E.
    + left. apply List.existsb_exists in E as (y & Hy & ->%String.eqb_eq). exact Hy.
    + right. apply List.in_map, List.filter_In. split; [exact He|]. rewrite E. reflexivity.
Qed.

End DomainFilterSpec.

(** ** Facts about the bypass coordinator *)
Module BackgroundFacts.
Import JsString JsStringFacts Background.

#[local] Arguments String.append : simpl nomatch.

Lemma join_split sep s : join (String sep "") (split sep s) = s.
Proof.
  induction s as [|c r IH]; [reflexivity|].
  cbn [split]. destruct (Ascii.eqb c sep) eqn:Hc.
  - apply Ascii.eqb_eq in Hc. subst c.
    destruct (split sep r) as [|h t] eqn:Hs; [destruct (split_not_nil _ _ Hs)|].
    cbn [join]. cbn [join] in IH. rewrite IH. reflexivity.
  - destruct (split sep r) as [|h [|h' t]] eqn:Hs.
    + destruct (split_not_nil _ _ Hs).
    + cbn [join] in *. rewrite IH. reflexivity.
    + cbn [join] in *. rewrite <- IH. reflexivity.
Qed.

Lemma labelSuffixes_head h : exists rest, labelSuffixes h = h :: rest.
Proof.
  unfold labelSuffixes. destruct (split "." h) as [|l ls] eqn:Hs.
  - destruct (split_not_nil _ _ Hs).
  - exists (suffixDomains ls). cbn [suffixDomains]. rewrite <- Hs.
    rewrite (join_split "." h). reflexivity.
Qed.

Lemma suffixDomains_app l1 l2 :
  exists pre, suffixDomains (l1 ++ l2) = pre ++ suffixDomains l2 /\ length pre = length l1.
Proof.
  induction l1 as [|l l1 (pre & IH & Hlen)].
  - exists []. split; reflexivity.
  - exists (join "." (l :: l1 ++ l2) :: pre). cbn [app suffixDomains length].
    rewrite IH, Hlen. split; reflexivity.
Qed.

(** A subdomain of [d] has [d] among its label suffixes, after at least one
    more specific suffix. *)
Lemma subdomain_labelSuffixes sub d :
  exists moreSpecific lessSpecific,
    labelSuffixes (sub +:+ String "." d) = moreSpecific ++ d :: lessSpecific
    /\ moreSpecific <> [].
Proof.
  unfold labelSuffixes. rewrite split_app_sep.
  destruct (suffixDomains_app (split "." sub) (split "." d)) as (pre & E & Hlen).
  destruct (labelSuffixes_head d) as (rest & Hd). unfold labelSuffixes in Hd.
  exists pre, rest. rewrite E, Hd. split; [reflexivity|].
  intros ->. destruct (split "." sub) eqn:Hs; [destruct (split_not_nil _ _ Hs)|].
  discriminate Hlen.
Qed.

Lemma tick_0 s : tick 0 s = s.
Proof. destruct s. reflexivity. Qed.

Lemma tick_tick n m s : tick n (tick m s) = tick (n + m) s.
Proof. unfold tick. simpl. f_equal. lia. Qed.

Lemma getProperty_own o h t : o !! h = Some t -> getProperty o h = Own t.
Proof. intros H. unfold getProperty. rewrite H. reflexivity. Qed.

Lemma getProperty_undefined o h :
  o !! h = None -> h ∉ objectPrototypeKeys -> getProperty o h = Undefined.
Proof.
  intros H Hp. unfold getProperty. rewrite H, bool_decide_eq_false_2; [reflexivity|exact Hp].
Qed.

(** [ceilThousandth] is the ceiling of the quotient by 1000. *)
Lemma ceilThousandth_spec z :
  exists q, ceilThousandth (Num z) = Num q /\ 1000 * (q - 1) < z <= 1000 * q.
Proof.
  exists (- ((- z) / 1000)). split; [reflexivity|].
  pose proof (Z.div_mod (- z) 1000 ltac:(lia)) as H.
  pose proof (Z.mod_pos_bound (- z) 1000 ltac:(lia)) as Hb. lia.
Qed.

(** Unfolds the monad: one step of a handler on an explicit state. *)
Ltac run_monad :=
  unfold mbind, M_bind, mret, M_ret, dateNow, getTimestamps, putTimestamps, emit;
  cbn [turnstileTimestamps clockReads effects].

Section Clock.
Variable clock : nat -> Z.

Lemma getExact_falsy h s :
  truthy h = false -> getExactTurnstileBypass clock (Some h) s = (inactiveExact, s).
Proof. intros H. unfold getExactTurnstileBypass. rewrite H. reflexivity. Qed.

Lemma getExact_undefined h s :
  truthy h = true ->
  getProperty (turnstileTimestamps s) h = Undefined ->
  getExactTurnstileBypass clock (Some h) s = (inactiveExact, tick 1 s).
Proof.
  intros Hh Hp. unfold getExactTurnstileBypass. rewrite Hh. cbn [negb]. run_monad.
  rewrite Hp. reflexivity.
Qed.

Lemma getExact_fresh h s t0 :
  truthy h = true ->
  turnstileTimestamps s !! h = Some t0 ->
  t0 <> 0 ->
  clock (clockReads s) - t0 < TURNSTILE_BYPASS_TTL_MS ->
  getExactTurnstileBypass clock (Some h) s
  = ({| active := true;
        remainingMs := Num (TURNSTILE_BYPASS_TTL_MS - (clock (clockReads s) - t0)) |},
     tick 1 s).
Proof.
  intros Hh Ht Hz Hage. unfold getExactTurnstileBypass. rewrite Hh. cbn [negb]. run_monad.
  rewrite (getProperty_own _ _ _ Ht).
  rewrite (proj2 (Z.eqb_neq _ _) Hz), Z.geb_leb, (proj2 (Z.leb_gt _ _) Hage).
  reflexivity.
Qed.

Lemma getExact_expired h s t0 :
  truthy h = true ->
  turnstileTimestamps s !! h = Some t0 ->
  t0 <> 0 ->
  TURNSTILE_BYPASS_TTL_MS <= clock (clockReads s) - t0 ->
  getExactTurnstileBypass clock (Some h) s
  = (inactiveExact,
     {| turnstileTimestamps := delete h (turnstileTimestamps s);
        clockReads := S (clockReads s);
        effects := effects s |}).
Proof.
  intros Hh Ht Hz Hage. unfold getExactTurnstileBypass. rewrite Hh. cbn [negb]. run_monad.
  rewrite (getProperty_own _ _ _ Ht).
  rewrite (proj2 (Z.eqb_neq _ _) Hz), Z.geb_leb, (proj2 (Z.leb_le _ _) Hage).
  reflexivity.
Qed.

(** Walking past domains that are not on record only reads the clock. *)
Lemma walk_skip pre : forall labels d post s,
  suffixDomains labels = pre ++ d :: post ->
  (forall x, In x pre -> getProperty (turnstileTimestamps s) x = Undefined) ->
  exists labels' n,
    suffixDomains labels' = d :: post
    /\ walkLabelSuffixes clock labels s = walkLabelSuffixes clock labels' (tick n s).
Proof.
  induction pre as [|x pre IH]; intros labels d post s Hsuf Hpre.
  - exists labels, 0%nat. rewrite tick_0. split; [exact Hsuf|reflexivity].
  - destruct labels as [|l rest]; [discriminate Hsuf|].
    cbn [suffixDomains] in Hsuf.
    pose proof (f_equal (hd "") Hsuf) as Hx. pose proof (f_equal (@tl _) Hsuf) as Hrest.
    cbn [hd tl app] in Hx, Hrest. clear Hsuf.
    assert (Hundef : getProperty (turnstileTimestamps s) x = Undefined)
      by (apply Hpre; left; reflexivity).
    destruct (truthy x) eqn:Htx.
    + destruct (IH rest d post (tick 1 s) Hrest) as (labels' & n & Hl & Hw).
      { intros y Hy. apply Hpre. right. exact Hy. }
      exists labels', (n + 1)%nat. split; [exact Hl|].
      rewrite <- tick_tick, <- Hw. cbn [walkLabelSuffixes]. rewrite Hx.
      unfold mbind, M_bind. rewrite (getExact_undefined _ _ Htx Hundef). reflexivity.
    + destruct (IH rest d post s Hrest) as (labels' & n & Hl & Hw).
      { intros y Hy. apply Hpre. right. exact Hy. }
      exists labels', n. split; [exact Hl|].
      rewrite <- Hw. cbn [walkLabelSuffixes]. rewrite Hx.
      unfold mbind, M_bind. rewrite (getExact_falsy _ _ Htx). reflexivity.
Qed.

Lemma walk_none : forall labels s,
  (forall x, In x (suffixDomains labels) -> getProperty (turnstileTimestamps s) x = Undefined) ->
  exists n, walkLabelSuffixes clock labels s = (inactiveParent, tick n s).
Proof.
  induction labels as [|l rest IH]; intros s Hall.
  - exists 0%nat. rewrite tick_0. reflexivity.
  - cbn [suffixDomains] in Hall.
    assert (Hundef : getProperty (turnstileTimestamps s) (join "." (l :: rest)) = Undefined)
      by (apply Hall; left; reflexivity).
    cbn [walkLabelSuffixes]. unfold mbind, M_bind.
    destruct (truthy (join "." (l :: rest))) eqn:Htx.
    + rewrite (getExact_undefined _ _ Htx Hundef). cbn [active inactiveExact].
      destruct (IH (tick 1 s)) as (n & Hw).
      { intros y Hy. apply Hall. right. exact Hy. }
      exists (n + 1)%nat. rewrite Hw, tick_tick. reflexivity.
    + rewrite (getExact_falsy _ _ Htx). cbn [active inactiveExact].
      destruct (IH s) as (n & Hw).
      { intros y Hy. apply Hall. right. exact Hy. }
      exists n. exact Hw.
Qed.

Lemma walk_hit labels d post s t0 :
  suffixDomains labels = d :: post ->
  truthy d = true ->
  turnstileTimestamps s !! d = Some t0 ->
  t0 <> 0 ->
  clock (clockReads s) - t0 < TURNSTILE_BYPASS_TTL_MS ->
  walkLabelSuffixes clock labels s
  = ({| parent_active := true;
        matchedDomain := Some d;
        parent_remainingMs :=
          Num (TURNSTILE_BYPASS_TTL_MS - (clock (clockReads s) - t0)) |},
     tick 1 s).
Proof.
  intros Hsuf Hd Ht Hz Hage. destruct labels as [|l rest]; [discriminate Hsuf|].
  cbn [suffixDomains] in Hsuf. pose proof (f_equal (hd "") Hsuf) as Hx.
  cbn [hd] in Hx. cbn [walkLabelSuffixes]. rewrite Hx. unfold mbind, M_bind.
  rewrite (getExact_fresh _ _ _ Hd Ht Hz Hage). reflexivity.
Qed.

(** An exact lookup that reports inactive keeps every entry that is unexpired
    at each reading of the clock. *)
Lemma getExact_inactive_keeps x s d t0 :
  active (getExactTurnstileBypass clock (Some x) s).1 = false ->
  turnstileTimestamps s !! d = Some t0 ->
  (forall i, (clockReads s <= i)%nat -> clock i - t0 < TURNSTILE_BYPASS_TTL_MS) ->
  turnstileTimestamps (getExactTurnstileBypass clock (Some x) s).2 !! d = Some t0
  /\ (clockReads s <= clockReads (getExactTurnstileBypass clock (Some x) s).2)%nat.
Proof.
  unfold getExactTurnstileBypass. destruct (truthy x); cbn [negb].
  2: { intros _ Ht _. split; [exact Ht|reflexivity]. }
  run_monad. unfold getProperty.
  destruct (turnstileTimestamps s !! x) as [t|] eqn:Hx.
  - destruct (t =? 0).
    + intros _ Ht _. cbn. split; [exact Ht|lia].
    + destruct (clock (clockReads s) - t >=? TURNSTILE_BYPASS_TTL_MS) eqn:Hage.
      * intros _ Ht Hfresh. cbn. split; [|lia].
        rewrite lookup_delete_ne; [exact Ht|]. intros ->.
        rewrite Hx in Ht. injection Ht as ->.
        rewrite Z.geb_leb in Hage. apply Z.leb_le in Hage.
        specialize (Hfresh (clockReads s) (Nat.le_refl _)). lia.
      * intros Hact. discriminate Hact.
  - destruct (bool_decide (x ∈ objectPrototypeKeys)).
    + intros Hact. discriminate Hact.
    + intros _ Ht _. cbn. split; [exact Ht|lia].
Qed.

(** The walk stops at the latest at a domain with an unexpired detection. *)
Lemma walk_reaches pre : forall labels d post s t0,
  suffixDomains labels = pre ++ d :: post ->
  truthy d = true ->
  turnstileTimestamps s !! d = Some t0 ->
  t0 <> 0 ->
  (forall i, (clockReads s <= i)%nat -> clock i - t0 < TURNSTILE_BYPASS_TTL_MS) ->
  parent_active (walkLabelSuffixes clock labels s).1 = true
  /\ exists x, matchedDomain (walkLabelSuffixes clock labels s).1 = Some x
               /\ In x (pre ++ [d]).
Proof.
  induction pre as [|x pre IH]; intros labels d post s t0 Hsuf Hd Ht Hz Hfresh.
  - rewrite (walk_hit labels d post s t0 Hsuf Hd Ht Hz (Hfresh _ (Nat.le_refl _))).
    split; [reflexivity|]. exists d. split; [reflexivity|left; reflexivity].
  - destruct labels as [|l rest]; [discriminate Hsuf|].
    cbn [suffixDomains] in Hsuf.
    pose proof (f_equal (hd "") Hsuf) as Hx. pose proof (f_equal (@tl _) Hsuf) as Hrest.
    cbn [hd tl app] in Hx, Hrest. clear Hsuf.
    cbn [walkLabelSuffixes]. rewrite Hx. unfold mbind, M_bind.
    pose proof (getExact_inactive_keeps x s d t0) as Hkeep.
    destruct (getExactTurnstileBypass clock (Some x) s) as [b s1].
    cbn [fst snd] in Hkeep. destruct (active b) eqn:Hb.
    + split; [reflexivity|]. exists x. split; [reflexivity|left; reflexivity].
    + destruct (Hkeep eq_refl Ht Hfresh) as [Ht1 Hle].
      destruct (IH rest d post s1 t0 Hrest Hd Ht1 Hz) as (Hact & y & Hy & Hin).
      { intros i Hi. apply Hfresh. lia. }
      split; [exact Hact|]. exists y. split; [exact Hy|right; exact Hin].
Qed.

Lemma getParents_unfold h s :
  truthy h = true ->
  getTurnstileBypassIncludingParents clock (Some h) s
  = walkLabelSuffixes clock (split "." h)
      {| turnstileTimestamps := pruned (clock (clockReads s)) (turnstileTimestamps s);
         clockReads := S (clockReads s);
         effects := effects s |}.
Proof.
  intros Hh. unfold getTurnstileBypassIncludingParents, pruneExpiredTurnstileEntries.
  rewrite Hh. reflexivity.
Qed.

(** *** Names of [Object.prototype] are never recorded *)

Lemma getExact_inherited h s :
  truthy h = true ->
  turnstileTimestamps s !! h = None ->
  h ∈ objectPrototypeKeys ->
  getExactTurnstileBypass clock (Some h) s
  = ({| active := true; remainingMs := NaN |}, tick 1 s).
Proof.
  intros Hh Hnone Hp. unfold getExactTurnstileBypass. rewrite Hh. cbn [negb]. run_monad.
  unfold getProperty. rewrite Hnone, bool_decide_eq_true_2 by exact Hp. reflexivity.
Qed.

Lemma getExact_keeps_absent hostname s key :
  turnstileTimestamps s !! key = None ->
  turnstileTimestamps (getExactTurnstileBypass clock hostname s).2 !! key = None.
Proof.
  intros Hk. unfold getExactTurnstileBypass.
  destruct hostname as [h|]; [|exact Hk].
  destruct (truthy h); cbn [negb]; [|exact Hk]. run_monad.
  destruct (getProperty (turnstileTimestamps s) h) as [|t|]; [exact Hk| |exact Hk].
  destruct (t =? 0); [exact Hk|].
  destruct (clock (clockReads s) - t >=? TURNSTILE_BYPASS_TTL_MS); [|exact Hk].
  cbn. apply lookup_delete_None. right. exact Hk.
Qed.

Lemma walk_keeps_absent labels : forall s key,
  turnstileTimestamps s !! key = None ->
  turnstileTimestamps (walkLabelSuffixes clock labels s).2 !! key = None.
Proof.
  induction labels as [|l rest IH]; intros s key Hk; [exact Hk|].
  cbn [walkLabelSuffixes]. unfold mbind, M_bind.
  pose proof (getExact_keeps_absent (Some (join "." (l :: rest))) s key Hk) as H1.
  destruct (getExactTurnstileBypass clock (Some (join "." (l :: rest))) s) as [b s1].
  destruct (active b); [exact H1|]. apply IH, H1.
Qed.

End Clock.

(** *** Pruning *)

Lemma pruned_keeps now (o : gmap string Z) k t :
  o !! k = Some t -> now - t < TURNSTILE_BYPASS_TTL_MS -> pruned now o !! k = Some t.
Proof. intros H Hage. apply map_lookup_filter_Some. split; assumption. Qed.

Lemma pruned_untracked now (o : gmap string Z) k :
  untrackedAt now o k -> getProperty (pruned now o) k = Undefined.
Proof.
  intros [Hp Hexp]. apply getProperty_undefined; [|exact Hp].
  apply map_lookup_filter_None. right. intros t Ht Hage. specialize (Hexp t Ht).
  simpl in Hage. lia.
Qed.

Lemma pruned_lookup_Some now (o : gmap string Z) k t :
  pruned now o !! k = Some t -> o !! k = Some t.
Proof. intros [H _]%map_lookup_filter_Some. exact H. Qed.

(** *** The query for a hostname with an entry of its own *)

Section Query.
Variable clock : nat -> Z.

Lemma query_fresh h ancestors s t0 :
  truthy h = true ->
  turnstileTimestamps s !! h = Some t0 ->
  t0 <> 0 ->
  labelSuffixes h = h :: ancestors ->
  clock (clockReads s) - t0 < TURNSTILE_BYPASS_TTL_MS ->
  clock (S (clockReads s)) - t0 < TURNSTILE_BYPASS_TTL_MS ->
  getTurnstileBypassIncludingParents clock (Some h) s
  = ({| parent_active := true;
        matchedDomain := Some h;
        parent_remainingMs :=
          Num (TURNSTILE_BYPASS_TTL_MS - (clock (S (clockReads s)) - t0)) |},
     {| turnstileTimestamps := pruned (clock (clockReads s)) (turnstileTimestamps s);
        clockReads := S (S (clockReads s));
        effects := effects s |}).
Proof.
  intros Hh Ht Hz Hsuf Hprune Hread. rewrite (getParents_unfold _ _ _ Hh).
  erewrite walk_hit; [reflexivity|exact Hsuf|exact Hh| |exact Hz|exact Hread].
  apply pruned_keeps; assumption.
Qed.

Lemma query_expired h ancestors s t0 :
  truthy h = true ->
  turnstileTimestamps s !! h = Some t0 ->
  t0 <> 0 ->
  labelSuffixes h = h :: ancestors ->
  TURNSTILE_BYPASS_TTL_MS <= clock (S (clockReads s)) - t0 ->
  let '(info, s') := getTurnstileBypassIncludingParents clock (Some h) s in
  turnstileTimestamps s' !! h = None
  /\ (h ∉ objectPrototypeKeys ->
      (forall x, In x ancestors ->
         untrackedAt (clock (clockReads s)) (turnstileTimestamps s) x) ->
      info = inactiveParent
      /\ turnstileTimestamps s'
         = delete h (pruned (clock (clockReads s)) (turnstileTimestamps s))).
Proof.
  intros Hh Ht Hz Hsuf Hexp. rewrite (getParents_unfold _ _ _ Hh).
  set (now := clock (clockReads s)) in *.
  set (s1 := {| turnstileTimestamps := pruned now (turnstileTimestamps s);
                clockReads := S (clockReads s);
                effects := effects s |}).
  destruct (split "." h) as [|l rest] eqn:Hsplit; [destruct (split_not_nil _ _ Hsplit)|].
  unfold labelSuffixes in Hsuf. rewrite Hsplit in Hsuf. cbn [suffixDomains] in Hsuf.
  pose proof (f_equal (hd "") Hsuf) as Hx. pose proof (f_equal (@tl _) Hsuf) as Hrest.
  cbn [hd tl] in Hx, Hrest. clear Hsuf.
  destruct (decide (now - t0 < TURNSTILE_BYPASS_TTL_MS)) as [Hkept | Hgone].
  - (* the entry survives the pruning and is deleted by the exact lookup *)
    cbn [walkLabelSuffixes]. rewrite Hx. unfold mbind, M_bind.
    rewrite (getExact_expired clock h s1 t0 Hh (pruned_keeps _ _ _ _ Ht Hkept) Hz Hexp).
    cbn [active inactiveExact s1 turnstileTimestamps clockReads effects].
    match goal with |- context [walkLabelSuffixes clock rest ?σ] => set (s2 := σ) end.
    pose proof (walk_keeps_absent clock rest s2 h (lookup_delete_eq _ _)) as Habsent.
    destruct (walkLabelSuffixes clock rest s2) as [info s'] eqn:Hw.
    split; [exact Habsent|]. intros _ Hanc.
    destruct (walk_none clock rest s2) as (n & Hn).
    { intros x Hin. rewrite Hrest in Hin. destruct (Hanc x Hin) as [Hp Hx'].
      apply getProperty_undefined; [|exact Hp]. cbn [s2 turnstileTimestamps].
      apply lookup_delete_None. right. apply map_lookup_filter_None. right.
      intros t' Ht' Hage. specialize (Hx' t' Ht'). simpl in Hage. lia. }
    rewrite Hn in Hw. injection Hw as <- <-. split; reflexivity.
  - (* the entry is pruned *)
    assert (Hnone : pruned now (turnstileTimestamps s) !! h = None).
    { apply map_lookup_filter_None. right. intros t' Ht' Hage.
      rewrite Ht in Ht'. injection Ht' as <-. simpl in Hage. lia. }
    pose proof (walk_keeps_absent clock (l :: rest) s1 h Hnone) as Habsent.
    destruct (walkLabelSuffixes clock (l :: rest) s1) as [info s'] eqn:Hw.
    split; [exact Habsent|]. intros Hproto Hanc.
    destruct (walk_none clock (l :: rest) s1) as (n & Hn).
    { cbn [suffixDomains]. rewrite Hx, Hrest. intros x [<-|Hin].
      - apply getProperty_undefined; [exact Hnone|exact Hproto].
      - apply pruned_untracked, Hanc, Hin. }
    rewrite Hn in Hw. injection Hw as <- <-. split; [reflexivity|].
    cbn [tick s1 turnstileTimestamps]. rewrite (delete_id _ _ Hnone). reflexivity.
Qed.

End Query.

End BackgroundFacts.

(** ** The bypass coordinator *)
Module BackgroundSpec.
Import JsString JsStringFacts Background BackgroundFacts Scenario.

Section HandlerProperties.
Variable clock : nat -> Z.
Variable urlHostname : string -> option string.

(** When the sender's tab yields no hostname, the hostname is the fallback. *)
Lemma resolveTabHostname_fallback sender fallbackHostname :
  (forall tab url,
     sender = Some {| sender_tab := Some tab |} ->
     tab_url tab = Some url ->
     truthy url = true ->
     truthyOpt (getHostnameFromUrl urlHostname url) = false) ->
  resolveTabHostname urlHostname sender fallbackHostname = fallbackHostname.
Proof.
  intros Htab. unfold resolveTabHostname.
  destruct sender as [[[[tabId [url|]]|]]|]; try reflexivity.
  destruct (truthy url) eqn:Hurl; [|reflexivity].
  specialize (Htab _ _ eq_refl eq_refl Hurl).
  destruct (getHostnameFromUrl urlHostname url) as [tabHostname|]; [|reflexivity].
  simpl in Htab. rewrite Htab. reflexivity.
Qed.

(** C8. A challenge-detected request for which neither the sender's tab URL
    nor the payload yields a hostname is answered with the error
    [Missing hostname]; the state after the handler is the state before it: no
    entry is added to the bypass map and nothing is started. *)
Theorem detected_without_hostname_is_rejected request sender s :
  (forall tab url,
     sender = Some {| sender_tab := Some tab |} ->
     tab_url tab = Some url ->
     truthy url = true ->
     truthyOpt (getHostnameFromUrl urlHostname url) = false) ->
  truthyOpt (request_hostname request) = false ->
  handleTurnstileDetectedMessage clock urlHostname request sender s
  = ({| success := false; ignored := None; error := Some "Missing hostname" |}, s).
Proof.
  intros Htab Hreq. unfold handleTurnstileDetectedMessage.
  rewrite (resolveTabHostname_fallback _ _ Htab).
  destruct (request_hostname request) as [h|]; [|reflexivity].
  simpl in Hreq. rewrite Hreq. reflexivity.
Qed.

(** A first detection of a hostname that is not on record stores the time of
    the detection and starts the reload. *)
Lemma detected_records request sender s h :
  resolveTabHostname urlHostname sender (request_hostname request) = Some h ->
  truthy h = true ->
  getProperty (turnstileTimestamps s) h = Undefined ->
  let now := clock (S (clockReads s)) in
  handleTurnstileDetectedMessage clock urlHostname request sender s
  = ({| success := true; ignored := None; error := None |},
     {| turnstileTimestamps := pruned now (<[h := now]> (turnstileTimestamps s));
        clockReads := S (S (clockReads s));
        effects := effects s ++
          [ApplyUserAgentSpoofingThenReload
             (match sender with
              | Some {| sender_tab := Some tab |} => tab_id tab
              | _ => None
              end) now] |}).
Proof.
  intros Hres Hh Hundef now. unfold handleTurnstileDetectedMessage.
  rewrite Hres, Hh. cbn [negb]. unfold mbind at 1, M_bind at 1.
  rewrite (getExact_undefined _ _ _ Hh Hundef). cbn [active inactiveExact].
  unfold pruneExpiredTurnstileEntries. run_monad. unfold tick. cbn [Nat.add].
  assert (Hproto : String.eqb h "__proto__" = false).
  { apply eqb_false_iff. intros ->. unfold getProperty in Hundef.
    destruct (turnstileTimestamps s !! "__proto__"); discriminate Hundef. }
  unfold setProperty. rewrite Hproto. reflexivity.
Qed.

(** C2. While the detection of [h] recorded at [t0] is younger than the TTL, a
    further challenge-detected request for [h] is answered
    [{success: true, ignored: true}], the bypass map is left as it was, so the
    timestamp of [h] is still [t0], and nothing is started. *)
Theorem detected_again_within_ttl_is_ignored request sender s h t0 :
  resolveTabHostname urlHostname sender (request_hostname request) = Some h ->
  truthy h = true ->
  turnstileTimestamps s !! h = Some t0 ->
  t0 <> 0 ->
  clock (clockReads s) - t0 < TURNSTILE_BYPASS_TTL_MS ->
  let '(response, s') := handleTurnstileDetectedMessage clock urlHostname request sender s in
  response = {| success := true; ignored := Some true; error := None |}
  /\ turnstileTimestamps s' = turnstileTimestamps s
  /\ turnstileTimestamps s' !! h = Some t0
  /\ effects s' = effects s.
Proof.
  intros Hres Hh Ht Hz Hage. unfold handleTurnstileDetectedMessage.
  rewrite Hres, Hh. cbn [negb]. unfold mbind, M_bind.
  rewrite (getExact_fresh _ _ _ _ Hh Ht Hz Hage). cbn [active].
  unfold mret, M_ret. repeat split. exact Ht.
Qed.

(** C4. Let [d] be a label suffix of [h], for instance the domain [h] is a
    subdomain of, with an unexpired detection on record.  The query for [h]
    walks the label suffixes from the most specific one and reports the bypass
    active, matched at [d] or at a more specific suffix; when no more specific
    suffix has a detection on record, the matched domain is [d] and the
    remaining time is what [d] has left at the moment its entry is read. *)
Theorem ancestor_bypass_covers_subdomain s h moreSpecific d lessSpecific t0 :
  truthy h = true ->
  labelSuffixes h = moreSpecific ++ d :: lessSpecific ->
  truthy d = true ->
  turnstileTimestamps s !! d = Some t0 ->
  t0 <> 0 ->
  (forall i, (clockReads s <= i)%nat -> clock i - t0 < TURNSTILE_BYPASS_TTL_MS) ->
  let info := (getTurnstileBypassIncludingParents clock (Some h) s).1 in
  parent_active info = true
  /\ (exists x, matchedDomain info = Some x /\ In x (moreSpecific ++ [d]))
  /\ ((forall x, In x moreSpecific ->
         untrackedAt (clock (clockReads s)) (turnstileTimestamps s) x) ->
      exists i, (clockReads s < i)%nat
        /\ info = {| parent_active := true;
                     matchedDomain := Some d;
                     parent_remainingMs :=
                       Num (TURNSTILE_BYPASS_TTL_MS - (clock i - t0)) |}).
Proof.
  intros Hh Hsuf Hd Ht Hz Hage info. unfold info.
  rewrite (getParents_unfold _ _ _ Hh).
  set (s1 := {| turnstileTimestamps := pruned (clock (clockReads s)) (turnstileTimestamps s);
                clockReads := S (clockReads s);
                effects := effects s |}).
  assert (Ht1 : turnstileTimestamps s1 !! d = Some t0).
  { apply pruned_keeps; [exact Ht|]. apply Hage. lia. }
  assert (Hage1 : forall i, (clockReads s1 <= i)%nat -> clock i - t0 < TURNSTILE_BYPASS_TTL_MS).
  { intros i Hi. apply Hage. cbn in Hi. lia. }
  destruct (walk_reaches clock moreSpecific (split "." h) d lessSpecific s1 t0
              Hsuf Hd Ht1 Hz Hage1) as (Hact & Hmatched).
  split; [exact Hact|]. split; [exact Hmatched|].
  intros Hmore.
  destruct (walk_skip clock moreSpecific (split "." h) d lessSpecific s1 Hsuf)
    as (labels' & n & Hl & Hw).
  { intros x Hx. apply pruned_untracked, Hmore, Hx. }
  exists (n + S (clockReads s))%nat. split; [lia|].
  rewrite Hw. erewrite walk_hit; [reflexivity|exact Hl|exact Hd|exact Ht1|exact Hz|].
  apply Hage. cbn. lia.
Qed.

(** C3. Let the detection of [h] be recorded at [t0] and let a status query for
    [h] read [h]'s entry at time [t], the clock not running backwards before
    that.  If [t - t0] is below the TTL the answer is active with
    [ceil((TTL - (t - t0)) / 1000)] seconds remaining, and the entry stays.
    If [t - t0] has reached the TTL the entry of [h] is purged; if moreover no
    ancestor domain of [h] has an unexpired detection, the answer is inactive
    and the bypass map after the query is the map of the unexpired entries
    without [h], so what is on record for another hostname does not depend on
    the entry of [h]. *)
Theorem status_query_ttl request sender s h ancestors t0 :
  resolveTabHostname urlHostname sender (request_hostname request) = Some h ->
  truthy h = true ->
  turnstileTimestamps s !! h = Some t0 ->
  t0 <> 0 ->
  clock (clockReads s) <= clock (S (clockReads s)) ->
  labelSuffixes h = h :: ancestors ->
  let t := clock (S (clockReads s)) in
  let '(response, s') := handleCheckTurnstileStatusMessage clock urlHostname request sender s in
  if decide (t - t0 < TURNSTILE_BYPASS_TTL_MS) then
    response = {| skipUA := true;
                  remainingSeconds :=
                    Some (Num (- ((- (TURNSTILE_BYPASS_TTL_MS - (t - t0))) / 1000))) |}
    /\ turnstileTimestamps s' !! h = Some t0
  else
    turnstileTimestamps s' !! h = None
    /\ (h ∉ objectPrototypeKeys ->
        (forall x, In x ancestors ->
           untrackedAt (clock (clockReads s)) (turnstileTimestamps s) x) ->
        response = {| skipUA := false; remainingSeconds := None |}
        /\ turnstileTimestamps s'
           = delete h (pruned (clock (clockReads s)) (turnstileTimestamps s))
        /\ (forall h', h' <> h ->
              turnstileTimestamps s' !! h'
              = pruned (clock (clockReads s)) (turnstileTimestamps s) !! h')).
Proof.
  intros Hres Hh Ht Hz Hmono Hsuf t.
  unfold handleCheckTurnstileStatusMessage. rewrite Hres. unfold mbind, M_bind.
  destruct (decide (t - t0 < TURNSTILE_BYPASS_TTL_MS)) as [Hfresh | Hold].
  - assert (Hprune : clock (clockReads s) - t0 < TURNSTILE_BYPASS_TTL_MS)
      by (unfold t in Hfresh; lia).
    rewrite (query_fresh clock h ancestors s t0 Hh Ht Hz Hsuf Hprune Hfresh).
    cbn [parent_active parent_remainingMs ceilThousandth]. unfold mret, M_ret.
    split; [reflexivity|]. cbn [turnstileTimestamps].
    apply pruned_keeps; assumption.
  - assert (Hexp : TURNSTILE_BYPASS_TTL_MS <= clock (S (clockReads s)) - t0)
      by (unfold t in Hold; lia).
    pose proof (query_expired clock h ancestors s t0 Hh Ht Hz Hsuf Hexp) as Hq.
    destruct (getTurnstileBypassIncludingParents clock (Some h) s) as [info s1].
    destruct Hq as [Hgone Hq].
    destruct (parent_active info) eqn:Hact; unfold mret, M_ret.
    + split; [exact Hgone|]. intros Hproto Hanc.
      destruct (Hq Hproto Hanc) as [-> _]. discriminate Hact.
    + split; [exact Hgone|]. intros Hproto Hanc.
      destruct (Hq Hproto Hanc) as [_ ->]. split; [reflexivity|]. split; [reflexivity|].
      intros h' Hne. apply lookup_delete_ne. congruence.
Qed.

(** In the states the handlers reach from the empty map, no name of
    [Object.prototype] is an own entry: a recorded hostname is never one of
    them. *)
Lemma properKeys_empty : properKeys ∅.
Proof. intros key _. apply lookup_empty. Qed.

Lemma detected_preserves_properKeys request sender s :
  properKeys (turnstileTimestamps s) ->
  properKeys
    (turnstileTimestamps (handleTurnstileDetectedMessage clock urlHostname request sender s).2).
Proof.
  intros Hinv. unfold handleTurnstileDetectedMessage.
  destruct (resolveTabHostname urlHostname sender (request_hostname request)) as [h|];
    [|exact Hinv].
  destruct (truthy h) eqn:Hh; cbn [negb]; [|exact Hinv].
  unfold mbind at 1, M_bind at 1.
  assert (Hkeep : properKeys (turnstileTimestamps (getExactTurnstileBypass clock (Some h) s).2)).
  { intros key Hkey. apply getExact_keeps_absent, Hinv, Hkey. }
  destruct (getExactTurnstileBypass clock (Some h) s) as [b s1] eqn:E.
  cbn [snd] in Hkeep. destruct (active b) eqn:Hb; [exact Hkeep|].
  unfold pruneExpiredTurnstileEntries. run_monad. cbn [snd turnstileTimestamps].
  intros key Hkey. apply map_lookup_filter_None. left.
  unfold setProperty. destruct (String.eqb h "__proto__"); [apply Hkeep, Hkey|].
  rewrite lookup_insert_ne; [apply Hkeep, Hkey|].
  intros ->. rewrite (getExact_inherited clock key s Hh (Hinv key Hkey) Hkey) in E.
  injection E as <- _. discriminate Hb.
Qed.

Lemma status_preserves_properKeys request sender s :
  properKeys (turnstileTimestamps s) ->
  properKeys
    (turnstileTimestamps (handleCheckTurnstileStatusMessage clock urlHostname request sender s).2).
Proof.
  intros Hinv key Hkey. unfold handleCheckTurnstileStatusMessage.
  unfold mbind, M_bind.
  assert (Hq : forall hostname,
             turnstileTimestamps (getTurnstileBypassIncludingParents clock hostname s).2 !! key
             = None).
  { intros [h|]; unfold getTurnstileBypassIncludingParents; [|apply Hinv, Hkey].
    destruct (truthy h); cbn [negb]; [|apply Hinv, Hkey].
    unfold pruneExpiredTurnstileEntries. run_monad. apply walk_keeps_absent.
    cbn [turnstileTimestamps]. apply map_lookup_filter_None. left. apply Hinv, Hkey. }
  specialize (Hq (resolveTabHostname urlHostname sender (request_hostname request))).
  destruct (getTurnstileBypassIncludingParents clock _ s) as [info s1].
  destruct (parent_active info); exact Hq.
Qed.

End HandlerProperties.

(** *** The scenarios of the specification *)

Lemma not_prototype_key key :
  bool_decide (key ∈ objectPrototypeKeys) = false -> key ∉ objectPrototypeKeys.
Proof. apply bool_decide_eq_false_1. Qed.

Lemma detected_without_hostname_is_rejected_witness :
  handleTurnstileDetectedMessage (fun _ => detectionTime) ExampleUrl.hostname
    {| request_hostname := None |} opaqueSender (afterDetection "a.com")
  = ({| success := false; ignored := None; error := Some "Missing hostname" |},
     afterDetection "a.com").
Proof.
  apply detected_without_hostname_is_rejected.
  - intros tab url [= <-] [= <-] _. reflexivity.
  - reflexivity.
Defined.

Lemma detected_again_within_ttl_is_ignored_witness :
  let '(response, s') :=
    handleTurnstileDetectedMessage (fun _ => detectionTime + 90000) ExampleUrl.hostname
      (payload "a.com") None (afterDetection "a.com") in
  response = {| success := true; ignored := Some true; error := None |}
  /\ turnstileTimestamps s' = turnstileTimestamps (afterDetection "a.com")
  /\ turnstileTimestamps s' !! "a.com" = Some detectionTime
  /\ effects s' = effects (afterDetection "a.com").
Proof.
  apply (detected_again_within_ttl_is_ignored (fun _ => detectionTime + 90000)
           ExampleUrl.hostname (payload "a.com") None (afterDetection "a.com")
           "a.com" detectionTime).
  - reflexivity.
  - reflexivity.
  - reflexivity.
  - discriminate.
  - reflexivity.
Defined.

Lemma ancestor_bypass_covers_subdomain_witness :
  let info :=
    (getTurnstileBypassIncludingParents (fun _ => detectionTime + 60000)
       (Some "sub.example.com") (afterDetection "example.com")).1 in
  parent_active info = true
  /\ (exists x, matchedDomain info = Some x /\ In x ["sub.example.com"; "example.com"])
  /\ exists i, (2 < i)%nat
       /\ info = {| parent_active := true;
                    matchedDomain := Some "example.com";
                    parent_remainingMs := Num 120000 |}.
Proof.
  destruct (ancestor_bypass_covers_subdomain (fun _ => detectionTime + 60000)
              (afterDetection "example.com") "sub.example.com"
              ["sub.example.com"] "example.com" ["com"] detectionTime)
    as (Hactive & Hmatched & Hexact).
  - reflexivity.
  - reflexivity.
  - reflexivity.
  - reflexivity.
  - discriminate.
  - intros i _. reflexivity.
  - split; [exact Hactive|]. split; [exact Hmatched|].
    apply Hexact. intros x [<-|[]]. split.
    + apply not_prototype_key. reflexivity.
    + intros timestamp H. vm_compute in H. discriminate H.
Defined.

(** The scenario of C3: [a.com] is detected and queried 179 s and 181 s
    later. *)
Lemma status_query_ttl_witness :
  (let '(response, s') :=
     handleCheckTurnstileStatusMessage (fun _ => detectionTime + 179000) ExampleUrl.hostname
       (payload "a.com") None (afterDetection "a.com") in
   response = {| skipUA := true; remainingSeconds := Some (Num 1) |}
   /\ turnstileTimestamps s' !! "a.com" = Some detectionTime)
  /\ (let '(response, s') :=
        handleCheckTurnstileStatusMessage (fun _ => detectionTime + 181000) ExampleUrl.hostname
          (payload "a.com") None (afterDetection "a.com") in
      response = {| skipUA := false; remainingSeconds := None |}
      /\ turnstileTimestamps s' !! "a.com" = None).
Proof.
  split.
  - apply (status_query_ttl (fun _ => detectionTime + 179000) ExampleUrl.hostname
             (payload "a.com") None (afterDetection "a.com") "a.com" ["com"] detectionTime).
    + reflexivity.
    + reflexivity.
    + reflexivity.
    + discriminate.
    + reflexivity.
    + reflexivity.
  - pose proof (status_query_ttl (fun _ => detectionTime + 181000) ExampleUrl.hostname
             (payload "a.com") None (afterDetection "a.com") "a.com" ["com"] detectionTime
             eq_refl eq_refl eq_refl ltac:(discriminate) ltac:(reflexivity) eq_refl) as H.
    cbv zeta in H.
    destruct (handleCheckTurnstileStatusMessage _ _ _ _ _) as [response s'].
    change (turnstileTimestamps s' !! "a.com" = None
            /\ ("a.com" ∉ objectPrototypeKeys ->
                (forall x, In x ["com"] ->
                   untrackedAt (detectionTime + 181000)
                     (turnstileTimestamps (afterDetection "a.com")) x) ->
                response = {| skipUA := false; remainingSeconds := None |}
                /\ turnstileTimestamps s'
                   = delete "a.com"
                       (pruned (detectionTime + 181000)
                          (turnstileTimestamps (afterDetection "a.com")))
                /\ (forall h', h' <> "a.com" ->
                      turnstileTimestamps s' !! h'
                      = pruned (detectionTime + 181000)
                          (turnstileTimestamps (afterDetection "a.com")) !! h'))) in H.
    destruct H as [Hgone Hinactive]. split; [|exact Hgone].
    apply Hinactive.
    + apply not_prototype_key. reflexivity.
    + intros x [<-|[]]. split.
      * apply not_prototype_key. reflexivity.
      * intros timestamp Hx. vm_compute in Hx. discriminate Hx.
Defined.

(** C3 without the condition on the ancestors fails: [sub.example.com] is
    detected, [example.com] is detected 100 s later, and [sub.example.com] is
    queried 181 s after its own detection.  Its entry has reached the TTL and
    is purged, yet the answer is active, with the 99 s that [example.com] has
    left. *)
Lemma status_query_ttl_counterexample :
  let s := afterTwoDetections "sub.example.com" "example.com" 100000 in
  let clock := fun _ : nat => detectionTime + 181000 in
  let answer :=
    handleCheckTurnstileStatusMessage clock ExampleUrl.hostname
      (payload "sub.example.com") None s in
  turnstileTimestamps s !! "sub.example.com" = Some detectionTime
  /\ TURNSTILE_BYPASS_TTL_MS <= clock 1%nat - detectionTime
  /\ answer.1 = {| skipUA := true; remainingSeconds := Some (Num 99) |}
  /\ answer.1 <> {| skipUA := false; remainingSeconds := None |}
  /\ turnstileTimestamps answer.2 !! "sub.example.com" = None.
Proof.
  cbv zeta. split; [reflexivity|]. split; [unfold TURNSTILE_BYPASS_TTL_MS; lia|].
  split; [reflexivity|]. split; [|reflexivity].
  change ({| skipUA := true; remainingSeconds := Some (Num 99) |}
          <> {| skipUA := false; remainingSeconds := None |}).
  discriminate.
Qed.

(** C4 without the condition on the more specific suffixes fails:
    [example.com] is detected, [sub.example.com] is detected 30 s later, and
    [sub.example.com] is queried 60 s after the first detection.  The
    ancestor [example.com] has an unexpired detection with 120 s left, yet
    the domain matched is [sub.example.com] itself, with its own 150 s. *)
Lemma ancestor_bypass_counterexample :
  let s := afterTwoDetections "example.com" "sub.example.com" 30000 in
  let clock := fun _ : nat => detectionTime + 60000 in
  let info := (getTurnstileBypassIncludingParents clock (Some "sub.example.com") s).1 in
  turnstileTimestamps s !! "example.com" = Some detectionTime
  /\ (getExactTurnstileBypass clock (Some "example.com") s).1
     = {| active := true; remainingMs := Num 120000 |}
  /\ info = {| parent_active := true;
               matchedDomain := Some "sub.example.com";
               parent_remainingMs := Num 150000 |}
  /\ matchedDomain info <> Some "example.com".
Proof.
  cbv zeta. split; [reflexivity|]. split; [reflexivity|]. split; [reflexivity|].
  change (Some "sub.example.com" <> Some "example.com"). discriminate.
Qed.

(** A detection stamped with time [0] is read as absent: the statements above
    take the recorded time to be non-zero. *)
Lemma zero_timestamp_reads_as_absent :
  getExactTurnstileBypass (fun _ => 1000) (Some "a.com")
    {| turnstileTimestamps := {[ "a.com" := 0 ]}; clockReads := 0; effects := [] |}
  = (inactiveExact,
     {| turnstileTimestamps := {[ "a.com" := 0 ]}; clockReads := 1; effects := [] |}).
Proof. reflexivity. Qed.

(** A hostname whose last label names a member of [Object.prototype] is
    reported as bypassed without any detection. *)
Lemma inherited_member_reads_as_active :
  (handleCheckTurnstileStatusMessage (fun _ => detectionTime) ExampleUrl.hostname
     (payload "a.constructor") None
     {| turnstileTimestamps := ∅; clockReads := 0; effects := [] |}).1
  = {| skipUA := true; remainingSeconds := Some NaN |}.
Proof. reflexivity. Qed.

End BackgroundSpec.

(** ** Removing a proxy profile *)
Module ProxySpec.
Import Proxy.

Lemma filter_sublist {A} (f : A -> bool) (l : list A) : sublist (List.filter f l) l.
Proof.
  induction l as [|x l IH]; simpl; [constructor|].
  destruct (f x); [apply sublist_skip|apply sublist_cons]; exact IH.
Qed.

(** C10. [removeProxyProfile] saves the loaded configuration with a new proxy
    section and the other sections as loaded.  The new section has exactly the
    routes that do not refer to [profileName] and exactly the profiles with
    another name, both in their order, and the old bypass list; when
    [profileName] is the active profile, the active profile is cleared and the
    proxy is switched off, and otherwise both are kept. *)
Theorem removeProxyProfile_cascade
    (Sections Store : Type) (loadConfig : Store -> Config Sections)
    (saveConfig : Config Sections -> Store -> Store)
    (profileName : string) (store : Store) :
  let old := proxy (loadConfig store) in
  exists new,
    removeProxyProfile Sections Store loadConfig saveConfig profileName store
    = saveConfig {| proxy := new; otherSections := otherSections (loadConfig store) |} store
    /\ (forall r, In r (domainRoutes new)
                  <-> In r (domainRoutes old) /\ profile r <> profileName)
    /\ sublist (domainRoutes new) (domainRoutes old)
    /\ (forall p, In p (profiles new)
                  <-> In p (profiles old) /\ name p <> profileName)
    /\ sublist (profiles new) (profiles old)
    /\ bypassList new = bypassList old
    /\ (if decide (activeProfile old = Some profileName)
        then enabled new = false /\ activeProfile new = None
        else enabled new = enabled old /\ activeProfile new = activeProfile old).
Proof.
  intros old. unfold removeProxyProfile. fold old. cbv zeta.
  cbn [activeProfile].
  match goal with
  | |- exists new, saveConfig {| proxy := ?p; otherSections := _ |} _ = _ /\ _ =>
      exists p
  end.
  split; [reflexivity|].
  assert (Hactive :
            match activeProfile old with
            | Some a => String.eqb a profileName
            | None => false
            end = true <-> activeProfile old = Some profileName).
  { destruct (activeProfile old) as [a|]; [|split; discriminate].
    rewrite String.eqb_eq. split; congruence. }
  destruct (match activeProfile old with
            | Some a => String.eqb a profileName
            | None => false
            end) eqn:E;
    cbn [domainRoutes profiles bypassList enabled activeProfile];
    (split; [|split; [|split; [|split; [|split]]]]).
  1, 7: intros r; rewrite List.filter_In, negb_true_iff, JsStringFacts.eqb_false_iff;
    reflexivity.
  1, 6: apply filter_sublist.
  1, 5: intros p; rewrite List.filter_In, negb_true_iff, JsStringFacts.eqb_false_iff;
    reflexivity.
  1, 4: apply filter_sublist.
  1, 3: reflexivity.
  - rewrite decide_True by (apply Hactive; reflexivity). split; reflexivity.
  - rewrite decide_False; [split; reflexivity|].
    intros H. apply Hactive in H. discriminate H.
Qed.

(** The scenario of the specification: the profile [NYC] is active and a route
    refers to it.  The store is the configuration itself. *)
Example removeProxyProfile_scenario :
  removeProxyProfile unit (Config unit) (fun store => store) (fun config _ => config) "NYC"
    {| proxy :=
         {| enabled := true;
            activeProfile := Some "NYC";
            profiles :=
              [ {| name := "NYC"; host := "203.0.113.7"; port := 1080;
                   scheme := "socks5"; remoteDNS := true |};
                {| name := "Paris, FR"; host := "198.51.100.4"; port := 1080;
                   scheme := "socks5"; remoteDNS := true |} ];
            domainRoutes :=
              [ {| pattern := "*.example.com"; profile := "NYC" |};
                {| pattern := "example.org"; profile := "Paris, FR" |} ];
            bypassList := ["localhost"] |};
       otherSections := tt |}
  = {| proxy :=
         {| enabled := false;
            activeProfile := None;
            profiles :=
              [ {| name := "Paris, FR"; host := "198.51.100.4"; port := 1080;
                   scheme := "socks5"; remoteDNS := true |} ];
            domainRoutes := [ {| pattern := "example.org"; profile := "Paris, FR" |} ];
            bypassList := ["localhost"] |};
       otherSections := tt |}.
Proof. reflexivity. Qed.

End ProxySpec.

(** ** More facts about the string functions *)
Module JsStringMoreFacts.
Import JsString JsStringFacts.

#[local] Arguments String.append : simpl nomatch.

Lemma lowerChar_star c : Ascii.eqb (lowerChar c) "*" = Ascii.eqb c "*".
Proof. destruct c as [[] [] [] [] [] [] [] []]; reflexivity. Qed.

Lemma lowerChar_dot c : Ascii.eqb (lowerChar c) "." = Ascii.eqb c ".".
Proof. destruct c as [[] [] [] [] [] [] [] []]; reflexivity. Qed.

Lemma lowerChar_idem c : lowerChar (lowerChar c) = lowerChar c.
Proof. destruct c as [[] [] [] [] [] [] [] []]; reflexivity. Qed.

Lemma toLowerCase_idem s : toLowerCase (toLowerCase s) = toLowerCase s.
Proof. induction s as [|c r IH]; simpl; [reflexivity|]. rewrite lowerChar_idem, IH. reflexivity. Qed.

Lemma toLowerCase_app a b : toLowerCase (a +:+ b) = toLowerCase a +:+ toLowerCase b.
Proof. induction a as [|c a IH]; simpl; [reflexivity|]. rewrite IH. reflexivity. Qed.

Lemma includes_toLowerCase_star s : includes (toLowerCase s) "*" = includes s "*".
Proof. induction s as [|c r IH]; simpl; [reflexivity|]. rewrite lowerChar_star, IH. reflexivity. Qed.

Lemma startsWith_spec s p : startsWith s p = true <-> exists r, s = p +:+ r.
Proof.
  unfold startsWith. revert s. induction p as [|c p IH]; intros s.
  - destruct s; simpl; split; eauto.
  - destruct s as [|d s]; simpl.
    + split; [discriminate|]. intros (r & H). discriminate H.
    + destruct (Ascii.ascii_dec c d) as [->|Hne].
      * rewrite IH. split; intros (r & H); exists r; [rewrite H; reflexivity|].
        injection H as H. exact H.
      * split; [discriminate|]. intros (r & H). injection H as H _. congruence.
Qed.

Lemma startsWith_app p r : startsWith (p +:+ r) p = true.
Proof. apply startsWith_spec. exists r. reflexivity. Qed.

Lemma startsWith_toLowerCase_dot s : startsWith (toLowerCase s) "." = startsWith s ".".
Proof.
  apply Bool.eq_true_iff_eq. rewrite !startsWith_spec. destruct s as [|c r].
  - split; intros (x & H); discriminate H.
  - simpl. split; intros (x & H); injection H as Hc Hr.
    + exists r. f_equal. pose proof (lowerChar_dot c) as E.
      rewrite Hc, Ascii.eqb_refl in E. symmetry in E. apply Ascii.eqb_eq in E. exact E.
    + exists (toLowerCase r). subst c. reflexivity.
Qed.

Lemma endsWith_spec s p : endsWith s p = true <-> exists pre, s = pre +:+ p.
Proof.
  induction s as [|c r IH].
  - cbn [endsWith]. rewrite orb_false_r, String.eqb_eq. split.
    + intros <-. exists "". reflexivity.
    + intros (pre & H). destruct pre; [exact H|discriminate H].
  - cbn [endsWith]. rewrite orb_true_iff, String.eqb_eq, IH. split.
    + intros [<- | (pre & ->)]; [exists ""|exists (String c pre)]; reflexivity.
    + intros (pre & H). destruct pre as [|d pre]; [left; exact H|right].
      injection H as _ H. exists pre. exact H.
Qed.

Lemma endsWith_app pre p : endsWith (pre +:+ p) p = true.
Proof. apply endsWith_spec. exists pre. reflexivity. Qed.

Lemma includes_false_neq s c r : includes s c = false -> String.eqb s (String c r) = false.
Proof.
  intros H. apply eqb_false_iff. intros ->. simpl in H. rewrite Ascii.eqb_refl in H.
  discriminate H.
Qed.

Lemma startsWith_includes s c p : startsWith s (String c p) = true -> includes s c = true.
Proof.
  intros (r & ->)%startsWith_spec. simpl. rewrite Ascii.eqb_refl. reflexivity.
Qed.

Lemma endsWith_includes s p c : endsWith s p = true -> includes p c = true -> includes s c = true.
Proof.
  intros (pre & ->)%endsWith_spec H. rewrite includes_app, H. apply orb_true_r.
Qed.

Lemma substring_app_prefix p r : String.substring 0 (String.length p) (p +:+ r) = p.
Proof.
  induction p as [|c p IH]; simpl.
  - destruct r; reflexivity.
  - rewrite IH. reflexivity.
Qed.

Lemma length_append (a b : string) :
  String.length (a +:+ b) = (String.length a + String.length b)%nat.
Proof. induction a as [|c a IH]; simpl; [reflexivity|]. rewrite IH. reflexivity. Qed.

Lemma sliceDropEnd_app p (suffix : string) :
  sliceDropEnd (String.length suffix) (p +:+ suffix) = p.
Proof.
  unfold sliceDropEnd. rewrite length_append.
  replace (String.length p + String.length suffix - String.length suffix)%nat
    with (String.length p) by lia.
  apply substring_app_prefix.
Qed.

(** A slice that keeps at least one character keeps the first one. *)
Lemma sliceDropEnd_head n c r :
  (n <= String.length r)%nat ->
  exists tl, sliceDropEnd n (String c r) = String c tl.
Proof.
  intros H. unfold sliceDropEnd. simpl String.length.
  destruct (S (String.length r) - n)%nat as [|m] eqn:E; [lia|].
  simpl. eexists. reflexivity.
Qed.

End JsStringMoreFacts.

(** ** What the matcher of lib/domainFilter.js accepts *)
Module MatcherProperties.
Import JsString JsStringFacts JsStringMoreFacts DomainFilter DomainFilterFacts.

#[local] Arguments String.append : simpl nomatch.

(** The four tests of [matchesPattern] as one disjunction. *)
Lemma matchesPattern_unfold hostname pattern :
  matchesPattern hostname pattern
  = (let h := toLowerCase hostname in
     let p := toLowerCase pattern in
     String.eqb h p
     || (endsWith p ".*" && startsWith h (sliceDropEnd 2 p +:+ "."))
     || (if startsWith p "*." then
           String.eqb h (substringFrom 2 p) || endsWith h ("." +:+ substringFrom 2 p)
         else if startsWith p "*" && negb (startsWith p "*.") then
           String.eqb h (substringFrom 1 p) || endsWith h ("." +:+ substringFrom 1 p)
         else false)
     || (negb (includes p "*") && String.eqb h ("www." +:+ p))).
Proof.
  unfold matchesPattern. cbv zeta.
  destruct (String.eqb (toLowerCase hostname) (toLowerCase pattern)); [reflexivity|].
  destruct (endsWith (toLowerCase pattern) ".*"
            && startsWith (toLowerCase hostname)
                 (sliceDropEnd 2 (toLowerCase pattern) +:+ ".")); [reflexivity|].
  cbn [orb].
  destruct (if startsWith (toLowerCase pattern) "*." then _ else _); [reflexivity|].
  cbn [orb].
  destruct (negb (includes (toLowerCase pattern) "*")
            && String.eqb (toLowerCase hostname) ("www." +:+ toLowerCase pattern));
    reflexivity.
Qed.

Lemma sliceDropEnd_dot_star p : sliceDropEnd 2 (p +:+ ".*") = p.
Proof. exact (sliceDropEnd_app p ".*"). Qed.

(** A hostname without [*] never passes the prefix test of a pattern that
    begins with [*]. *)
Lemma prefix_test_fails_on_leading_star h p :
  includes h "*" = false ->
  startsWith p "*" = true ->
  endsWith p ".*" && startsWith h (sliceDropEnd 2 p +:+ ".") = false.
Proof.
  intros Hh Hp. destruct (endsWith p ".*") eqn:He; [|reflexivity]. cbn [andb].
  apply endsWith_spec in He as (pre & ->).
  rewrite sliceDropEnd_dot_star.
  destruct pre as [|c pre].
  - apply startsWith_spec in Hp as (r & Hr). discriminate Hr.
  - apply startsWith_spec in Hp as (r & Hr). injection Hr as -> _.
    destruct (startsWith h (String "*" pre +:+ ".")) eqn:E; [|reflexivity].
    apply startsWith_includes in E. congruence.
Qed.

(** X1. A pattern without [*] matches exactly the hostname equal to it and
    the hostname equal to [www.] followed by it, case-insensitively. *)
Theorem plain_pattern_matches hostname pattern :
  includes pattern "*" = false ->
  matchesPattern hostname pattern = true
  <-> toLowerCase hostname = toLowerCase pattern
      \/ toLowerCase hostname = "www." +:+ toLowerCase pattern.
Proof.
  intros Hp. rewrite matchesPattern_unfold. cbv zeta.
  set (h := toLowerCase hostname). set (p := toLowerCase pattern).
  assert (Hstar : includes p "*" = false) by (unfold p; rewrite includes_toLowerCase_star; exact Hp).
  assert (Hend : endsWith p ".*" = false).
  { destruct (endsWith p ".*") eqn:E; [|reflexivity].
    rewrite (endsWith_includes _ _ "*" E eq_refl) in Hstar. discriminate Hstar. }
  assert (Hdot : startsWith p "*." = false).
  { destruct (startsWith p "*.") eqn:E; [|reflexivity].
    rewrite (startsWith_includes _ _ _ E) in Hstar. discriminate Hstar. }
  assert (Hlead : startsWith p "*" = false).
  { destruct (startsWith p "*") eqn:E; [|reflexivity].
    rewrite (startsWith_includes _ _ _ E) in Hstar. discriminate Hstar. }
  rewrite Hend, Hdot, Hlead, Hstar. cbn [andb orb negb].
  rewrite !orb_false_r, orb_true_iff, !String.eqb_eq. reflexivity.
Qed.

Lemma plain_pattern_matches_witness :
  matchesPattern "WWW.Example.com" "example.COM" = true
  <-> toLowerCase "WWW.Example.com" = toLowerCase "example.COM"
      \/ toLowerCase "WWW.Example.com" = "www." +:+ toLowerCase "example.COM".
Proof. apply plain_pattern_matches. reflexivity. Defined.

(** X2. For a hostname without [*], the pattern [*.d] matches exactly the
    hostname [d] and the hostnames that end with [.d], case-insensitively; and
    when [d] does not begin with a dot the spelling [*d] matches the same
    hostnames. *)
Theorem subdomain_wildcard_matches hostname d :
  includes hostname "*" = false ->
  startsWith d "." = false ->
  (matchesPattern hostname ("*." +:+ d) = true
   <-> toLowerCase hostname = toLowerCase d
       \/ exists sub, toLowerCase hostname = sub +:+ "." +:+ toLowerCase d)
  /\ matchesPattern hostname ("*" +:+ d) = matchesPattern hostname ("*." +:+ d).
Proof.
  intros Hh Hd.
  assert (Hlh : includes (toLowerCase hostname) "*" = false)
    by (rewrite includes_toLowerCase_star; exact Hh).
  assert (Hdotted :
            matchesPattern hostname ("*." +:+ d)
            = String.eqb (toLowerCase hostname) (toLowerCase d)
              || endsWith (toLowerCase hostname) ("." +:+ toLowerCase d)).
  { rewrite matchesPattern_unfold. cbv zeta.
    change (toLowerCase ("*." +:+ d)) with (String "*" (String "." (toLowerCase d))).
    rewrite (includes_false_neq _ _ _ Hlh).
    rewrite (prefix_test_fails_on_leading_star _ (String "*" (String "." (toLowerCase d)))
               Hlh eq_refl).
    change (startsWith (String "*" (String "." (toLowerCase d))) "*.") with
      (startsWith ("*." +:+ toLowerCase d) "*.").
    rewrite startsWith_app. cbn [orb substringFrom includes Ascii.eqb negb andb].
    rewrite orb_false_r. reflexivity. }
  assert (Hbare :
            matchesPattern hostname ("*" +:+ d)
            = String.eqb (toLowerCase hostname) (toLowerCase d)
              || endsWith (toLowerCase hostname) ("." +:+ toLowerCase d)).
  { rewrite matchesPattern_unfold. cbv zeta.
    change (toLowerCase ("*" +:+ d)) with (String "*" (toLowerCase d)).
    rewrite (includes_false_neq _ _ _ Hlh).
    rewrite (prefix_test_fails_on_leading_star _ (String "*" (toLowerCase d)) Hlh
               (startsWith_app "*" (toLowerCase d))).
    assert (E : startsWith (String "*" (toLowerCase d)) "*." = false).
    { destruct (startsWith (String "*" (toLowerCase d)) "*.") eqn:E; [|reflexivity].
      apply startsWith_spec in E as (r & Hr). injection Hr as Hr.
      assert (Hs : startsWith (toLowerCase d) "." = true)
        by (apply startsWith_spec; exists r; exact Hr).
      rewrite startsWith_toLowerCase_dot in Hs. congruence. }
    rewrite E.
    change (startsWith (String "*" (toLowerCase d)) "*") with
      (startsWith ("*" +:+ toLowerCase d) "*").
    rewrite startsWith_app. cbn [orb substringFrom includes Ascii.eqb negb andb].
    rewrite orb_false_r. reflexivity. }
  split; [|rewrite Hbare, Hdotted; reflexivity].
  rewrite Hdotted, orb_true_iff, String.eqb_eq, endsWith_spec. reflexivity.
Qed.

Lemma subdomain_wildcard_matches_witness :
  (matchesPattern "a.b.Example.com" ("*." +:+ "example.com") = true
   <-> toLowerCase "a.b.Example.com" = toLowerCase "example.com"
       \/ exists sub, toLowerCase "a.b.Example.com" = sub +:+ "." +:+ toLowerCase "example.com")
  /\ matchesPattern "a.b.Example.com" ("*" +:+ "example.com")
     = matchesPattern "a.b.Example.com" ("*." +:+ "example.com").
Proof. apply subdomain_wildcard_matches; reflexivity. Defined.

Lemma startsWith_star_app p suffix :
  includes p "*" = false ->
  startsWith suffix "*" = false ->
  startsWith (p +:+ suffix) "*" = false.
Proof.
  intros Hp Hs. destruct p as [|c p]; [exact Hs|].
  simpl in Hp. apply orb_false_elim in Hp as [Hc _].
  destruct (startsWith (String c p +:+ suffix) "*") eqn:E; [|reflexivity].
  apply startsWith_spec in E as (r & Hr). injection Hr as -> _.
  discriminate Hc.
Qed.

(** X3. For a hostname and a prefix without [*], the pattern [prefix.*]
    matches exactly the hostnames that begin with [prefix.],
    case-insensitively. *)
Theorem prefix_wildcard_matches hostname prefix :
  includes hostname "*" = false ->
  includes prefix "*" = false ->
  matchesPattern hostname (prefix +:+ ".*") = true
  <-> exists rest, toLowerCase hostname = toLowerCase prefix +:+ "." +:+ rest.
Proof.
  intros Hh Hp. rewrite matchesPattern_unfold. cbv zeta.
  rewrite toLowerCase_app. change (toLowerCase ".*") with ".*".
  set (h := toLowerCase hostname). set (p := toLowerCase prefix).
  assert (Hlh : includes h "*" = false) by (unfold h; rewrite includes_toLowerCase_star; exact Hh).
  assert (Hlp : includes p "*" = false) by (unfold p; rewrite includes_toLowerCase_star; exact Hp).
  assert (Hne : String.eqb h (p +:+ ".*") = false).
  { apply eqb_false_iff. intros E. rewrite E, includes_app in Hlh.
    apply orb_false_elim in Hlh as [_ Hlh]. discriminate Hlh. }
  assert (Hlead : startsWith (p +:+ ".*") "*" = false)
    by (apply startsWith_star_app; [exact Hlp|reflexivity]).
  assert (Hdot : startsWith (p +:+ ".*") "*." = false).
  { destruct (startsWith (p +:+ ".*") "*.") eqn:E; [|reflexivity].
    apply startsWith_spec in E as (r & Hr).
    assert (Hs : startsWith (p +:+ ".*") "*" = true).
    { apply startsWith_spec. exists (String "." r). exact Hr. }
    congruence. }
  rewrite Hne, endsWith_app, sliceDropEnd_dot_star, Hdot, Hlead, includes_app.
  change (includes ".*" "*") with true. rewrite orb_true_r.
  cbn [andb orb negb]. rewrite !orb_false_r, startsWith_spec.
  assert (Hassoc : forall rest, (p +:+ ".") +:+ rest = p +:+ "." +:+ rest).
  { intros rest. clear. induction p as [|c p IH]; [reflexivity|].
    simpl. rewrite IH. reflexivity. }
  split; intros (rest & E); exists rest; rewrite E, Hassoc; reflexivity.
Qed.

Lemma prefix_wildcard_matches_witness :
  matchesPattern "webmail.company.com" ("webmail" +:+ ".*") = true
  <-> exists rest, toLowerCase "webmail.company.com" = toLowerCase "webmail" +:+ "." +:+ rest.
Proof. apply prefix_wildcard_matches; reflexivity. Defined.

End MatcherProperties.

(** ** What the allowlist functions do to an allowlist *)
Module AllowlistProperties.
Import JsString JsStringFacts JsStringMoreFacts DomainFilter DomainFilterFacts ConfigJs.
Import MatcherProperties Notions.

#[local] Arguments String.append : simpl nomatch.

(** An allowlist matches when one of its tokens does; an empty or blank
    allowlist has no token. *)
Lemma isWhitelisted_existsb hostname w :
  isWhitelisted hostname (Some w) = existsb (matchesPattern hostname) (parsePatterns w).
Proof.
  unfold isWhitelisted.
  destruct (negb (truthy w) || String.eqb (trim w) "") eqn:Hblank; [|reflexivity].
  apply orb_prop in Hblank as [Hw | Hw].
  - destruct w; [reflexivity|discriminate Hw].
  - rewrite (parsePatterns_nil_of_trim_empty _ Hw). reflexivity.
Qed.

(** X4. Joining two allowlists with a comma allowlists exactly the hostnames
    that one of the two allowlists. *)
Theorem isWhitelisted_concat hostname a b :
  isWhitelisted hostname (Some (a +:+ "," +:+ b))
  = isWhitelisted hostname (Some a) || isWhitelisted hostname (Some b).
Proof.
  rewrite !isWhitelisted_existsb.
  change (a +:+ "," +:+ b) with (a +:+ String "," b).
  rewrite parsePatterns_app_comma, List.existsb_app. reflexivity.
Qed.

Lemma existsb_Permutation {A} (f : A -> bool) l1 l2 :
  Permutation l1 l2 -> existsb f l1 = existsb f l2.
Proof.
  intros H. apply Bool.eq_true_iff_eq. rewrite !List.existsb_exists.
  split; intros (x & Hx & Hf); exists x; split; try exact Hf.
  - apply (Permutation_in _ H), Hx.
  - apply (Permutation_in _ (Permutation_sym H)), Hx.
Qed.

(** X5. The order of the tokens of an allowlist, and the white space around
    them, do not change which hostnames it allowlists. *)
Theorem isWhitelisted_permutation hostname w1 w2 :
  Permutation (parsePatterns w1) (parsePatterns w2) ->
  isWhitelisted hostname (Some w1) = isWhitelisted hostname (Some w2).
Proof.
  intros H. rewrite !isWhitelisted_existsb. apply existsb_Permutation, H.
Qed.

Lemma isWhitelisted_permutation_witness :
  isWhitelisted "cdn.b.org" (Some "a.com, *.b.org")
  = isWhitelisted "cdn.b.org" (Some " *.b.org ,,a.com").
Proof. apply isWhitelisted_permutation. apply perm_swap. Defined.

Lemma matches_equal_token hostname token :
  toLowerCase token = toLowerCase hostname -> matchesPattern hostname token = true.
Proof.
  intros E. rewrite matchesPattern_unfold. cbv zeta. rewrite E, String.eqb_refl. reflexivity.
Qed.

Lemma matches_own_wildcard hostname : matchesPattern hostname ("*." +:+ hostname) = true.
Proof.
  rewrite matchesPattern_unfold. cbv zeta.
  change (toLowerCase ("*." +:+ hostname)) with ("*." +:+ toLowerCase hostname).
  rewrite startsWith_app.
  change (substringFrom 2 ("*." +:+ toLowerCase hostname)) with (toLowerCase hostname).
  rewrite String.eqb_refl. cbn [orb]. rewrite !orb_true_r. reflexivity.
Qed.

(** X6. After a well-formed hostname is added to an allowlist, the allowlist
    matches that hostname. *)
Theorem added_domain_is_allowlisted h whitelistString :
  isToken h = true ->
  exists w',
    addDomainToWhitelist (Some h) whitelistString = Some w'
    /\ isWhitelisted h (Some w') = true.
Proof.
  intros Hh. pose proof (DomainFilterSpec.isToken_wildcard _ Hh) as He.
  pose proof Hh as (Hne & _ & _)%isToken_spec. apply truthy_true_iff in Hne.
  unfold addDomainToWhitelist. rewrite Hne. cbn [negb].
  destruct (isDomainInWhitelist (Some h) whitelistString) eqn:Hin.
  - unfold isDomainInWhitelist in Hin. destruct whitelistString as [w|]; [|discriminate Hin].
    destruct (negb (truthy w) || negb (truthy h)); [discriminate Hin|].
    apply List.existsb_exists in Hin as (t & Ht & E%String.eqb_eq).
    exists w. split; [reflexivity|].
    apply (isWhitelisted_of_pattern _ _ t Ht), matches_equal_token, E.
  - destruct whitelistString as [w|].
    + destruct (negb (truthy w) || String.eqb (trim w) "").
      * exists ("*." +:+ h). split; [reflexivity|].
        apply (isWhitelisted_of_pattern _ _ ("*." +:+ h)); [|apply matches_own_wildcard].
        rewrite (parsePatterns_token _ He). left. reflexivity.
      * exists (trim w +:+ ", " +:+ "*." +:+ h). split; [reflexivity|].
        apply (isWhitelisted_of_pattern _ _ ("*." +:+ h)); [|apply matches_own_wildcard].
        change (trim w +:+ ", " +:+ "*." +:+ h)
          with (trim w +:+ String "," (String " " ("*." +:+ h))).
        rewrite parsePatterns_app_comma, parsePatterns_whitespace_cons by reflexivity.
        rewrite (parsePatterns_token _ He). apply List.in_or_app. right. left. reflexivity.
    + exists ("*." +:+ h). split; [reflexivity|].
      apply (isWhitelisted_of_pattern _ _ ("*." +:+ h)); [|apply matches_own_wildcard].
      rewrite (parsePatterns_token _ He). left. reflexivity.
Qed.

Lemma added_domain_is_allowlisted_witness :
  exists w',
    addDomainToWhitelist (Some "shop.example.org") (Some "intranet.local") = Some w'
    /\ isWhitelisted "shop.example.org" (Some w') = true.
Proof. apply added_domain_is_allowlisted. reflexivity. Defined.

Lemma filter_none {A} (f : A -> bool) l :
  (forall x, In x l -> f x = false) -> List.filter f l = [].
Proof.
  induction l as [|x l IH]; intros H; [reflexivity|]. simpl.
  rewrite (H x (or_introl eq_refl)). apply IH. intros y Hy. apply H. right. exact Hy.
Qed.

Lemma filter_filter_same {A} (f : A -> bool) l :
  List.filter f (List.filter f l) = List.filter f l.
Proof.
  apply DomainFilterSpec.filter_all. intros x [_ H]%List.filter_In. exact H.
Qed.

(** X7. Removing a hostname keeps, in their order, exactly the tokens that
    are neither the hostname nor [*.]hostname (case-insensitively); afterwards
    neither form is a token of the allowlist, and removing the hostname again
    changes nothing. *)
Theorem removed_domain_is_gone d whitelistString :
  truthy d = true ->
  let removed := removeDomainFromWhitelist (Some d) whitelistString in
  tokensOf removed = List.filter (keptOnRemove d) (tokensOf whitelistString)
  /\ isDomainInWhitelist (Some d) removed = false
  /\ isDomainInWhitelist (Some ("*." +:+ d)) removed = false
  /\ removeDomainFromWhitelist (Some d) removed = removed.
Proof.
  intros Hd removed. unfold removed, removeDomainFromWhitelist. rewrite Hd. cbn [negb orb].
  destruct whitelistString as [w|]; [|repeat split; reflexivity].
  destruct (truthy w) eqn:Hw; cbn [negb].
  2: { destruct w; [|discriminate Hw]. repeat split; reflexivity. }
  cbv zeta. fold (keptOnRemove d).
  set (kept := List.filter (keptOnRemove d) (parsePatterns w)).
  assert (Hparse : parsePatterns (join ", " kept) = kept).
  { apply parsePatterns_join, Forall_filter_tokens, parsePatterns_tokens_Forall. }
  assert (Hall : forall x, In x kept -> keptOnRemove d x = true).
  { intros x [_ H]%List.filter_In. exact H. }
  split; [exact Hparse|]. split; [|split].
  - unfold isDomainInWhitelist. destruct (negb (truthy (join ", " kept)) || negb (truthy d));
      [reflexivity|].
    rewrite Hparse. destruct (existsb _ kept) eqn:E; [|reflexivity].
    apply List.existsb_exists in E as (x & Hx & E). specialize (Hall x Hx).
    unfold keptOnRemove in Hall. rewrite E in Hall. discriminate Hall.
  - unfold isDomainInWhitelist.
    destruct (negb (truthy (join ", " kept)) || negb (truthy ("*." +:+ d))); [reflexivity|].
    rewrite Hparse. destruct (existsb _ kept) eqn:E; [|reflexivity].
    apply List.existsb_exists in E as (x & Hx & E). specialize (Hall x Hx).
    unfold keptOnRemove in Hall.
    change (toLowerCase ("*." +:+ d)) with (String "*" (String "." (toLowerCase d))) in E.
    change ("*." +:+ toLowerCase d) with (String "*" (String "." (toLowerCase d))) in Hall.
    rewrite E, andb_false_r in Hall. discriminate Hall.
  - destruct (truthy (join ", " kept)); cbn [negb]; [|reflexivity].
    rewrite Hparse. unfold kept. rewrite filter_filter_same. reflexivity.
Qed.

Lemma removed_domain_is_gone_witness :
  let removed := removeDomainFromWhitelist (Some "a.com") (Some "x.org, A.com ,*.a.com,y.net") in
  tokensOf removed
  = List.filter (keptOnRemove "a.com") (tokensOf (Some "x.org, A.com ,*.a.com,y.net"))
  /\ isDomainInWhitelist (Some "a.com") removed = false
  /\ isDomainInWhitelist (Some ("*." +:+ "a.com")) removed = false
  /\ removeDomainFromWhitelist (Some "a.com") removed = removed.
Proof. apply removed_domain_is_gone. reflexivity. Defined.

(** *** Merging the defaults again *)

Lemma orEmpty_Some w : orEmpty (Some w) = w.
Proof. destruct w; reflexivity. Qed.

Lemma mergeWhitelists_tokens defaultWhitelist userWhitelist :
  let userEntries := parsePatterns (orEmpty userWhitelist) in
  let added :=
    List.filter
      (fun entry =>
         negb (existsb (String.eqb (toLowerCase entry)) (List.map toLowerCase userEntries)))
      (parsePatterns (orEmpty defaultWhitelist)) in
  mergeWhitelists defaultWhitelist userWhitelist = join ", " (userEntries ++ added)
  /\ parsePatterns (mergeWhitelists defaultWhitelist userWhitelist) = userEntries ++ added.
Proof.
  intros userEntries added.
  assert (E : mergeWhitelists defaultWhitelist userWhitelist = join ", " (userEntries ++ added)).
  { unfold mergeWhitelists. rewrite DomainFilterSpec.fold_left_append_unless.
    fold userEntries. f_equal. f_equal. unfold added.
    apply List.filter_ext. intros e. rewrite DomainFilterSpec.has_lower_existsb. reflexivity. }
  split; [exact E|]. rewrite E. apply parsePatterns_join, List.Forall_app. split.
  - apply parsePatterns_tokens_Forall.
  - apply Forall_filter_tokens, parsePatterns_tokens_Forall.
Qed.

(** X8. Merging the default allowlist into an allowlist that already is the
    result of that merge gives the same string: loading a saved configuration
    again adds nothing. *)
Theorem mergeWhitelists_idempotent defaultWhitelist userWhitelist :
  mergeWhitelists defaultWhitelist (Some (mergeWhitelists defaultWhitelist userWhitelist))
  = mergeWhitelists defaultWhitelist userWhitelist.
Proof.
  destruct (mergeWhitelists_tokens defaultWhitelist userWhitelist) as [E1 P1].
  destruct (mergeWhitelists_tokens defaultWhitelist
              (Some (mergeWhitelists defaultWhitelist userWhitelist))) as [E2 _].
  cbv zeta in *. rewrite E2, orEmpty_Some, P1, E1.
  set (U := parsePatterns (orEmpty userWhitelist)) in *.
  set (D := parsePatterns (orEmpty defaultWhitelist)) in *.
  set (A := List.filter _ D) in *.
  assert (Hnone : List.filter
            (fun entry =>
               negb (existsb (String.eqb (toLowerCase entry))
                       (List.map toLowerCase (U ++ A)))) D = []).
  { apply filter_none. intros e He. apply negb_false_iff.
    rewrite List.map_app, List.existsb_app.
    destruct (existsb (String.eqb (toLowerCase e)) (List.map toLowerCase U)) eqn:Hu;
      [reflexivity|]. cbn [orb].
    apply List.existsb_exists. exists (toLowerCase e). split; [|apply String.eqb_refl].
    apply List.in_map, List.filter_In. split; [exact He|]. rewrite Hu. reflexivity. }
  rewrite Hnone, app_nil_r. reflexivity.
Qed.

(** *** The matcher of the injected code *)

(** X9. On a hostname without [*] and a pattern that the injected code does
    not hand to a regular expression, the matcher of the injected code and
    [matchesPattern] give the same answer. *)
Theorem injector_agrees_with_matchesPattern hostname pattern :
  includes hostname "*" = false ->
  Injector.isGenericWildcard pattern = false ->
  Injector.patternMatches hostname pattern = matchesPattern hostname pattern.
Proof.
  intros Hh Hg.
  unfold matchesPattern, Injector.patternMatches, Injector.isGenericWildcard in *.
  cbv zeta in *.
  set (h := toLowerCase hostname) in *. set (p := toLowerCase pattern) in *.
  assert (Hlh : includes h "*" = false) by (unfold h; rewrite includes_toLowerCase_star; exact Hh).
  rewrite Hg. cbn [andb].
  destruct (String.eqb h p); [reflexivity|].
  destruct (endsWith p ".*" && startsWith h (sliceDropEnd 2 p +:+ ".")); [reflexivity|].
  cbn [orb].
  destruct (startsWith p "*.") eqn:Hdot.
  - destruct (String.eqb h (substringFrom 2 p) || endsWith h ("." +:+ substringFrom 2 p));
      reflexivity.
  - cbn [negb]. rewrite andb_true_r.
    destruct (startsWith p "*") eqn:Hlead; cbn [andb]; [|reflexivity].
    destruct (includes (substringFrom 1 p) "*") eqn:Hother; cbn [negb].
    + (* a second star: the suffix test of [matchesPattern] cannot succeed *)
      assert (Hsuf : String.eqb h (substringFrom 1 p)
                     || endsWith h ("." +:+ substringFrom 1 p) = false).
      { apply orb_false_intro.
        - apply eqb_false_iff. intros E. rewrite E in Hlh. congruence.
        - destruct (endsWith h ("." +:+ substringFrom 1 p)) eqn:E; [|reflexivity].
          assert (Hin : includes ("." +:+ substringFrom 1 p) "*" = true) by exact Hother.
          rewrite (endsWith_includes _ _ _ E Hin) in Hlh. discriminate Hlh. }
      rewrite Hsuf. reflexivity.
    + destruct (String.eqb h (substringFrom 1 p) || endsWith h ("." +:+ substringFrom 1 p));
        reflexivity.
Qed.

Lemma injector_agrees_with_matchesPattern_witness :
  Injector.patternMatches "cdn.Example.com" "*.example.com"
  = matchesPattern "cdn.Example.com" "*.example.com".
Proof. apply injector_agrees_with_matchesPattern; reflexivity. Defined.

End AllowlistProperties.

(** ** Profiles, routes and the applied proxy settings *)
Module ProxySettingsSpec.
Import JsString JsStringFacts JsStringMoreFacts Proxy ProxySettings Notions.

#[local] Arguments String.append : simpl nomatch.

(** *** Routes *)

Lemma setFirstRoute_None p n routes :
  setFirstRoute p n routes = None <-> routeProfile p routes = None.
Proof.
  unfold routeProfile. induction routes as [|r rest IH]; simpl; [tauto|].
  destruct (String.eqb (pattern r) p); simpl; [split; discriminate|].
  destruct (setFirstRoute p n rest); simpl in *; [|tauto].
  split; [discriminate|]. intros H. apply IH in H. discriminate H.
Qed.

Lemma setFirstRoute_Some p n routes updated :
  setFirstRoute p n routes = Some updated ->
  routeProfile p updated = Some n
  /\ (forall q, q <> p -> routeProfile q updated = routeProfile q routes)
  /\ List.map pattern updated = List.map pattern routes.
Proof.
  unfold routeProfile. revert updated.
  induction routes as [|r rest IH]; intros updated; simpl; [discriminate|].
  destruct (String.eqb (pattern r) p) eqn:E.
  - intros [= <-]. simpl. rewrite E. simpl. split; [reflexivity|]. split; [|reflexivity].
    intros q Hq. apply String.eqb_eq in E. rewrite E.
    destruct (String.eqb p q) eqn:E'; [|reflexivity].
    apply String.eqb_eq in E'. congruence.
  - destruct (setFirstRoute p n rest) as [u|]; [|discriminate]. simpl.
    intros [= <-]. destruct (IH u eq_refl) as (H1 & H2 & H3). simpl. rewrite E.
    split; [exact H1|]. split; [|rewrite H3; reflexivity].
    intros q Hq. destruct (String.eqb (pattern r) q); [reflexivity|]. apply H2, Hq.
Qed.

Lemma routeProfile_app_new p n routes :
  routeProfile p routes = None ->
  routeProfile p (routes ++ [{| pattern := p; profile := n |}]) = Some n
  /\ (forall q, q <> p ->
        routeProfile q (routes ++ [{| pattern := p; profile := n |}]) = routeProfile q routes).
Proof.
  unfold routeProfile. induction routes as [|r rest IH]; simpl.
  - intros _. rewrite String.eqb_refl. split; [reflexivity|].
    intros q Hq. destruct (String.eqb p q) eqn:E; [|reflexivity].
    apply String.eqb_eq in E. congruence.
  - destruct (String.eqb (pattern r) p) eqn:E; [discriminate|].
    intros H. destruct (IH H) as [H1 H2]. split; [exact H1|].
    intros q Hq. destruct (String.eqb (pattern r) q); [reflexivity|]. apply H2, Hq.
Qed.

Lemma routeProfile_None_not_in p routes :
  routeProfile p routes = None -> ~ In p (List.map pattern routes).
Proof.
  unfold routeProfile. induction routes as [|r rest IH]; simpl; [tauto|].
  destruct (String.eqb (pattern r) p) eqn:E; [discriminate|].
  intros H [Hp | Hin]; [|exact (IH H Hin)].
  rewrite Hp, String.eqb_refl in E. discriminate E.
Qed.

Lemma routeProfile_filter p q routes :
  routeProfile q (List.filter (fun r => negb (String.eqb (pattern r) p)) routes)
  = if String.eqb p q then None else routeProfile q routes.
Proof.
  unfold routeProfile. induction routes as [|r rest IH]; simpl.
  - destruct (String.eqb p q); reflexivity.
  - destruct (String.eqb (pattern r) p) eqn:E; simpl.
    + rewrite IH. apply String.eqb_eq in E. rewrite E.
      destruct (String.eqb p q); reflexivity.
    + destruct (String.eqb (pattern r) q) eqn:E'; [|exact IH]. simpl.
      destruct (String.eqb p q) eqn:E''; [|reflexivity].
      apply String.eqb_eq in E', E''. subst. rewrite String.eqb_refl in E. discriminate E.
Qed.

Lemma filter_absent_pattern p routes :
  routeProfile p routes = None ->
  List.filter (fun r => negb (String.eqb (pattern r) p)) routes = routes.
Proof.
  unfold routeProfile. induction routes as [|r rest IH]; simpl; [reflexivity|].
  destruct (String.eqb (pattern r) p); [discriminate|]. simpl.
  intros H. rewrite (IH H). reflexivity.
Qed.

Section Storage.
Variables (Sections Store : Type).
Variable loadConfig : Store -> Config Sections.
Variable saveConfig : Config Sections -> Store -> Store.
Variable enabledIsFalse : Sections -> bool.
Variable globalWhitelist : Sections -> option string.
Variable generatedName : string -> string.
Variable generatePACScript :
  list ProxyProfile -> list Route -> option string -> option string -> list string -> string.

(** X10. After [addDomainRoute(pattern, profileName)] the first route with
    that pattern refers to [profileName], the routes of every other pattern
    are as before, and patterns that were pairwise distinct still are. *)
Theorem addDomainRoute_sets_route routePattern profileName store :
  proxySectionIsStored loadConfig saveConfig ->
  let before := getDomainRoutes Sections Store loadConfig store in
  let after :=
    getDomainRoutes Sections Store loadConfig
      (addDomainRoute Sections Store loadConfig saveConfig routePattern profileName store) in
  routeProfile routePattern after = Some profileName
  /\ (forall q, q <> routePattern -> routeProfile q after = routeProfile q before)
  /\ (NoDup (List.map pattern before) -> NoDup (List.map pattern after)).
Proof.
  intros Hlaw before after. unfold after, getDomainRoutes, addDomainRoute.
  unfold proxySectionIsStored in Hlaw. rewrite !Hlaw. cbn [withProxy proxy domainRoutes].
  change (domainRoutes (proxy (loadConfig store))) with before.
  destruct (setFirstRoute routePattern profileName before) as [updated|] eqn:E.
  - destruct (setFirstRoute_Some _ _ _ _ E) as (H1 & H2 & H3).
    split; [exact H1|]. split; [exact H2|]. rewrite H3. auto.
  - apply setFirstRoute_None in E. destruct (routeProfile_app_new _ profileName _ E) as [H1 H2].
    split; [exact H1|]. split; [exact H2|].
    intros Hnd. rewrite List.map_app. cbn [List.map pattern].
    apply NoDup_app. split; [exact Hnd|]. split; [|apply NoDup_singleton].
    intros x Hx [->|[]]%list_elem_of_In. apply list_elem_of_In in Hx.
    exact (routeProfile_None_not_in _ _ E Hx).
Qed.

(** X11. After [removeDomainRoute(pattern)] no route has that pattern and
    the routes of every other pattern are as before; removing a pattern
    right after adding it to routes that did not have it gives the routes
    back. *)
Theorem removeDomainRoute_clears_route routePattern profileName store :
  proxySectionIsStored loadConfig saveConfig ->
  let before := getDomainRoutes Sections Store loadConfig store in
  let after :=
    getDomainRoutes Sections Store loadConfig
      (removeDomainRoute Sections Store loadConfig saveConfig routePattern store) in
  routeProfile routePattern after = None
  /\ (forall q, q <> routePattern -> routeProfile q after = routeProfile q before)
  /\ (routeProfile routePattern before = None ->
      getDomainRoutes Sections Store loadConfig
        (removeDomainRoute Sections Store loadConfig saveConfig routePattern
           (addDomainRoute Sections Store loadConfig saveConfig routePattern profileName store))
      = before).
Proof.
  intros Hlaw before after. unfold after, getDomainRoutes, removeDomainRoute, addDomainRoute.
  unfold proxySectionIsStored in Hlaw. rewrite !Hlaw. cbn [withProxy proxy domainRoutes].
  change (domainRoutes (proxy (loadConfig store))) with before.
  split; [|split].
  - rewrite routeProfile_filter, String.eqb_refl. reflexivity.
  - intros q Hq. rewrite routeProfile_filter.
    destruct (String.eqb routePattern q) eqn:E; [|reflexivity].
    apply String.eqb_eq in E. congruence.
  - intros Habsent. apply setFirstRoute_None with (n := profileName) in Habsent as Hset.
    rewrite Hset, List.filter_app. cbn [List.filter pattern].
    rewrite String.eqb_refl. cbn [negb]. rewrite app_nil_r.
    apply filter_absent_pattern, Habsent.
Qed.

End Storage.

Lemma scenario_store_law : proxySectionIsStored ProxyScenario.load ProxyScenario.save.
Proof. intros config store. reflexivity. Qed.

Lemma addDomainRoute_sets_route_witness :
  let after :=
    getDomainRoutes _ _ ProxyScenario.load
      (addDomainRoute _ _ ProxyScenario.load ProxyScenario.save "example.org" "NYC"
         ProxyScenario.routedStore) in
  routeProfile "example.org" after = Some "NYC"
  /\ NoDup (List.map pattern after).
Proof.
  destruct (addDomainRoute_sets_route _ _ ProxyScenario.load ProxyScenario.save
              "example.org" "NYC" ProxyScenario.routedStore scenario_store_law)
    as (H1 & _ & H3).
  split; [exact H1|]. apply H3. vm_compute. apply NoDup_singleton.
Defined.

Lemma removeDomainRoute_clears_route_witness :
  routeProfile "example.org"
    (getDomainRoutes _ _ ProxyScenario.load
       (removeDomainRoute _ _ ProxyScenario.load ProxyScenario.save "example.org"
          ProxyScenario.routedStore)) = None
  /\ getDomainRoutes _ _ ProxyScenario.load
       (removeDomainRoute _ _ ProxyScenario.load ProxyScenario.save "*.example.net"
          (addDomainRoute _ _ ProxyScenario.load ProxyScenario.save "*.example.net" "NYC"
             ProxyScenario.routedStore))
     = getDomainRoutes _ _ ProxyScenario.load ProxyScenario.routedStore.
Proof.
  split.
  - exact (proj1 (removeDomainRoute_clears_route _ _ ProxyScenario.load ProxyScenario.save
                    "example.org" "NYC" ProxyScenario.routedStore scenario_store_law)).
  - apply (removeDomainRoute_clears_route _ _ ProxyScenario.load ProxyScenario.save
             "*.example.net" "NYC" ProxyScenario.routedStore scenario_store_law).
    reflexivity.
Defined.

End ProxySettingsSpec.

(** ** Profile names *)
Module ProxyProfilesSpec.
Import JsString JsStringFacts JsStringMoreFacts Proxy ProxySettings Notions.

#[local] Arguments String.append : simpl nomatch.

Lemma append_inj_l (a b c : string) : a +:+ b = a +:+ c -> b = c.
Proof.
  induction a as [|x a IH]; cbn [String.append]; [tauto|].
  intros [= H]. exact (IH H).
Qed.

Lemma append_inj_r (a b c : string) : a +:+ c = b +:+ c -> a = b.
Proof.
  revert b. induction a as [|x a IH]; intros [|y b]; cbn [String.append].
  - reflexivity.
  - intros H. apply (f_equal String.length) in H.
    cbn [String.length] in H. rewrite length_append in H. lia.
  - intros H. apply (f_equal String.length) in H.
    cbn [String.length] in H. rewrite length_append in H. lia.
  - intros [= -> H]. rewrite (IH b H). reflexivity.
Qed.

Lemma candidateName_inj base k k' :
  candidateName base k = candidateName base k' -> k = k'.
Proof.
  unfold candidateName. intros H.
  apply append_inj_l, append_inj_l, append_inj_r in H.
  exact (pretty_nat_inj _ _ H).
Qed.

Lemma existsb_eqb_In (x : string) (l : list string) :
  existsb (String.eqb x) l = true <-> In x l.
Proof.
  rewrite existsb_exists. split.
  - intros (y & Hy & E). apply String.eqb_eq in E. subst. exact Hy.
  - intros H. exists x. split; [exact H|apply String.eqb_refl].
Qed.

Lemma uniqueName_Some fuel counter taken base final n :
  uniqueName fuel counter taken base final = Some n ->
  ~ In n taken
  /\ (n = final
      \/ In final taken
         /\ exists k, (counter <= k < counter + fuel)%nat /\ n = candidateName base k
              /\ forall x, x ∈ candidateNames base counter (k - counter) -> x ∈ taken).
Proof.
  revert counter final. induction fuel as [|fuel IH]; intros counter final; cbn [uniqueName];
    destruct (existsb (String.eqb final) taken) eqn:E; try discriminate.
  - intros [= <-]. split; [|left; reflexivity].
    intros H. apply existsb_eqb_In in H. congruence.
  - intros H. apply existsb_eqb_In in E.
    destruct (IH _ _ H) as [Hfresh [->|(Hc & k & Hk & -> & Hall)]].
    + split; [exact Hfresh|]. right. split; [exact E|].
      exists counter. split; [lia|]. split; [reflexivity|].
      rewrite Nat.sub_diag. intros x Hx. inversion Hx.
    + split; [exact Hfresh|]. right. split; [exact E|].
      exists k. split; [lia|]. split; [reflexivity|].
      replace (k - counter)%nat with (S (k - S counter)) by lia.
      intros x Hx. unfold candidateNames in Hx. cbn [seq fmap list_fmap] in Hx.
      apply elem_of_cons in Hx as [->|Hx]; [apply list_elem_of_In, Hc|apply Hall, Hx].
  - intros [= <-]. split; [|left; reflexivity].
    intros H. apply existsb_eqb_In in H. congruence.
Qed.

Lemma candidateName_longer base k : candidateName base k <> base.
Proof.
  unfold candidateName. intros H. apply (f_equal String.length) in H.
  rewrite !length_append in H. cbn [String.length] in H. lia.
Qed.

Lemma uniqueName_None fuel counter taken base final :
  uniqueName fuel counter taken base final = None ->
  In final taken /\ forall x, x ∈ candidateNames base counter fuel -> x ∈ taken.
Proof.
  revert counter final. induction fuel as [|fuel IH]; intros counter final; cbn [uniqueName];
    destruct (existsb (String.eqb final) taken) eqn:E; try discriminate.
  - intros _. apply existsb_eqb_In in E. split; [exact E|].
    intros x Hx. unfold candidateNames in Hx. cbn in Hx. inversion Hx.
  - intros H. destruct (IH _ _ H) as [Hc Hrest]. apply existsb_eqb_In in E.
    split; [exact E|]. intros x Hx. unfold candidateNames in Hx. cbn [seq fmap list_fmap] in Hx.
    apply elem_of_cons in Hx as [->|Hx]; [apply list_elem_of_In, Hc|apply Hrest, Hx].
Qed.

Lemma candidateNames_NoDup base counter n : NoDup (candidateNames base counter n).
Proof.
  unfold candidateNames. apply NoDup_fmap_2_strong; [|apply NoDup_seq].
  intros k k' _ _ H. exact (candidateName_inj _ _ _ H).
Qed.

(** With one turn more than there are names the loop finds a free name. *)
Lemma uniqueName_terminates taken base :
  exists n, uniqueName (S (length taken)) 1 taken base base = Some n.
Proof.
  destruct (uniqueName (S (length taken)) 1 taken base base) as [n|] eqn:E; [eauto|].
  exfalso. apply uniqueName_None in E as [_ Hall].
  pose proof (submseteq_length _ _
                (NoDup_submseteq _ _ (candidateNames_NoDup base 1 (S (length taken))) Hall)) as Hlen.
  unfold candidateNames in Hlen. rewrite length_fmap, length_seq in Hlen. lia.
Qed.

Section Storage.
Variables (Sections Store : Type).
Variable loadConfig : Store -> Config Sections.
Variable saveConfig : Config Sections -> Store -> Store.
Variable enabledIsFalse : Sections -> bool.
Variable globalWhitelist : Sections -> option string.
Variable generatedName : string -> string.
Variable generatePACScript :
  list ProxyProfile -> list Route -> option string -> option string -> list string -> string.

(** X12. [addProxyProfile] always comes back: the loop that looks for a free
    name ends within one turn more than there are profiles.  The profile it
    returns is appended to the stored profiles under a name none of them
    has, which is the name asked for when that one is free and otherwise
    that name followed by a counter in brackets; host, port and scheme are
    the ones given, and names that were pairwise distinct still are. *)
Theorem addProxyProfile_fresh_name profile store :
  proxySectionIsStored loadConfig saveConfig ->
  let before := getProxyProfiles Sections Store loadConfig store in
  let asked :=
    if negb (truthy (name profile)) || String.eqb (trim (name profile)) ""
    then generatedName (host profile) else name profile in
  exists store' added,
    addProxyProfile Sections Store loadConfig saveConfig generatedName profile store
    = Some (store', added)
    /\ ~ In (name added) (List.map name before)
    /\ (name added = asked
        \/ In asked (List.map name before)
           /\ exists k, (1 <= k <= length before)%nat /\ name added = candidateName asked k)
    /\ host added = host profile /\ port added = port profile
    /\ scheme added = scheme profile
    /\ getProxyProfiles Sections Store loadConfig store' = before ++ [added]
    /\ (NoDup (List.map name before) ->
        NoDup (List.map name (getProxyProfiles Sections Store loadConfig store'))).
Proof.
  intros Hlaw before asked. unfold addProxyProfile. fold asked.
  change (profiles (proxy (loadConfig store))) with before.
  destruct (uniqueName_terminates (List.map name before) asked) as [n Hn].
  rewrite List.length_map in Hn. rewrite Hn.
  destruct (uniqueName_Some _ _ _ _ _ _ Hn) as [Hfresh Hshape].
  eexists _, _. split; [reflexivity|]. cbn [name host port scheme].
  split; [exact Hfresh|]. split.
  { destruct Hshape as [->|(Hasked & k & Hk & -> & Hall)]; [left; reflexivity|].
    right. split; [exact Hasked|]. exists k. split; [|reflexivity]. split; [lia|].
    assert (Hnd : NoDup (asked :: candidateNames asked 1 (k - 1))).
    { apply NoDup_cons. split; [|apply candidateNames_NoDup].
      unfold candidateNames. intros (j & Hj & _)%list_elem_of_fmap.
      symmetry in Hj. exact (candidateName_longer _ _ Hj). }
    assert (Hsub : forall x, x ∈ asked :: candidateNames asked 1 (k - 1) ->
                             x ∈ List.map name before).
    { intros x [->|Hx]%elem_of_cons; [apply list_elem_of_In, Hasked|apply Hall, Hx]. }
    pose proof (submseteq_length _ _ (NoDup_submseteq _ _ Hnd Hsub)) as Hlen.
    unfold candidateNames in Hlen. cbn [length] in Hlen.
    rewrite length_fmap, length_seq, List.length_map in Hlen. lia. }
  do 3 (split; [reflexivity|]).
  unfold getProxyProfiles. rewrite Hlaw. cbn [withProxy proxy profiles].
  split; [reflexivity|].
  intros Hnd. rewrite List.map_app. cbn [List.map name].
  apply NoDup_app. split; [exact Hnd|]. split; [|apply NoDup_singleton].
  intros x Hx [->|[]]%list_elem_of_In. apply list_elem_of_In in Hx. exact (Hfresh Hx).
Qed.

End Storage.

Lemma addProxyProfile_fresh_name_witness :
  exists store' added,
    addProxyProfile _ _ ProxyScenario.load ProxyScenario.save (fun h => h)
      ProxyScenario.nyc ProxyScenario.routedStore = Some (store', added)
    /\ name added = "NYC (1)"
    /\ getProxyProfiles _ _ ProxyScenario.load store'
       = [ProxyScenario.nyc; ProxyScenario.paris; added].
Proof.
  destruct (addProxyProfile_fresh_name _ _ ProxyScenario.load ProxyScenario.save (fun h => h)
              ProxyScenario.nyc ProxyScenario.routedStore (fun _ _ => eq_refl))
    as (store' & added & Hrun & _ & _ & _ & _ & _ & Hlist & _).
  exists store', added. split; [exact Hrun|]. split; [|exact Hlist].
  vm_compute in Hrun. injection Hrun as _ <-. reflexivity.
Defined.

End ProxyProfilesSpec.

(** ** The bypass list and the applied settings *)
Module ProxyApplySpec.
Import JsString JsStringFacts JsStringMoreFacts Proxy ProxySettings Notions.

#[local] Arguments String.append : simpl nomatch.

Lemma addPattern_keeps value acc :
  value <> "" -> consistent acc ->
  consistent (addPattern value acc)
  /\ In value (normalized (addPattern value acc))
  /\ (forall x, In x (normalized acc) -> In x (normalized (addPattern value acc))).
Proof.
  intros Hv (Hnd & Hseen & Hne). unfold addPattern, consistent.
  destruct (bool_decide (value ∈ seen acc)) eqn:E.
  - apply bool_decide_eq_true in E. repeat split; try assumption; try apply Hseen; auto.
  - apply bool_decide_eq_false in E. cbn [normalized seen].
    split; [split; [|split]|split].
    + apply NoDup_app. split; [exact Hnd|]. split; [|apply NoDup_singleton].
      intros x Hx [->|[]]%list_elem_of_In. apply E, Hseen, list_elem_of_In, Hx.
    + intros x. rewrite elem_of_union, elem_of_singleton, Hseen, List.in_app_iff.
      cbn [In]. intuition congruence.
    + intros x [Hx|[<-|[]]]%List.in_app_iff; auto.
    + apply List.in_app_iff. right. left. reflexivity.
    + intros x Hx. apply List.in_app_iff. left. exact Hx.
Qed.

Lemma star_prefixed_nonempty (pre s : string) : pre <> "" -> pre +:+ s <> "".
Proof. destruct pre; [congruence|]. cbn [String.append]. discriminate. Qed.

(** One turn of the loop: it keeps the accumulator consistent and what was
    there, and it adds the trimmed entry and, for a domain, its wildcard
    forms. *)
Lemma normalizeEntry_keeps acc entry :
  consistent acc ->
  let acc' := normalizeEntry acc entry in
  let p := trim entry in
  consistent acc'
  /\ (forall x, In x (normalized acc) -> In x (normalized acc'))
  /\ (p <> "" -> In p (normalized acc'))
  /\ (p <> "" -> includes p "*" = false -> isLikelyDomain p = true -> isIPv4 p = false ->
      In ("*." +:+ p) (normalized acc') /\ In ("*" +:+ p) (normalized acc'))
  /\ (startsWith p "*." = true -> isLikelyDomain p = true ->
      isIPv4 (substringFrom 2 p) = false ->
      In ("*" +:+ substringFrom 2 p) (normalized acc')).
Proof.
  intros Hacc acc' p. unfold acc', normalizeEntry. fold p.
  destruct (truthy p) eqn:Hp; cbn [negb].
  2:{ assert (p = "") as -> by (destruct p; [reflexivity|discriminate]).
      split; [exact Hacc|]. split; [auto|]. split; [congruence|]. split; [congruence|].
      discriminate. }
  apply truthy_true_iff in Hp.
  destruct (addPattern_keeps p acc Hp Hacc) as (H1 & Hin1 & Hmono1).
  set (acc1 := addPattern p acc) in *.
  set (acc2 := if negb (includes p "*") && isLikelyDomain p && negb (isIPv4 p)
               then addPattern ("*" +:+ p) (addPattern ("*." +:+ p) acc1) else acc1).
  assert (H2 : consistent acc2
               /\ (forall x, In x (normalized acc1) -> In x (normalized acc2))
               /\ (includes p "*" = false -> isLikelyDomain p = true -> isIPv4 p = false ->
                   In ("*." +:+ p) (normalized acc2) /\ In ("*" +:+ p) (normalized acc2))).
  { unfold acc2.
    destruct (includes p "*"), (isLikelyDomain p), (isIPv4 p); cbn [negb andb];
      try (split; [exact H1|]; split; [auto|]; discriminate).
    destruct (addPattern_keeps ("*." +:+ p) acc1 (star_prefixed_nonempty "*." p ltac:(discriminate)) H1)
      as (Ha & Hina & Hmonoa).
    destruct (addPattern_keeps ("*" +:+ p) _ (star_prefixed_nonempty "*" p ltac:(discriminate)) Ha)
      as (Hb & Hinb & Hmonob).
    split; [exact Hb|]. split; [auto|]. intros _ _ _. split; [auto|exact Hinb]. }
  destruct H2 as (H2 & Hmono2 & Hin2).
  destruct (startsWith p "*." && isLikelyDomain p && negb (isIPv4 (substringFrom 2 p))) eqn:E.
  - destruct (addPattern_keeps ("*" +:+ substringFrom 2 p) acc2
                (star_prefixed_nonempty "*" _ ltac:(discriminate)) H2) as (H3 & Hin3 & Hmono3).
    split; [exact H3|]. split; [auto|]. split; [auto|].
    split; [intros; split; apply Hmono3, Hin2; assumption|]. intros _ _ _. exact Hin3.
  - split; [exact H2|]. split; [auto|]. split; [auto|].
    split; [intros; apply Hin2; assumption|].
    intros Ha Hb Hc. rewrite Ha, Hb, Hc in E. discriminate E.
Qed.

Lemma fold_normalizeEntry_keeps l acc :
  consistent acc ->
  consistent (fold_left normalizeEntry l acc)
  /\ (forall x, In x (normalized acc) -> In x (normalized (fold_left normalizeEntry l acc))).
Proof.
  revert acc. induction l as [|e l IH]; intros acc Hacc; cbn [fold_left]; [auto|].
  destruct (normalizeEntry_keeps acc e Hacc) as (H1 & Hmono & _).
  destruct (IH _ H1) as [H2 Hmono2]. auto.
Qed.

(** X13. The list [normalizeBypassList] builds has no entry twice and no
    empty entry.  It has every entry of the input, trimmed, that is not
    blank; beside a domain without wildcard, that is not an IPv4 address,
    it has the two wildcard forms [*.domain] and [*domain]; and beside a
    pattern [*.domain] it has [*domain]. *)
Theorem normalizeBypassList_entries bypassList :
  let result := normalizeBypassList bypassList in
  NoDup result
  /\ (forall x, In x result -> x <> "")
  /\ (forall entry, In entry bypassList ->
        let p := trim entry in
        (p <> "" -> In p result)
        /\ (p <> "" -> includes p "*" = false -> isLikelyDomain p = true ->
            isIPv4 p = false -> In ("*." +:+ p) result /\ In ("*" +:+ p) result)
        /\ (startsWith p "*." = true -> isLikelyDomain p = true ->
            isIPv4 (substringFrom 2 p) = false -> In ("*" +:+ substringFrom 2 p) result)).
Proof.
  intros result. unfold result, normalizeBypassList.
  assert (Hinit : consistent {| normalized := []; seen := ∅ |}).
  { split; [apply NoDup_nil; exact I|]. split; [|intros x []].
    intros x. cbn [seen normalized In]. rewrite elem_of_empty. tauto. }
  destruct (fold_normalizeEntry_keeps bypassList _ Hinit) as [(Hnd & _ & Hne) _].
  split; [exact Hnd|]. split; [exact Hne|].
  revert Hinit. generalize {| normalized := []; seen := ∅ |}. clear Hnd Hne.
  induction bypassList as [|e l IH]; intros acc Hacc entry Hentry; [destruct Hentry|].
  cbn [fold_left].
  destruct (normalizeEntry_keeps acc e Hacc) as (H1 & _ & Ha & Hb & Hc).
  destruct Hentry as [->|Hentry]; [|exact (IH _ H1 entry Hentry)].
  destruct (fold_normalizeEntry_keeps l _ H1) as [_ Hmono].
  cbv zeta in *. split; [auto|]. split; [|auto].
  intros. split; apply Hmono, Hb; assumption.
Qed.

(** A bypass list as a user types it. *)
Example normalizeBypassList_example :
  normalizeBypassList [" example.com "; "10.0.0.1"; "*.example.com"; ""; "localhost"]
  = ["example.com"; "*.example.com"; "*example.com"; "10.0.0.1"; "localhost"].
Proof. vm_compute. reflexivity. Qed.

Section Storage.
Variables (Sections Store : Type).
Variable loadConfig : Store -> Config Sections.
Variable saveConfig : Config Sections -> Store -> Store.
Variable enabledIsFalse : Sections -> bool.
Variable globalWhitelist : Sections -> option string.
Variable generatedName : string -> string.
Variable generatePACScript :
  list ProxyProfile -> list Route -> option string -> option string -> list string -> string.

(** X14. Once the proxy is switched off the browser is put back on the
    system settings: this is what [disableProxy] applies, and what
    [applyProxySettings] applies after [removeProxyProfile] has removed the
    active profile, whatever routes are left. *)
Theorem switched_off_applies_system store :
  proxySectionIsStored loadConfig saveConfig ->
  (disableProxy Sections Store loadConfig saveConfig enabledIsFalse globalWhitelist
     generatePACScript store).2 = Some SystemMode
  /\ (forall profileName,
        activeProfile (proxy (loadConfig store)) = Some profileName ->
        applyProxySettings Sections Store loadConfig enabledIsFalse globalWhitelist
          generatePACScript
          (removeProxyProfile Sections Store loadConfig saveConfig profileName store)
        = Some SystemMode).
Proof.
  intros Hlaw. unfold proxySectionIsStored in Hlaw. split.
  - unfold disableProxy. cbn [snd]. unfold applyProxySettings.
    rewrite !Hlaw. cbn [withProxy proxy enabled negb].
    destruct (enabledIsFalse _); reflexivity.
  - intros profileName Hactive. unfold applyProxySettings, removeProxyProfile.
    rewrite !Hlaw. cbn [proxy activeProfile]. rewrite Hactive, String.eqb_refl.
    cbn [proxy enabled negb]. destruct (enabledIsFalse _); reflexivity.
Qed.

(** X15. [applyProxySettings] hands the browser one fixed server only when
    the proxy is enabled, there is no route and no global allowlist, and
    then it is the server of a stored profile that has the active name, with
    a bypass list that is never empty.  It applies nothing at all exactly
    when the proxy is enabled without routes and without allowlist and the
    active name is the name of no stored profile. *)
Theorem applyProxySettings_outcomes store :
  let config := loadConfig store in
  let allowlisted :=
    match globalWhitelist (otherSections config) with
    | Some w => negb (String.eqb (trim w) "")
    | None => false
    end in
  (forall s h p b,
      applyProxySettings Sections Store loadConfig enabledIsFalse globalWhitelist
        generatePACScript store = Some (FixedServers s h p b) ->
      enabledIsFalse (otherSections config) = false
      /\ enabled (proxy config) = true
      /\ domainRoutes (proxy config) = []
      /\ allowlisted = false
      /\ b <> Some []
      /\ exists prof, In prof (profiles (proxy config))
           /\ activeProfile (proxy config) = Some (name prof)
           /\ s = scheme prof /\ h = host prof /\ p = port prof)
  /\ (applyProxySettings Sections Store loadConfig enabledIsFalse globalWhitelist
        generatePACScript store = None
      <-> enabledIsFalse (otherSections config) = false
          /\ enabled (proxy config) = true
          /\ domainRoutes (proxy config) = []
          /\ allowlisted = false
          /\ exists a, activeProfile (proxy config) = Some a /\ a <> ""
               /\ ~ In a (List.map name (profiles (proxy config)))).
Proof.
  intros config allowlisted. unfold applyProxySettings. fold config. cbv zeta. fold allowlisted.
  destruct (enabledIsFalse (otherSections config)).
  { split; [discriminate|]. split; [discriminate|]. intros (H & _). discriminate H. }
  destruct (enabled (proxy config)); cbn [negb].
  2:{ split; [discriminate|]. split; [discriminate|]. intros (_ & H & _). discriminate H. }
  destruct (domainRoutes (proxy config)) as [|r routes] eqn:Hroutes; cbn [length Nat.eqb andb].
  2:{ split; [discriminate|]. split; [discriminate|]. intros (_ & _ & H & _). discriminate H. }
  destruct (activeProfile (proxy config)) as [a|] eqn:Hactive; cbn [truthyOpt negb].
  2:{ split; [discriminate|]. split; [discriminate|].
      intros (_ & _ & _ & _ & a & H & _). discriminate H. }
  destruct (truthy a) eqn:Ha; cbn [negb andb].
  2:{ split; [discriminate|]. split; [discriminate|].
      intros (_ & _ & _ & _ & a' & [= <-] & Hne & _).
      apply truthy_true_iff in Hne. congruence. }
  destruct allowlisted; cbn [negb].
  { split; [discriminate|]. split; [discriminate|]. intros (_ & _ & _ & H & _). discriminate H. }
  cbn [default]. change (id a) with a.
  destruct (List.find (fun p => String.eqb (name p) a) (profiles (proxy config))) as [prof|] eqn:Hfind.
  - apply List.find_some in Hfind as [Hin Hname]. apply String.eqb_eq in Hname.
    split.
    + intros s h p b [= <- <- <- <-]. do 4 (split; [reflexivity|]). split.
      * destruct (0 <? length _)%nat eqn:E; [|discriminate].
        intros [= H]. rewrite H in E. discriminate E.
      * exists prof. rewrite Hname. auto.
    + split; [discriminate|]. intros (_ & _ & _ & _ & a' & [= <-] & _ & Hout).
      exfalso. apply Hout. rewrite <- Hname. apply List.in_map, Hin.
  - split; [discriminate|]. split; [|reflexivity]. intros _.
    do 4 (split; [reflexivity|]). exists a. split; [reflexivity|].
    split; [apply truthy_true_iff, Ha|].
    intros (prof & Hn & Hin)%List.in_map_iff.
    pose proof (List.find_none _ _ Hfind prof Hin) as Hno. cbn beta in Hno.
    rewrite Hn, String.eqb_refl in Hno. discriminate Hno.
Qed.

End Storage.

Lemma switched_off_applies_system_witness :
  (disableProxy _ _ ProxyScenario.load ProxyScenario.save ProxyScenario.restEnabledIsFalse
     ProxyScenario.restGlobalWhitelist ProxyScenario.pacText ProxyScenario.routedStore).2
  = Some SystemMode
  /\ applyProxySettings _ _ ProxyScenario.load ProxyScenario.restEnabledIsFalse
       ProxyScenario.restGlobalWhitelist ProxyScenario.pacText
       (removeProxyProfile _ _ ProxyScenario.load ProxyScenario.save "NYC"
          ProxyScenario.routedStore)
     = Some SystemMode.
Proof.
  destruct (switched_off_applies_system _ _ ProxyScenario.load ProxyScenario.save
              ProxyScenario.restEnabledIsFalse ProxyScenario.restGlobalWhitelist
              ProxyScenario.pacText ProxyScenario.routedStore (fun _ _ => eq_refl))
    as [H1 H2].
  split; [exact H1|]. apply H2. reflexivity.
Defined.

(** The three outcomes on concrete stores: a PAC script when there are
    routes, one fixed server with the normalised bypass list when there are
    none (a blank allowlist does not count), nothing when the active name is
    unknown. *)
Example applyProxySettings_examples :
  applyProxySettings _ _ ProxyScenario.load ProxyScenario.restEnabledIsFalse
    ProxyScenario.restGlobalWhitelist ProxyScenario.pacText ProxyScenario.routedStore
  = Some (PacScript "function FindProxyForURL(url, host) {}")
  /\ applyProxySettings _ _ ProxyScenario.load ProxyScenario.restEnabledIsFalse
       ProxyScenario.restGlobalWhitelist ProxyScenario.pacText ProxyScenario.fixedStore
     = Some (FixedServers "socks5" "203.0.113.7" 1080
               (Some ["localhost"; "example.com"; "*.example.com"; "*example.com"]))
  /\ applyProxySettings _ _ ProxyScenario.load ProxyScenario.restEnabledIsFalse
       ProxyScenario.restGlobalWhitelist ProxyScenario.pacText ProxyScenario.danglingStore
     = None.
Proof. vm_compute. repeat split. Qed.

End ProxyApplySpec.

(** ** The ledger of triggered features *)
Module LedgerSpec.
Import JsString JsStringFacts DomainFilter Background BackgroundTabs.

Lemma setAdd_In feature members : In feature (setAdd feature members).
Proof.
  unfold setAdd. destruct (existsb (String.eqb feature) members) eqn:E.
  - apply existsb_exists in E as (x & Hx & Heq). apply String.eqb_eq in Heq. subst. exact Hx.
  - apply List.in_app_iff. right. left. reflexivity.
Qed.

Lemma setAdd_elements feature members g :
  In g (setAdd feature members) <-> g = feature \/ In g members.
Proof.
  unfold setAdd. destruct (existsb (String.eqb feature) members) eqn:E.
  - split; [auto|]. intros [->|H]; [|exact H].
    apply existsb_exists in E as (x & Hx & Heq). apply String.eqb_eq in Heq. subst. exact Hx.
  - rewrite List.in_app_iff. cbn [In]. intuition congruence.
Qed.

Lemma setAdd_NoDup feature members : NoDup members -> NoDup (setAdd feature members).
Proof.
  intros Hnd. unfold setAdd. destruct (existsb (String.eqb feature) members) eqn:E; [exact Hnd|].
  apply NoDup_app. split; [exact Hnd|]. split; [|apply NoDup_singleton].
  intros x Hx [<-|[]]%list_elem_of_In. apply list_elem_of_In in Hx.
  assert (existsb (String.eqb feature) members = true); [|congruence].
  apply existsb_exists. exists feature. split; [exact Hx|apply String.eqb_refl].
Qed.

Lemma setAdd_again feature members :
  setAdd feature (setAdd feature members) = setAdd feature members.
Proof.
  unfold setAdd at 1.
  assert (existsb (String.eqb feature) (setAdd feature members) = true) as ->; [|reflexivity].
  apply existsb_exists. exists feature. split; [apply setAdd_In|apply String.eqb_refl].
Qed.

(** X16. A feature marked for a tab is reported for that tab.  The report
    for the tab then holds the feature and nothing else that was not
    reported before; what was reported for the same hostname is kept, and
    after a change of hostname the feature is alone.  No feature is reported
    twice, the reports of the other tabs are untouched, and marking the
    same feature again changes nothing. *)
Theorem marked_feature_is_reported tabId hostname feature ledger :
  tabId <> 0 ->
  let ledger' := markTriggeredFeatureForTab (Some tabId) hostname feature ledger in
  let before := handleGetTriggeredFeaturesMessage (Some tabId) ledger in
  let after := handleGetTriggeredFeaturesMessage (Some tabId) ledger' in
  In feature after
  /\ (forall g, In g after -> g = feature \/ In g before)
  /\ ((exists data, ledger !! tabId = Some data /\ tab_hostname data = hostname) ->
      forall g, In g before -> In g after)
  /\ ((forall data, ledger !! tabId = Some data -> tab_hostname data <> hostname) ->
      after = [feature])
  /\ (NoDup before -> NoDup after)
  /\ (forall other, other <> tabId ->
        handleGetTriggeredFeaturesMessage (Some other) ledger'
        = handleGetTriggeredFeaturesMessage (Some other) ledger)
  /\ markTriggeredFeatureForTab (Some tabId) hostname feature ledger' = ledger'.
Proof.
  intros Hid ledger' before after.
  unfold after, before, ledger', handleGetTriggeredFeaturesMessage, markTriggeredFeatureForTab.
  rewrite (proj2 (Z.eqb_neq _ _) Hid). rewrite !lookup_insert_eq.
  cbn [tab_features tab_hostname].
  destruct (ledger !! tabId) as [data|] eqn:Hdata.
  - destruct (bool_decide (tab_hostname data = hostname)) eqn:Hsame.
    + apply bool_decide_eq_true in Hsame.
      split; [apply setAdd_In|]. split; [intros g; apply setAdd_elements|].
      split; [intros _ g Hg; apply setAdd_elements; auto|].
      split; [intros Hne; destruct (Hne data eq_refl Hsame)|].
      split; [apply setAdd_NoDup|].
      split; [intros other Hother; rewrite lookup_insert_ne by congruence; reflexivity|].
      rewrite bool_decide_eq_true_2 by exact Hsame.
      cbn [tab_features tab_hostname]. rewrite insert_insert_eq, setAdd_again. reflexivity.
    + apply bool_decide_eq_false in Hsame. cbn [tab_features tab_hostname setAdd existsb app].
      split; [left; reflexivity|]. split; [intros g [<-|[]]; auto|].
      split; [intros (data' & [= <-] & Hh); destruct (Hsame Hh)|].
      split; [reflexivity|]. split; [intros _; apply NoDup_singleton|].
      split; [intros other Hother; rewrite lookup_insert_ne by congruence; reflexivity|].
      rewrite bool_decide_eq_true_2 by reflexivity. cbn [tab_features tab_hostname].
      rewrite insert_insert_eq. unfold setAdd. cbn [existsb]. rewrite String.eqb_refl.
      reflexivity.
  - cbn [tab_features tab_hostname setAdd existsb app].
    split; [left; reflexivity|]. split; [intros g [<-|[]]; auto|].
    split; [intros (data' & [=] & _)|].
    split; [reflexivity|]. split; [intros _; apply NoDup_singleton|].
    split; [intros other Hother; rewrite lookup_insert_ne by congruence; reflexivity|].
    rewrite bool_decide_eq_true_2 by reflexivity. cbn [tab_features tab_hostname].
    rewrite insert_insert_eq. unfold setAdd. cbn [existsb]. rewrite String.eqb_refl.
    reflexivity.
Qed.

Lemma marked_feature_is_reported_witness :
  handleGetTriggeredFeaturesMessage (Some 7)
    (markTriggeredFeatureForTab (Some 7) (Some "a.com") "webgl"
       (markTriggeredFeatureForTab (Some 7) (Some "a.com") "canvas" ∅))
  = ["canvas"; "webgl"]
  /\ In "webgl"
       (handleGetTriggeredFeaturesMessage (Some 7)
          (markTriggeredFeatureForTab (Some 7) (Some "a.com") "webgl"
             (markTriggeredFeatureForTab (Some 7) (Some "a.com") "canvas" ∅))).
Proof.
  split; [reflexivity|].
  destruct (marked_feature_is_reported 7 (Some "a.com") "webgl"
              (markTriggeredFeatureForTab (Some 7) (Some "a.com") "canvas" ∅)
              ltac:(discriminate)) as [H _].
  exact H.
Defined.

(** A mark without a tab, or for the tab 0, is dropped. *)
Lemma mark_without_tab hostname feature ledger :
  markTriggeredFeatureForTab None hostname feature ledger = ledger
  /\ markTriggeredFeatureForTab (Some 0) hostname feature ledger = ledger.
Proof. split; reflexivity. Qed.

Section Listeners.
Variable urlHostname : string -> option string.

(** X17. What was marked for a tab on [hostname] survives a navigation of
    the tab inside [hostname] and is dropped by a navigation to another
    hostname or to a URL that does not parse, and by closing the tab; an
    update without URL leaves it, and the other tabs are never touched. *)
Theorem navigation_clears_ledger tabId hostname feature url ledger :
  tabId <> 0 ->
  truthy url = true ->
  let ledger' := markTriggeredFeatureForTab (Some tabId) (Some hostname) feature ledger in
  handleGetTriggeredFeaturesMessage (Some tabId)
    (onTabUpdated urlHostname tabId (Some url) ledger')
  = match urlHostname url with
    | Some newHostname =>
        if String.eqb newHostname hostname
        then handleGetTriggeredFeaturesMessage (Some tabId) ledger'
        else []
    | None => []
    end
  /\ onTabUpdated urlHostname tabId None ledger' = ledger'
  /\ handleGetTriggeredFeaturesMessage (Some tabId) (onTabRemoved tabId ledger') = []
  /\ (forall other changedUrl, other <> tabId ->
        handleGetTriggeredFeaturesMessage (Some other)
          (onTabUpdated urlHostname tabId changedUrl ledger')
        = handleGetTriggeredFeaturesMessage (Some other) ledger'
        /\ handleGetTriggeredFeaturesMessage (Some other) (onTabRemoved tabId ledger')
           = handleGetTriggeredFeaturesMessage (Some other) ledger').
Proof.
  intros Hid Hurl ledger'.
  assert (Hrec : exists data, ledger' !! tabId = Some data /\ tab_hostname data = Some hostname).
  { unfold ledger', markTriggeredFeatureForTab. rewrite (proj2 (Z.eqb_neq _ _) Hid).
    rewrite lookup_insert_eq. eexists. split; [reflexivity|]. cbn [tab_hostname].
    destruct (ledger !! tabId) as [data|]; [|reflexivity].
    destruct (bool_decide (tab_hostname data = Some hostname)) eqn:E; [|reflexivity].
    apply bool_decide_eq_true in E. exact E. }
  destruct Hrec as (data & Hdata & Hhost). clearbody ledger'.
  split; [|split; [|split]].
  - unfold onTabUpdated. cbn [truthyOpt default]. change (id url) with url. rewrite Hurl.
    destruct (urlHostname url) as [newHostname|].
    + rewrite Hdata, Hhost. destruct (String.eqb newHostname hostname) eqn:E.
      * apply String.eqb_eq in E. subst. rewrite bool_decide_eq_true_2 by reflexivity.
        reflexivity.
      * apply eqb_false_iff in E. rewrite bool_decide_eq_false_2 by congruence.
        unfold handleGetTriggeredFeaturesMessage. rewrite lookup_delete_eq. reflexivity.
    + unfold handleGetTriggeredFeaturesMessage. rewrite lookup_delete_eq. reflexivity.
  - reflexivity.
  - unfold handleGetTriggeredFeaturesMessage, onTabRemoved. rewrite lookup_delete_eq.
    reflexivity.
  - intros other changedUrl Hother. split.
    + unfold onTabUpdated. destruct (truthyOpt changedUrl); [|reflexivity].
      destruct (urlHostname _).
      * rewrite Hdata. destruct (bool_decide _); [reflexivity|].
        unfold handleGetTriggeredFeaturesMessage. rewrite lookup_delete_ne by congruence.
        reflexivity.
      * unfold handleGetTriggeredFeaturesMessage. rewrite lookup_delete_ne by congruence.
        reflexivity.
    + unfold handleGetTriggeredFeaturesMessage, onTabRemoved.
      rewrite lookup_delete_ne by congruence. reflexivity.
Qed.

End Listeners.

Lemma navigation_clears_ledger_witness :
  handleGetTriggeredFeaturesMessage (Some 7)
    (onTabUpdated ExampleUrl.hostname 7 (Some "https://b.org/welcome")
       (markTriggeredFeatureForTab (Some 7) (Some "a.com") "canvas" ∅))
  = []
  /\ handleGetTriggeredFeaturesMessage (Some 7)
       (onTabUpdated ExampleUrl.hostname 7 (Some "https://a.com/next")
          (markTriggeredFeatureForTab (Some 7) (Some "a.com") "canvas" ∅))
     = ["canvas"].
Proof.
  split.
  - destruct (navigation_clears_ledger ExampleUrl.hostname 7 "a.com" "canvas"
                "https://b.org/welcome" ∅ ltac:(discriminate) eq_refl) as [H _].
    exact H.
  - destruct (navigation_clears_ledger ExampleUrl.hostname 7 "a.com" "canvas"
                "https://a.com/next" ∅ ltac:(discriminate) eq_refl) as [H _].
    exact H.
Defined.

End LedgerSpec.

(** ** The notification throttle *)
Module NotificationSpec.
Import JsString JsStringFacts DomainFilter Background BackgroundTabs.

#[local] Arguments String.append : simpl nomatch.

Lemma hyphen_in_key (feature hostname : string) :
  In "-"%char (list_ascii_of_string (feature +:+ "-" +:+ hostname)).
Proof.
  induction feature as [|c feature IH]; cbn [String.append list_ascii_of_string].
  - left. reflexivity.
  - right. exact IH.
Qed.

(** The key of a notification is never [__proto__]: it has a hyphen. *)
Lemma key_not_proto (feature hostname : string) :
  String.eqb (feature +:+ "-" +:+ hostname) "__proto__" = false.
Proof.
  apply eqb_false_iff. intros H. pose proof (hyphen_in_key feature hostname) as Hin.
  rewrite H in Hin. cbn in Hin. intuition discriminate.
Qed.

Lemma getProperty_setProperty o feature hostname now :
  getProperty (setProperty o (feature +:+ "-" +:+ hostname) now)
    (feature +:+ "-" +:+ hostname) = Own now.
Proof.
  unfold setProperty, getProperty. rewrite key_not_proto, lookup_insert_eq. reflexivity.
Qed.

(** X18. When a detection of [feature] on [hostname] at the time [now1] has
    raised a notification, the next detection of the same feature on the
    same hostname raises none and changes nothing while less than
    [NOTIFICATION_THROTTLE_MS] have passed, and raises exactly one more once
    they have. *)
Theorem notification_throttle notificationsEnabled config now1 now2 feature hostname n0 :
  let n1 := handleFingerprintDetection notificationsEnabled config now1 feature hostname n0 in
  let n2 := handleFingerprintDetection notificationsEnabled config now2 feature hostname n1 in
  created n1 <> created n0 ->
  created n1 = created n0 ++ [(feature, hostname)]
  /\ (now2 - now1 < NOTIFICATION_THROTTLE_MS -> n2 = n1)
  /\ (NOTIFICATION_THROTTLE_MS <= now2 - now1 ->
      created n2 = created n1 ++ [(feature, hostname)]).
Proof.
  intros n1 n2. unfold n2, n1, handleFingerprintDetection.
  destruct notificationsEnabled; cbn [negb]; [|congruence].
  destruct (enabled config); cbn [negb]; [|congruence].
  destruct (features config !! _) as [featureConfig|]; [|congruence].
  destruct (feature_enabled featureConfig); cbn [negb]; [|congruence].
  destruct (isHostnameOnFeatureAllowlist _ _); [congruence|].
  cbv zeta.
  destruct (match getProperty (lastNotificationTime n0) (feature +:+ "-" +:+ hostname) with
            | Undefined => now1 - 0 <? NOTIFICATION_THROTTLE_MS
            | Own lastTime => now1 - lastTime <? NOTIFICATION_THROTTLE_MS
            | Inherited => false
            end); [congruence|].
  intros _. cbn [created lastNotificationTime]. rewrite getProperty_setProperty.
  split; [reflexivity|]. split.
  - intros Hsoon. rewrite (proj2 (Z.ltb_lt _ _) Hsoon). reflexivity.
  - intros Hlate. rewrite (proj2 (Z.ltb_ge _ _) Hlate). reflexivity.
Qed.

Lemma notification_throttle_witness :
  let quiet := {| lastNotificationTime := ∅; created := [] |} in
  let n1 :=
    handleFingerprintDetection true Scenario.exampleConfig Scenario.detectionTime
      "canvas" "a.com" quiet in
  created n1 = [("canvas", "a.com")]
  /\ handleFingerprintDetection true Scenario.exampleConfig (Scenario.detectionTime + 1000)
       "canvas" "a.com" n1 = n1
  /\ created
       (handleFingerprintDetection true Scenario.exampleConfig (Scenario.detectionTime + 3770)
          "canvas" "a.com" n1)
     = [("canvas", "a.com"); ("canvas", "a.com")].
Proof.
  intros quiet n1.
  assert (Hraised : created n1 <> created quiet) by (vm_compute; discriminate).
  destruct (notification_throttle true Scenario.exampleConfig Scenario.detectionTime
              (Scenario.detectionTime + 1000) "canvas" "a.com" quiet Hraised)
    as (H1 & H2 & _).
  destruct (notification_throttle true Scenario.exampleConfig Scenario.detectionTime
              (Scenario.detectionTime + 3770) "canvas" "a.com" quiet Hraised)
    as (_ & _ & H3).
  split; [exact H1|]. split.
  - apply H2. unfold NOTIFICATION_THROTTLE_MS. lia.
  - fold n1 in H1, H3. rewrite H3 by (unfold NOTIFICATION_THROTTLE_MS; lia).
    rewrite H1. reflexivity.
Defined.

(** No notification is raised while notifications or the protection are
    switched off, for a feature that is switched off, or on a hostname of
    the feature's allowlist. *)
Lemma notification_skipped notificationsEnabled config now feature hostname n0 section :
  features config !! (if String.eqb feature "user-agent" then "useragent" else feature)
  = Some section ->
  notificationsEnabled = false \/ enabled config = false \/ feature_enabled section = false
  \/ isHostnameOnFeatureAllowlist (Some hostname)
       (match feature_whitelist section with
        | Some w => if truthy w then w else ""
        | None => ""
        end) = true ->
  handleFingerprintDetection notificationsEnabled config now feature hostname n0 = n0.
Proof.
  intros Hsection H. unfold handleFingerprintDetection. rewrite Hsection.
  destruct notificationsEnabled; [|reflexivity]. cbn [negb].
  destruct (enabled config); [|reflexivity]. cbn [negb].
  destruct (feature_enabled section); [|reflexivity]. cbn [negb].
  destruct H as [H|[H|[H|H]]]; try discriminate H. rewrite H. reflexivity.
Qed.

End NotificationSpec.

(** ** The injection configuration *)
Module InjectionSpec.
Import JsString JsStringFacts DomainFilter Background BackgroundFacts BackgroundTabs Notions.

Section Injection.
Variable clock : nat -> Z.
Variable urlHostname : string -> option string.

Lemma shouldActivateFeature_section config url featureName :
  shouldActivateFeature urlHostname config url featureName = true ->
  exists section, features config !! featureName = Some section.
Proof.
  unfold shouldActivateFeature. destruct (negb (enabled config)); [discriminate|].
  destruct (features config !! featureName) as [section|]; [eauto|discriminate].
Qed.

Lemma addFeatureIfActive_lookup config url featureName acc f :
  addFeatureIfActive urlHostname config url featureName acc !! f
  = if String.eqb f featureName && shouldActivateFeature urlHostname config url featureName
    then features config !! featureName
    else acc !! f.
Proof.
  unfold addFeatureIfActive.
  destruct (shouldActivateFeature urlHostname config url featureName) eqn:E;
    [|rewrite andb_false_r; reflexivity].
  destruct (shouldActivateFeature_section _ _ _ E) as [section ->].
  rewrite andb_true_r. destruct (String.eqb f featureName) eqn:Ef.
  - apply String.eqb_eq in Ef. subst. apply lookup_insert_eq.
  - apply eqb_false_iff in Ef. apply lookup_insert_ne. congruence.
Qed.

Lemma shouldActivateFeature_off config url featureName :
  enabled config = false
  \/ urlHostname url = None
  \/ (exists hostname, urlHostname url = Some hostname
        /\ isWhitelisted hostname (globalWhitelist config) = true) ->
  shouldActivateFeature urlHostname config url featureName = false.
Proof.
  intros H. unfold shouldActivateFeature, extractHostname.
  destruct (enabled config); [|reflexivity]. cbn [negb].
  destruct (features config !! featureName) as [section|]; [|reflexivity].
  destruct (feature_enabled section); [|reflexivity]. cbn [negb].
  destruct H as [H|[H|(hostname & H & Hw)]]; [discriminate H|rewrite H; reflexivity|].
  rewrite H, Hw. destruct (truthy hostname); reflexivity.
Qed.

(** X19. While an unexpired detection of a challenge is on record for the
    hostname of the tab, a frame that asks for its injection configuration
    is told that the protections are off, with the global allowlist; the
    request only reads the clock.  Once the detection has reached the TTL
    the frame gets its sections again and the record is dropped. *)
Theorem injection_off_during_bypass config requestUrl sender s h t0 :
  resolveTabHostname urlHostname sender (getHostnameFromUrl urlHostname requestUrl) = Some h ->
  truthy h = true ->
  turnstileTimestamps s !! h = Some t0 ->
  t0 <> 0 ->
  let answer := buildInjectionConfigForRequest clock urlHostname config requestUrl sender s in
  (clock (clockReads s) - t0 < TURNSTILE_BYPASS_TTL_MS ->
   answer = (ProtectionsOff (globalWhitelist config), tick 1 s))
  /\ (TURNSTILE_BYPASS_TTL_MS <= clock (clockReads s) - t0 ->
      (exists sections, answer.1 = Protections sections)
      /\ turnstileTimestamps answer.2 = delete h (turnstileTimestamps s)).
Proof.
  intros Hres Hh Ht Hz answer. unfold answer, buildInjectionConfigForRequest.
  rewrite Hres. unfold mbind, M_bind. split.
  - intros Hage. rewrite (getExact_fresh _ _ _ _ Hh Ht Hz Hage). reflexivity.
  - intros Hage. rewrite (getExact_expired _ _ _ _ Hh Ht Hz Hage).
    cbn [active inactiveExact]. unfold mret, M_ret. cbn [fst snd turnstileTimestamps].
    split; [eexists; reflexivity|reflexivity].
Qed.

(** X20. When the protections are not off, the configuration a frame gets
    holds, under the name of each of the nine features that
    [shouldActivateFeature] activates for the URL of the request, the
    section of that feature, and nothing else.  It is empty when the
    protection is disabled, when the URL has no hostname, and when the
    hostname is on the global allowlist. *)
Theorem injection_config_sections config requestUrl sender s sections :
  (buildInjectionConfigForRequest clock urlHostname config requestUrl sender s).1
  = Protections sections ->
  (forall f,
      sections !! f
      = if existsb (String.eqb f) injectedFeatures
           && shouldActivateFeature urlHostname config requestUrl f
        then features config !! f
        else None)
  /\ (enabled config = false
      \/ urlHostname requestUrl = None
      \/ (exists hostname, urlHostname requestUrl = Some hostname
            /\ isWhitelisted hostname (globalWhitelist config) = true) ->
      sections = ∅).
Proof.
  unfold buildInjectionConfigForRequest, mbind, M_bind.
  destruct (getExactTurnstileBypass clock _ s) as [exactBypass s'].
  destruct (active exactBypass); unfold mret, M_ret; cbn [fst]; [discriminate|].
  intros [= <-].
  assert (Hlookup : forall f,
            addFeatureIfActive urlHostname config requestUrl "webrtc"
              (if shouldActivateFeature urlHostname config requestUrl "useragent"
               then match features config !! "useragent" with
                    | Some section =>
                        <["useragent" := section]>
                          (fold_left
                             (fun acc featureName =>
                                addFeatureIfActive urlHostname config requestUrl featureName acc)
                             ["canvas"; "webgl"; "font"; "clientrects"; "webgpu";
                              "audiocontext"; "timezone"] ∅)
                    | None =>
                        fold_left
                          (fun acc featureName =>
                             addFeatureIfActive urlHostname config requestUrl featureName acc)
                          ["canvas"; "webgl"; "font"; "clientrects"; "webgpu";
                           "audiocontext"; "timezone"] ∅
                    end
               else
                 fold_left
                   (fun acc featureName =>
                      addFeatureIfActive urlHostname config requestUrl featureName acc)
                   ["canvas"; "webgl"; "font"; "clientrects"; "webgpu";
                    "audiocontext"; "timezone"] ∅) !! f
            = if existsb (String.eqb f) injectedFeatures
                 && shouldActivateFeature urlHostname config requestUrl f
              then features config !! f
              else None).
  { intros f.
    change (if shouldActivateFeature urlHostname config requestUrl "useragent"
            then match features config !! "useragent" with
                 | Some section => <["useragent" := section]> ?acc
                 | None => ?acc
                 end
            else ?acc)
      with (addFeatureIfActive urlHostname config requestUrl "useragent" acc).
    cbn [fold_left]. rewrite !addFeatureIfActive_lookup, lookup_empty.
    unfold injectedFeatures. cbn [existsb].
    repeat match goal with
           | |- context [String.eqb f ?g] =>
               destruct (String.eqb_spec f g) as [->|_]; cbn [orb andb];
               [destruct (shouldActivateFeature urlHostname config requestUrl g);
                reflexivity|]
           end.
    reflexivity. }
  split; [exact Hlookup|].
  intros Hoff. apply map_eq. intros f. rewrite Hlookup, lookup_empty.
  rewrite (shouldActivateFeature_off _ _ f Hoff), andb_false_r. reflexivity.
Qed.

End Injection.

Lemma injection_off_during_bypass_witness :
  buildInjectionConfigForRequest (fun _ => Scenario.detectionTime + 90000) ExampleUrl.hostname
    Scenario.exampleConfig "https://a.com/login" None (Scenario.afterDetection "a.com")
  = (ProtectionsOff (Some "intranet.local, *.example.com"),
     tick 1 (Scenario.afterDetection "a.com")).
Proof.
  destruct (injection_off_during_bypass (fun _ => Scenario.detectionTime + 90000)
              ExampleUrl.hostname Scenario.exampleConfig "https://a.com/login" None
              (Scenario.afterDetection "a.com") "a.com" Scenario.detectionTime
              eq_refl eq_refl eq_refl ltac:(discriminate)) as [H _].
  apply H. reflexivity.
Defined.

Lemma injection_config_sections_witness :
  exists sections allowlisted,
    (buildInjectionConfigForRequest (fun _ => Scenario.detectionTime) ExampleUrl.hostname
       Scenario.exampleConfig "https://shop.example.net/cart" None Scenario.initialState).1
    = Protections sections
    /\ sections !! "canvas" = Some {| feature_enabled := true; feature_whitelist := Some "" |}
    /\ sections !! "webgl" = None
    /\ (buildInjectionConfigForRequest (fun _ => Scenario.detectionTime) ExampleUrl.hostname
          Scenario.exampleConfig "https://cdn.example.com/app.js" None Scenario.initialState).1
       = Protections allowlisted
    /\ allowlisted = ∅.
Proof.
  eexists _, _. split; [reflexivity|].
  destruct (injection_config_sections (fun _ => Scenario.detectionTime) ExampleUrl.hostname
              Scenario.exampleConfig "https://shop.example.net/cart" None
              Scenario.initialState _ eq_refl) as [Hlookup _].
  destruct (injection_config_sections (fun _ => Scenario.detectionTime) ExampleUrl.hostname
              Scenario.exampleConfig "https://cdn.example.com/app.js" None
              Scenario.initialState _ eq_refl) as [_ Hempty].
  split; [rewrite Hlookup; reflexivity|]. split; [rewrite Hlookup; reflexivity|].
  split; [reflexivity|].
  apply Hempty. right. right. exists "cdn.example.com". split; reflexivity.
Defined.

End InjectionSpec.

(** ** The bypass map across the handlers *)
Module CoordinatorSpec.
Import JsString JsStringFacts DomainFilter Background BackgroundFacts BackgroundTabs.

Section Handlers.
Variable clock : nat -> Z.
Variable urlHostname : string -> option string.

(** Reading an entry only ever deletes it, and starts nothing. *)
Lemma getExact_only_forgets hostname s :
  turnstileTimestamps (getExactTurnstileBypass clock hostname s).2 ⊆ turnstileTimestamps s
  /\ effects (getExactTurnstileBypass clock hostname s).2 = effects s.
Proof.
  unfold getExactTurnstileBypass.
  destruct hostname as [h|]; [|split; reflexivity].
  destruct (truthy h); cbn [negb]; [|split; reflexivity]. run_monad.
  destruct (getProperty (turnstileTimestamps s) h) as [|t|]; try (split; reflexivity).
  destruct (t =? 0); [split; reflexivity|].
  destruct (clock (clockReads s) - t >=? TURNSTILE_BYPASS_TTL_MS); [|split; reflexivity].
  cbn. split; [apply delete_subseteq|reflexivity].
Qed.

Lemma walk_only_forgets labels : forall s,
  turnstileTimestamps (walkLabelSuffixes clock labels s).2 ⊆ turnstileTimestamps s
  /\ effects (walkLabelSuffixes clock labels s).2 = effects s.
Proof.
  induction labels as [|l rest IH]; intros s; [split; reflexivity|].
  cbn [walkLabelSuffixes]. unfold mbind, M_bind.
  destruct (getExact_only_forgets (Some (join "." (l :: rest))) s) as [H1 H2].
  destruct (getExactTurnstileBypass clock (Some (join "." (l :: rest))) s) as [b s1].
  cbn [snd] in H1, H2. destruct (active b); [split; assumption|].
  destruct (IH s1) as [H3 H4]. split; [etrans; eassumption|congruence].
Qed.

(** X21. A status query never adds to the bypass map and starts nothing:
    every entry left after it was there before with the same timestamp.
    When the query has a hostname, every entry left is younger than the TTL
    at the moment the query first read the clock. *)
Theorem status_query_only_forgets request sender s :
  let s' := (handleCheckTurnstileStatusMessage clock urlHostname request sender s).2 in
  turnstileTimestamps s' ⊆ turnstileTimestamps s
  /\ effects s' = effects s
  /\ (truthyOpt (resolveTabHostname urlHostname sender (request_hostname request)) = true ->
      forall key timestamp,
        turnstileTimestamps s' !! key = Some timestamp ->
        clock (clockReads s) - timestamp < TURNSTILE_BYPASS_TTL_MS).
Proof.
  intros s'. unfold s', handleCheckTurnstileStatusMessage, mbind, M_bind.
  set (hostname := resolveTabHostname urlHostname sender (request_hostname request)).
  assert (H : turnstileTimestamps (getTurnstileBypassIncludingParents clock hostname s).2
              ⊆ turnstileTimestamps s
              /\ effects (getTurnstileBypassIncludingParents clock hostname s).2 = effects s
              /\ (truthyOpt hostname = true ->
                  forall key timestamp,
                    turnstileTimestamps (getTurnstileBypassIncludingParents clock hostname s).2
                      !! key = Some timestamp ->
                    clock (clockReads s) - timestamp < TURNSTILE_BYPASS_TTL_MS)).
  { destruct hostname as [h|]; [|repeat split; try reflexivity; discriminate].
    cbn [truthyOpt]. destruct (truthy h) eqn:Hh.
    2:{ unfold getTurnstileBypassIncludingParents. rewrite Hh.
        repeat split; try reflexivity; discriminate. }
    rewrite (getParents_unfold _ _ _ Hh).
    match goal with
    | |- context [walkLabelSuffixes clock ?l ?st] =>
        destruct (walk_only_forgets l st) as [H1 H2]
    end.
    cbn [turnstileTimestamps effects] in H1, H2.
    split; [etrans; [exact H1|apply map_filter_subseteq]|]. split; [exact H2|].
    intros _ key timestamp Hkey.
    pose proof (lookup_weaken _ _ _ _ Hkey H1) as Hp.
    apply map_lookup_filter_Some in Hp as [_ Hfresh]. exact Hfresh. }
  destruct (getTurnstileBypassIncludingParents clock hostname s) as [info s1].
  destruct (parent_active info); exact H.
Qed.

(** X22. No handler ever records a name of [Object.prototype]: a bypass map
    without such an own entry has none after a detected challenge, after a
    status query and after a request for the injection configuration. *)
Theorem handlers_keep_properKeys request sender config requestUrl s :
  properKeys (turnstileTimestamps s) ->
  properKeys
    (turnstileTimestamps (handleTurnstileDetectedMessage clock urlHostname request sender s).2)
  /\ properKeys
       (turnstileTimestamps
          (handleCheckTurnstileStatusMessage clock urlHostname request sender s).2)
  /\ properKeys
       (turnstileTimestamps
          (buildInjectionConfigForRequest clock urlHostname config requestUrl sender s).2).
Proof.
  intros Hinv. split; [|split].
  - apply BackgroundSpec.detected_preserves_properKeys, Hinv.
  - apply BackgroundSpec.status_preserves_properKeys, Hinv.
  - intros key Hkey. unfold buildInjectionConfigForRequest, mbind, M_bind.
    pose proof (getExact_keeps_absent clock
                  (resolveTabHostname urlHostname sender
                     (getHostnameFromUrl urlHostname requestUrl)) s key (Hinv key Hkey)) as H.
    destruct (getExactTurnstileBypass clock _ s) as [b s1].
    destruct (active b); exact H.
Qed.

(** X23. The first detection of a challenge on a hostname reads the clock
    twice and records the second reading for the hostname.  Of the other
    entries exactly those younger than the TTL at that moment stay; the
    re-application of the User-Agent rules followed by the reload of the
    sender's tab is started, and the answer is [{success: true}]. *)
Theorem first_detection_is_recorded request sender s h :
  resolveTabHostname urlHostname sender (request_hostname request) = Some h ->
  truthy h = true ->
  getProperty (turnstileTimestamps s) h = Undefined ->
  let now := clock (S (clockReads s)) in
  let answer := handleTurnstileDetectedMessage clock urlHostname request sender s in
  answer.1 = {| success := true; ignored := None; error := None |}
  /\ turnstileTimestamps answer.2 !! h = Some now
  /\ (forall key timestamp,
        key <> h ->
        turnstileTimestamps answer.2 !! key = Some timestamp
        <-> turnstileTimestamps s !! key = Some timestamp
            /\ now - timestamp < TURNSTILE_BYPASS_TTL_MS)
  /\ clockReads answer.2 = S (S (clockReads s))
  /\ effects answer.2
     = effects s ++
       [ApplyUserAgentSpoofingThenReload
          (match sender with
           | Some {| sender_tab := Some tab |} => tab_id tab
           | _ => None
           end) now].
Proof.
  intros Hres Hh Hundef now answer. unfold answer.
  rewrite (BackgroundSpec.detected_records clock urlHostname request sender s h Hres Hh Hundef).
  cbn [fst snd turnstileTimestamps clockReads effects]. fold now.
  split; [reflexivity|]. split; [|split; [|split; reflexivity]].
  - apply pruned_keeps; [apply lookup_insert_eq|].
    unfold TURNSTILE_BYPASS_TTL_MS. lia.
  - intros key timestamp Hkey. unfold pruned. rewrite map_lookup_filter_Some.
    rewrite lookup_insert_ne by congruence. reflexivity.
Qed.

(** X24. A hostname that is the name of a member of [Object.prototype], as
    [constructor] is, counts as bypassed although nothing was ever detected
    on it: a detected challenge is answered as a repetition and records
    nothing, and a request for the injection configuration is told that the
    protections are off. *)
Theorem prototype_name_counts_as_bypassed request sender config requestUrl s h :
  h ∈ objectPrototypeKeys ->
  properKeys (turnstileTimestamps s) ->
  (resolveTabHostname urlHostname sender (request_hostname request) = Some h ->
   handleTurnstileDetectedMessage clock urlHostname request sender s
   = ({| success := true; ignored := Some true; error := None |}, tick 1 s))
  /\ (resolveTabHostname urlHostname sender (getHostnameFromUrl urlHostname requestUrl)
      = Some h ->
      buildInjectionConfigForRequest clock urlHostname config requestUrl sender s
      = (ProtectionsOff (globalWhitelist config), tick 1 s)).
Proof.
  intros Hkey Hinv.
  assert (Hh : truthy h = true).
  { destruct h; [|reflexivity]. exfalso. revert Hkey. unfold objectPrototypeKeys.
    rewrite !elem_of_cons, elem_of_nil. intuition discriminate. }
  pose proof (getExact_inherited clock h s Hh (Hinv h Hkey) Hkey) as Hexact.
  split; intros Hres.
  - unfold handleTurnstileDetectedMessage. rewrite Hres, Hh. cbn [negb].
    unfold mbind, M_bind. rewrite Hexact. reflexivity.
  - unfold buildInjectionConfigForRequest. rewrite Hres. unfold mbind, M_bind.
    rewrite Hexact. reflexivity.
Qed.

End Handlers.

Lemma handlers_keep_properKeys_witness :
  properKeys
    (turnstileTimestamps
       (handleTurnstileDetectedMessage (fun _ => Scenario.detectionTime) ExampleUrl.hostname
          (Scenario.payload "constructor") None Scenario.initialState).2)
  /\ properKeys
       (turnstileTimestamps
          (handleTurnstileDetectedMessage (fun _ => Scenario.detectionTime) ExampleUrl.hostname
             (Scenario.payload "a.com") None Scenario.initialState).2).
Proof.
  split.
  - apply (handlers_keep_properKeys (fun _ => Scenario.detectionTime) ExampleUrl.hostname
             (Scenario.payload "constructor") None Scenario.exampleConfig "https://a.com/"
             Scenario.initialState).
    exact BackgroundSpec.properKeys_empty.
  - apply (handlers_keep_properKeys (fun _ => Scenario.detectionTime) ExampleUrl.hostname
             (Scenario.payload "a.com") None Scenario.exampleConfig "https://a.com/"
             Scenario.initialState).
    exact BackgroundSpec.properKeys_empty.
Defined.

Lemma first_detection_is_recorded_witness :
  let answer :=
    handleTurnstileDetectedMessage (fun _ => Scenario.detectionTime) ExampleUrl.hostname
      (Scenario.payload "a.com") Scenario.opaqueSender Scenario.initialState in
  turnstileTimestamps answer.2 !! "a.com" = Some Scenario.detectionTime
  /\ effects answer.2 = [ApplyUserAgentSpoofingThenReload (Some 7) Scenario.detectionTime].
Proof.
  destruct (first_detection_is_recorded (fun _ => Scenario.detectionTime) ExampleUrl.hostname
              (Scenario.payload "a.com") Scenario.opaqueSender Scenario.initialState "a.com"
              eq_refl eq_refl eq_refl) as (_ & H1 & _ & _ & H2).
  split; [exact H1|exact H2].
Defined.

Lemma prototype_name_counts_as_bypassed_witness :
  handleTurnstileDetectedMessage (fun _ => Scenario.detectionTime) ExampleUrl.hostname
    (Scenario.payload "constructor") None Scenario.initialState
  = ({| success := true; ignored := Some true; error := None |}, tick 1 Scenario.initialState)
  /\ buildInjectionConfigForRequest (fun _ => Scenario.detectionTime) ExampleUrl.hostname
       Scenario.exampleConfig "https://constructor/index.html" None Scenario.initialState
     = (ProtectionsOff (Some "intranet.local, *.example.com"), tick 1 Scenario.initialState).
Proof.
  destruct (prototype_name_counts_as_bypassed (fun _ => Scenario.detectionTime)
              ExampleUrl.hostname (Scenario.payload "constructor") None Scenario.exampleConfig
              "https://constructor/index.html" Scenario.initialState "constructor"
              ltac:(apply elem_of_cons; left; reflexivity)
              BackgroundSpec.properKeys_empty) as [H1 H2].
  split; [apply H1; reflexivity|apply H2; reflexivity].
Defined.

End CoordinatorSpec.

(** ** The proxy override for allowlisted tabs *)
Module ProxyOverrideSpec.
Import JsString DomainFilter BackgroundTabs ProxyOverride Notions.

Section Listeners.
Variable urlHostname : string -> option string.

(** A listener either makes no call and leaves the flag, or makes the call
    the flag asks for and turns the flag. *)
Lemma listen_turns currentConfig proxyEnabled e o :
  let '(o', call) := listen urlHostname currentConfig proxyEnabled e o in
  (call = None /\ proxyDisabledForWhitelist o' = proxyDisabledForWhitelist o)
  \/ (call = Some (if proxyDisabledForWhitelist o then ApplyProxySettings else SetSystemMode)
      /\ proxyDisabledForWhitelist o' = negb (proxyDisabledForWhitelist o)).
Proof.
  destruct o as [flag pending]. destruct e as [url|mainFrame tabId url|mainFrame url];
    cbn [listen].
  - unfold updateProxyForActiveTab. destruct (negb _); [left; split; reflexivity|].
    destruct (urlHostname url) as [hostname|]; [|left; split; reflexivity].
    cbn [proxyDisabledForWhitelist].
    destruct (onGlobalAllowlist hostname currentConfig), flag; cbn;
      (left; split; reflexivity) || (right; split; reflexivity).
  - unfold onBeforeRequest. destruct (negb mainFrame); [left; split; reflexivity|].
    destruct (bool_decide _); [left; split; reflexivity|].
    destruct (negb (startsWith url "http://") && negb (startsWith url "https://"));
      [left; split; reflexivity|].
    destruct (urlHostname url) as [hostname|]; [|left; split; reflexivity].
    destruct (negb _); [left; split; reflexivity|].
    cbn [proxyDisabledForWhitelist]. destruct flag; [left; split; reflexivity|].
    destruct (onGlobalAllowlist hostname currentConfig); cbn;
      (left; split; reflexivity) || (right; split; reflexivity).
  - unfold onBeforeNavigate. destruct (negb mainFrame); [left; split; reflexivity|].
    cbn [proxyDisabledForWhitelist]. destruct flag; [|left; split; reflexivity].
    destruct (urlHostname url) as [hostname|]; [|left; split; reflexivity].
    destruct (onGlobalAllowlist hostname currentConfig); cbn;
      (left; split; reflexivity) || (right; split; reflexivity).
Qed.

(** X25. Whatever tab updates, requests and navigations arrive, under
    whatever configurations, the listeners that share
    [proxyDisabledForWhitelist] switch the browser to the system mode and
    re-apply the stored proxy settings in turns: never twice the same call
    in a row, the system mode first when the flag is down.  The flag is up
    exactly after a switch to the system mode that has not been followed by
    a re-application. *)
Theorem proxy_override_calls_take_turns events o :
  let '(o', calls) := listenAll urlHostname events o in
  takeTurns (proxyDisabledForWhitelist o) calls
  /\ proxyDisabledForWhitelist o'
     = (if Nat.even (length calls)
        then proxyDisabledForWhitelist o
        else negb (proxyDisabledForWhitelist o)).
Proof.
  revert o. induction events as [|[[currentConfig proxyEnabled] e] rest IH]; intros o.
  - cbn. split; [exact I|reflexivity].
  - cbn [listenAll].
    pose proof (listen_turns currentConfig proxyEnabled e o) as Hstep.
    destruct (listen urlHostname currentConfig proxyEnabled e o) as [o1 call].
    specialize (IH o1). destruct (listenAll urlHostname rest o1) as [o2 calls].
    destruct IH as [Hturns Hflag].
    destruct Hstep as [[-> Hsame]|[-> Hturned]].
    + rewrite <- Hsame. split; assumption.
    + rewrite Hturned in Hturns, Hflag. cbn [takeTurns length].
      split; [split; [reflexivity|exact Hturns]|].
      rewrite Hflag, Nat.even_succ, <- Nat.negb_even.
      destruct (Nat.even (length calls)), (proxyDisabledForWhitelist o); reflexivity.
Qed.

(** A request is cancelled only when the system mode is set for it, and the
    tab is then remembered for its re-navigation. *)
Lemma cancelled_request_sets_system_mode currentConfig proxyEnabled mainFrame tabId url o :
  (onBeforeRequest urlHostname currentConfig proxyEnabled mainFrame tabId url o).2 = true ->
  (onBeforeRequest urlHostname currentConfig proxyEnabled mainFrame tabId url o).1
  = ({| proxyDisabledForWhitelist := true; pendingProxyDisableTabId := Some tabId |},
     Some SetSystemMode).
Proof.
  unfold onBeforeRequest. destruct (negb mainFrame); [discriminate|].
  destruct (bool_decide _); [discriminate|].
  destruct (negb (startsWith url "http://") && negb (startsWith url "https://"));
    [discriminate|].
  destruct (urlHostname url) as [hostname|]; [|discriminate].
  destruct (negb _); [discriminate|].
  destruct (proxyDisabledForWhitelist o); [discriminate|].
  destruct (onGlobalAllowlist hostname currentConfig); [reflexivity|discriminate].
Qed.

End Listeners.

(** A tab moves to an allowlisted site and away again. *)
Example proxy_override_example :
  listenAll ExampleUrl.hostname
    [ (Some Scenario.exampleConfig, true, BeforeRequest true 7 "https://cdn.example.com/");
      (Some Scenario.exampleConfig, true, BeforeRequest true 7 "https://cdn.example.com/");
      (Some Scenario.exampleConfig, true, ActiveTabChanged "https://cdn.example.com/");
      (Some Scenario.exampleConfig, true, BeforeNavigate true "https://a.com/");
      (Some Scenario.exampleConfig, true, ActiveTabChanged "https://a.com/") ]
    {| proxyDisabledForWhitelist := false; pendingProxyDisableTabId := None |}
  = ({| proxyDisabledForWhitelist := false; pendingProxyDisableTabId := None |},
     [SetSystemMode; ApplyProxySettings]).
Proof. vm_compute. reflexivity. Qed.

End ProxyOverrideSpec.

(** ** The allowlist button of the popup *)
Module PopupSpec.
Import JsString JsStringFacts JsStringMoreFacts DomainFilter DomainFilterFacts.
Import MatcherProperties Notions Popup.

#[local] Arguments String.append : simpl nomatch.

Lemma tokens_after_add h whitelistString :
  isToken h = true ->
  DomainFilter.isDomainInWhitelist (Some h) whitelistString = false ->
  tokensOf (addDomainToWhitelist (Some h) whitelistString)
  = tokensOf whitelistString ++ ["*." +:+ h].
Proof.
  intros Hh Hbare.
  pose proof (DomainFilterSpec.isToken_wildcard _ Hh) as He.
  pose proof Hh as (Hne & _ & _)%isToken_spec. apply truthy_true_iff in Hne.
  unfold addDomainToWhitelist. rewrite Hne, Hbare. cbn [negb].
  destruct whitelistString as [w|]; cbn [tokensOf].
  - destruct (negb (truthy w) || String.eqb (trim w) "") eqn:Hblank; cbn [tokensOf].
    + rewrite (parsePatterns_token _ He).
      apply orb_prop in Hblank as [Hw | Hw].
      * destruct w; [reflexivity|discriminate].
      * rewrite (parsePatterns_nil_of_trim_empty _ Hw). reflexivity.
    + change (trim w +:+ ", " +:+ "*." +:+ h)
        with (trim w +:+ String "," (String " " ("*." +:+ h))).
      rewrite parsePatterns_app_comma, parsePatterns_trim,
        parsePatterns_whitespace_cons, (parsePatterns_token _ He) by reflexivity.
      reflexivity.
  - rewrite (parsePatterns_token _ He). reflexivity.
Qed.

Lemma tokens_after_remove d whitelistString :
  truthy d = true ->
  tokensOf (removeDomainFromWhitelist (Some d) whitelistString)
  = List.filter (keptOnRemove d) (tokensOf whitelistString).
Proof.
  intros Hd. unfold removeDomainFromWhitelist. rewrite Hd. cbn [negb orb].
  destruct whitelistString as [w|]; [|reflexivity].
  destruct (truthy w) eqn:Hw; cbn [negb].
  - cbv zeta. fold (keptOnRemove d). cbn [tokensOf].
    apply parsePatterns_join, Forall_filter_tokens, parsePatterns_tokens_Forall.
  - destruct w; [reflexivity|discriminate Hw].
Qed.

(** The popup asks whether a token of the allowlist matches the hostname. *)
Lemma popup_check_tokens h whitelistString :
  truthy h = true ->
  Popup.isDomainInWhitelist h whitelistString
  = existsb (matchesPattern h) (tokensOf whitelistString).
Proof.
  intros Hh. unfold Popup.isDomainInWhitelist. rewrite Hh.
  destruct whitelistString as [w|]; [|reflexivity]. cbn [truthyOpt tokensOf negb].
  rewrite orb_false_r. destruct (truthy w) eqn:Hw; cbn [negb].
  - apply AllowlistProperties.isWhitelisted_existsb.
  - destruct w; [reflexivity|discriminate Hw].
Qed.

Lemma matchesPattern_lower_pattern hostname p q :
  toLowerCase p = toLowerCase q -> matchesPattern hostname p = matchesPattern hostname q.
Proof. intros E. unfold matchesPattern. rewrite E. reflexivity. Qed.

(** A token the hostname does not match is neither the hostname nor its
    wildcard form. *)
Lemma unmatched_token_kept h t :
  matchesPattern h t = false -> keptOnRemove h t = true.
Proof.
  intros Hno. unfold keptOnRemove.
  destruct (String.eqb (toLowerCase t) (toLowerCase h)) eqn:E1.
  - apply String.eqb_eq in E1.
    rewrite (AllowlistProperties.matches_equal_token h t E1) in Hno. discriminate Hno.
  - destruct (String.eqb (toLowerCase t) ("*." +:+ toLowerCase h)) eqn:E2; [|reflexivity].
    apply String.eqb_eq in E2.
    rewrite (matchesPattern_lower_pattern h t ("*." +:+ h)) in Hno
      by (rewrite E2; reflexivity).
    rewrite AllowlistProperties.matches_own_wildcard in Hno. discriminate Hno.
Qed.

Lemma existsb_none {A} (f : A -> bool) l :
  existsb f l = false -> forall x, In x l -> f x = false.
Proof.
  intros H x Hx. destruct (f x) eqn:E; [|reflexivity].
  assert (existsb f l = true); [|congruence].
  apply existsb_exists. exists x. split; assumption.
Qed.

Section Click.
Variable urlHostname : string -> option string.

(** X26. On a site that the global allowlist does not match, a click on the
    button of the popup adds the wildcard form of the hostname, after which
    the allowlist matches the site; a second click takes it out again: the
    tokens of the allowlist are those from before the two clicks, and the
    site is not matched. *)
Theorem toggle_round_trip url h config :
  truthy url = true ->
  urlHostname url = Some h ->
  isToken h = true ->
  Popup.isDomainInWhitelist h (globalWhitelist config) = false ->
  let once := click urlHostname (Some url) config in
  let twice := click urlHostname (Some url) once in
  tokensOf (globalWhitelist once) = tokensOf (globalWhitelist config) ++ ["*." +:+ h]
  /\ Popup.isDomainInWhitelist h (globalWhitelist once) = true
  /\ tokensOf (globalWhitelist twice) = tokensOf (globalWhitelist config)
  /\ Popup.isDomainInWhitelist h (globalWhitelist twice) = false.
Proof.
  intros Hurl Hhost Hh Hout once twice.
  pose proof Hh as (Hne & _ & _)%isToken_spec. apply truthy_true_iff in Hne.
  pose proof Hout as Hnone. rewrite (popup_check_tokens _ _ Hne) in Hnone.
  pose proof (existsb_none _ _ Hnone) as Hunmatched.
  assert (Hbare : DomainFilter.isDomainInWhitelist (Some h) (globalWhitelist config) = false).
  { unfold DomainFilter.isDomainInWhitelist.
    destruct (globalWhitelist config) as [w|]; [|reflexivity].
    destruct (negb (truthy w) || negb (truthy h)); [reflexivity|].
    destruct (existsb _ (parsePatterns w)) eqn:E; [|reflexivity].
    apply existsb_exists in E as (t & Ht & E%String.eqb_eq).
    pose proof (Hunmatched t Ht) as Hno.
    rewrite (AllowlistProperties.matches_equal_token h t E) in Hno. discriminate Hno. }
  assert (Honce : globalWhitelist once
                  = addDomainToWhitelist (Some h) (globalWhitelist config)).
  { unfold once, click, toggleCurrentSite. cbn [truthyOpt default]. change (id url) with url.
    rewrite Hurl, Hhost, Hout. reflexivity. }
  assert (Htokens : tokensOf (globalWhitelist once)
                    = tokensOf (globalWhitelist config) ++ ["*." +:+ h]).
  { rewrite Honce. apply tokens_after_add; assumption. }
  assert (Hin : Popup.isDomainInWhitelist h (globalWhitelist once) = true).
  { rewrite (popup_check_tokens _ _ Hne), Htokens, List.existsb_app. cbn [existsb].
    rewrite AllowlistProperties.matches_own_wildcard, orb_true_r. reflexivity. }
  assert (Htwice : globalWhitelist twice
                   = removeDomainFromWhitelist (Some h) (globalWhitelist once)).
  { unfold twice, click, toggleCurrentSite. cbn [truthyOpt default]. change (id url) with url.
    rewrite Hurl, Hhost, Hin. reflexivity. }
  assert (Hback : tokensOf (globalWhitelist twice) = tokensOf (globalWhitelist config)).
  { rewrite Htwice, (tokens_after_remove _ _ Hne), Htokens, List.filter_app.
    cbn [List.filter]. unfold keptOnRemove at 2.
    rewrite DomainFilterSpec.toLowerCase_wildcard, String.eqb_refl, andb_false_r, app_nil_r.
    apply DomainFilterSpec.filter_all. intros t Ht.
    apply unmatched_token_kept, Hunmatched, Ht. }
  split; [exact Htokens|]. split; [exact Hin|]. split; [exact Hback|].
  rewrite (popup_check_tokens _ _ Hne), Hback. exact Hnone.
Qed.

(** X27. On a site that the global allowlist matches only by patterns other
    than the hostname and its wildcard form, as a subdomain under the
    wildcard of its parent, the button offers the removal, but a click
    leaves the tokens of the allowlist as they are and the site matched. *)
Theorem toggle_keeps_wider_pattern url h config :
  truthy url = true ->
  urlHostname url = Some h ->
  Popup.isDomainInWhitelist h (globalWhitelist config) = true ->
  (forall t, In t (tokensOf (globalWhitelist config)) -> keptOnRemove h t = true) ->
  let once := click urlHostname (Some url) config in
  toggleCurrentSite urlHostname (Some url) (globalWhitelist config)
  = Some (RemoveFromWhitelist h)
  /\ tokensOf (globalWhitelist once) = tokensOf (globalWhitelist config)
  /\ Popup.isDomainInWhitelist h (globalWhitelist once) = true.
Proof.
  intros Hurl Hhost Hin Hkept once.
  assert (Hne : truthy h = true).
  { unfold Popup.isDomainInWhitelist in Hin. destruct (truthy h); [reflexivity|].
    rewrite orb_true_r in Hin. discriminate Hin. }
  assert (Hmessage : toggleCurrentSite urlHostname (Some url) (globalWhitelist config)
                     = Some (RemoveFromWhitelist h)).
  { unfold toggleCurrentSite. cbn [truthyOpt default]. change (id url) with url.
    rewrite Hurl, Hhost, Hin. reflexivity. }
  assert (Htokens : tokensOf (globalWhitelist once) = tokensOf (globalWhitelist config)).
  { unfold once, click. rewrite Hmessage. cbn [updateGlobalWhitelist globalWhitelist].
    rewrite (tokens_after_remove _ _ Hne). apply DomainFilterSpec.filter_all, Hkept. }
  split; [exact Hmessage|]. split; [exact Htokens|].
  rewrite (popup_check_tokens _ _ Hne), Htokens, <- (popup_check_tokens _ _ Hne). exact Hin.
Qed.

End Click.

Lemma toggle_round_trip_witness :
  let once := click ExampleUrl.hostname (Some "https://shop.example.net/cart")
                Scenario.exampleConfig in
  let twice := click ExampleUrl.hostname (Some "https://shop.example.net/cart") once in
  globalWhitelist once = Some "intranet.local, *.example.com, *.shop.example.net"
  /\ Popup.isDomainInWhitelist "shop.example.net" (globalWhitelist once) = true
  /\ tokensOf (globalWhitelist twice) = ["intranet.local"; "*.example.com"].
Proof.
  destruct (toggle_round_trip ExampleUrl.hostname "https://shop.example.net/cart"
              "shop.example.net" Scenario.exampleConfig eq_refl eq_refl eq_refl eq_refl)
    as (_ & H2 & H3 & _).
  split; [reflexivity|]. split; [exact H2|exact H3].
Defined.

Lemma toggle_keeps_wider_pattern_witness :
  let once := click ExampleUrl.hostname (Some "https://cdn.example.com/app.js")
                Scenario.exampleConfig in
  tokensOf (globalWhitelist once) = ["intranet.local"; "*.example.com"]
  /\ Popup.isDomainInWhitelist "cdn.example.com" (globalWhitelist once) = true.
Proof.
  destruct (toggle_keeps_wider_pattern ExampleUrl.hostname "https://cdn.example.com/app.js"
              "cdn.example.com" Scenario.exampleConfig eq_refl eq_refl eq_refl)
    as (_ & H2 & H3).
  - intros t [<-|[<-|[]]]; reflexivity.
  - split; [exact H2|exact H3].
Defined.

End PopupSpec.

(** ** Enabling a profile that was just added *)
Module ProxyEnableSpec.
Import JsString JsStringFacts JsStringMoreFacts Proxy ProxySettings Notions.

#[local] Arguments String.append : simpl nomatch.

Lemma find_fresh_last (added : ProxyProfile) (stored : list ProxyProfile) :
  ~ In (name added) (List.map name stored) ->
  List.find (fun p => String.eqb (name p) (name added)) (stored ++ [added]) = Some added.
Proof.
  induction stored as [|p stored IH]; intros Hfresh; cbn [app List.find].
  - rewrite String.eqb_refl. reflexivity.
  - destruct (String.eqb (name p) (name added)) eqn:E.
    + apply String.eqb_eq in E. exfalso. apply Hfresh. left. exact E.
    + apply IH. intros Hin. apply Hfresh. right. exact Hin.
Qed.

Lemma candidateName_nonempty base k : candidateName base k <> "".
Proof.
  unfold candidateName. intros H. apply (f_equal String.length) in H.
  rewrite !length_append in H. cbn [String.length] in H. lia.
Qed.

Section Storage.
Variables (Sections Store : Type).
Variable loadConfig : Store -> Config Sections.
Variable saveConfig : Config Sections -> Store -> Store.
Variable enabledIsFalse : Sections -> bool.
Variable globalWhitelist : Sections -> option string.
Variable generatedName : string -> string.
Variable generatePACScript :
  list ProxyProfile -> list Route -> option string -> option string -> list string -> string.

(** X28. A profile that [addProxyProfile] has just added can be enabled
    under the name it was given: with no route and no global allowlist,
    [enableProxy] of that name stores it as the active profile and hands the
    browser the host, port and scheme of the added profile, never those of
    an older profile, because the name is fresh. *)
Theorem added_profile_can_be_enabled profile store store1 added :
  proxySectionIsStored loadConfig saveConfig ->
  generatedName (host profile) <> "" ->
  domainRoutes (proxy (loadConfig store)) = [] ->
  addProxyProfile Sections Store loadConfig saveConfig generatedName profile store
  = Some (store1, added) ->
  let enabling :=
    enableProxy Sections Store loadConfig saveConfig enabledIsFalse globalWhitelist
      generatePACScript (name added) store1 in
  enabledIsFalse (otherSections (loadConfig enabling.1)) = false ->
  match globalWhitelist (otherSections (loadConfig enabling.1)) with
  | Some w => trim w = ""
  | None => True
  end ->
  let bypass := normalizeBypassList (bypassList (proxy (loadConfig store))) in
  enabling.2
  = Some (FixedServers (scheme profile) (host profile) (port profile)
            (if (0 <? length bypass)%nat then Some bypass else None))
  /\ enabled (proxy (loadConfig enabling.1)) = true
  /\ activeProfile (proxy (loadConfig enabling.1)) = Some (name added).
Proof.
  intros Hlaw Hgenerated Hroutes Hadd enabling Hon Hallow bypass.
  unfold proxySectionIsStored in Hlaw. unfold addProxyProfile in Hadd.
  set (asked := if negb (truthy (name profile)) || String.eqb (trim (name profile)) ""
                then generatedName (host profile) else name profile) in Hadd.
  assert (Hasked : asked <> "").
  { unfold asked. destruct (truthy (name profile)) eqn:Hn; cbn [negb orb]; [|exact Hgenerated].
    destruct (String.eqb (trim (name profile)) ""); [exact Hgenerated|].
    apply truthy_true_iff, Hn. }
  destruct (uniqueName _ 1 _ asked asked) as [finalName|] eqn:Hunique; [|discriminate Hadd].
  destruct (ProxyProfilesSpec.uniqueName_Some _ _ _ _ _ _ Hunique) as [Hfresh Hshape].
  assert (Hfinal : truthy finalName = true).
  { apply truthy_true_iff. destruct Hshape as [->|(_ & k & _ & -> & _)];
      [exact Hasked|apply candidateName_nonempty]. }
  injection Hadd as Hstore1 Hadded.
  assert (Hname : name added = finalName) by (rewrite <- Hadded; reflexivity).
  assert (Hproxy1 : proxy (loadConfig store1)
                    = {| enabled := enabled (proxy (loadConfig store));
                         activeProfile := activeProfile (proxy (loadConfig store));
                         profiles := profiles (proxy (loadConfig store)) ++ [added];
                         domainRoutes := [];
                         bypassList := bypassList (proxy (loadConfig store)) |}).
  { rewrite <- Hstore1, Hlaw. cbn [withProxy proxy]. rewrite Hroutes, Hadded. reflexivity. }
  assert (Hproxy2 : proxy (loadConfig enabling.1)
                    = {| enabled := true;
                         activeProfile := Some (name added);
                         profiles := profiles (proxy (loadConfig store)) ++ [added];
                         domainRoutes := [];
                         bypassList := bypassList (proxy (loadConfig store)) |}).
  { unfold enabling, enableProxy. cbn [fst]. rewrite Hlaw. cbn [withProxy proxy].
    rewrite Hproxy1. reflexivity. }
  split; [|rewrite Hproxy2; split; reflexivity].
  assert (Happlied : enabling.2
                     = applyProxySettings Sections Store loadConfig enabledIsFalse
                         globalWhitelist generatePACScript enabling.1) by reflexivity.
  rewrite Happlied. unfold applyProxySettings. rewrite Hon, Hproxy2.
  cbn [enabled negb domainRoutes activeProfile profiles bypassList length Nat.eqb andb
       truthyOpt default].
  rewrite Hname, Hfinal. cbn [negb]. change (id finalName) with finalName.
  assert (Hnone : match globalWhitelist (otherSections (loadConfig enabling.1)) with
                  | Some w => negb (String.eqb (trim w) "")
                  | None => false
                  end = false).
  { destruct (globalWhitelist _) as [w|]; [|reflexivity]. rewrite Hallow. reflexivity. }
  rewrite Hnone. cbn [negb]. rewrite <- Hname.
  rewrite (find_fresh_last added (profiles (proxy (loadConfig store))))
    by (rewrite Hname; exact Hfresh).
  rewrite <- Hadded. cbn [scheme host port]. reflexivity.
Qed.

End Storage.

Lemma added_profile_can_be_enabled_witness :
  let newcomer :=
    {| name := "NYC"; host := "192.0.2.9"; port := 3128; scheme := "http";
       remoteDNS := false |} in
  exists store1 added,
    addProxyProfile _ _ ProxyScenario.load ProxyScenario.save (fun h => "Proxy " +:+ h)
      newcomer ProxyScenario.fixedStore = Some (store1, added)
    /\ name added = "NYC (1)"
    /\ (enableProxy _ _ ProxyScenario.load ProxyScenario.save ProxyScenario.restEnabledIsFalse
          ProxyScenario.restGlobalWhitelist ProxyScenario.pacText (name added) store1).2
       = Some (FixedServers "http" "192.0.2.9" 3128
                 (Some ["localhost"; "example.com"; "*.example.com"; "*example.com"])).
Proof.
  intros newcomer. eexists _, _. split; [reflexivity|]. split; [reflexivity|].
  destruct (added_profile_can_be_enabled _ _ ProxyScenario.load ProxyScenario.save
              ProxyScenario.restEnabledIsFalse ProxyScenario.restGlobalWhitelist
              (fun h => "Proxy " +:+ h) ProxyScenario.pacText
              newcomer ProxyScenario.fixedStore _ _
              (fun _ _ => eq_refl) ltac:(discriminate) eq_refl eq_refl eq_refl eq_refl)
    as [H _].
  exact H.
Defined.

End ProxyEnableSpec.

(** ** Notifications and active features *)
Module NotificationGateSpec.
Import JsString JsStringFacts DomainFilter Background BackgroundTabs.

Section Gate.
Variable urlHostname : string -> option string.

(** X29. A notification is raised only for a feature that is switched on
    under an enabled protection and on a hostname outside the allowlist of
    the feature: when a detection on a non-empty hostname raises one, then
    for a URL of that hostname [shouldActivateFeature] differs from this
    only by the global allowlist, which the notification does not
    consult. *)
Theorem notified_feature_is_active
    notificationsEnabled config now feature hostname url notifier :
  urlHostname url = Some hostname ->
  truthy hostname = true ->
  created (handleFingerprintDetection notificationsEnabled config now feature hostname notifier)
  <> created notifier ->
  notificationsEnabled = true
  /\ shouldActivateFeature urlHostname config url
       (if String.eqb feature "user-agent" then "useragent" else feature)
     = negb (isWhitelisted hostname (globalWhitelist config)).
Proof.
  intros Hurl Hh. unfold handleFingerprintDetection, shouldActivateFeature, extractHostname.
  destruct notificationsEnabled; cbn [negb]; [|congruence].
  destruct (enabled config); cbn [negb]; [|congruence].
  destruct (features config !! _) as [featureConfig|]; [|congruence].
  destruct (feature_enabled featureConfig); cbn [negb]; [|congruence].
  rewrite Hurl, Hh. cbn [negb].
  unfold isHostnameOnFeatureAllowlist. rewrite Hh. cbn [negb orb].
  set (featureWhitelist := match feature_whitelist featureConfig with
                           | Some w => if truthy w then w else ""
                           | None => ""
                           end).
  assert (Hsame : (if negb (truthy featureWhitelist) then false
                   else isWhitelisted hostname (Some featureWhitelist))
                  = isWhitelisted hostname (Some featureWhitelist)).
  { destruct (truthy featureWhitelist) eqn:E; [reflexivity|].
    destruct featureWhitelist; [reflexivity|discriminate E]. }
  rewrite Hsame. destruct (isWhitelisted hostname (Some featureWhitelist)); [congruence|].
  intros _. split; [reflexivity|].
  destruct (isWhitelisted hostname (globalWhitelist config)); reflexivity.
Qed.

End Gate.

Lemma notified_feature_is_active_witness :
  shouldActivateFeature ExampleUrl.hostname Scenario.exampleConfig "https://a.com/login" "canvas"
  = true
  /\ shouldActivateFeature ExampleUrl.hostname Scenario.exampleConfig
       "https://cdn.example.com/app.js" "canvas"
     = false.
Proof.
  split.
  - destruct (notified_feature_is_active ExampleUrl.hostname true Scenario.exampleConfig
                Scenario.detectionTime "canvas" "a.com" "https://a.com/login"
                {| lastNotificationTime := ∅; created := [] |} eq_refl eq_refl) as [_ H].
    + vm_compute. discriminate.
    + cbn [String.eqb Ascii.eqb Bool.eqb] in H. rewrite H. vm_compute. reflexivity.
  - destruct (notified_feature_is_active ExampleUrl.hostname true Scenario.exampleConfig
                Scenario.detectionTime "canvas" "cdn.example.com"
                "https://cdn.example.com/app.js"
                {| lastNotificationTime := ∅; created := [] |} eq_refl eq_refl) as [_ H].
    + vm_compute. discriminate.
    + cbn [String.eqb Ascii.eqb Bool.eqb] in H. rewrite H. vm_compute. reflexivity.
Defined.

End NotificationGateSpec.
